(** * FastLED CI helpers: [ci/ci/compile_for_board.py] and [ci/docs.py]

    A shallow embedding of the two CI scripts and the properties their
    specification states about them.

    - [Py] models the Python string operations the scripts call
      ([str.replace], [str.strip], [in], [subprocess.list2cmdline],
      [re.sub] with the one pattern the scripts use), the paths of
      [pathlib] as the scripts build them, and the line ends of files
      opened in text mode.
    - [Effects] is the state-and-exception monad both scripts are written
      in.
    - [CompileForBoard] embeds [ci/ci/compile_for_board.py]: a state made
      of the module global [ERROR_HAPPENED] and the chronological log of
      everything the module does to the outside world.
    - [Docs] and [Pipeline] embed [ci/docs.py] over a file system map and
      the console.
    - [Scenario] and [MoreScenarios] hold concrete boards, environments
      and tool answers.
    - [PyFacts], [Newlines], [CompileForBoardProofs], [DocsProofs] and the
      modules behind them hold the proofs.

    External programs (the board build tool, git, wget, tar, the archive
    helpers) are oracles: the theorems hold for every behaviour of them. *)

From Stdlib Require Import ZArith Lia Bool Ascii String List DecimalString.
From stdpp Require Import base option strings gmap.
Import ListNotations.

Local Open Scope string_scope.
Local Open Scope Z_scope.

(* ===================================================================== *)
(** * Python strings *)
(* ===================================================================== *)

Module Py.

(** Python [str] values are modelled by [string]; one [ascii] stands for one
    code point, so the model covers text in the range 0..255. *)

Definition nl : ascii := "010"%char.
Definition LF : string := String nl EmptyString.
Definition backslash : ascii := "\"%char.
Definition dquote : ascii := "034"%char.

Definition is_empty (s : string) : bool :=
  match s with EmptyString => true | String _ _ => false end.

(** [s.startswith(p)] *)
Fixpoint startswith (p s : string) : bool :=
  match p, s with
  | EmptyString, _ => true
  | String a p', String b s' => if Ascii.eqb a b then startswith p' s' else false
  | String _ _, EmptyString => false
  end.

(** [s[n:]] *)
Fixpoint drop (n : nat) (s : string) : string :=
  match n, s with
  | O, _ => s
  | S n', String _ s' => drop n' s'
  | S _, EmptyString => EmptyString
  end.

(** [s[:n]] *)
Fixpoint take (n : nat) (s : string) : string :=
  match n, s with
  | O, _ => EmptyString
  | S n', String c s' => String c (take n' s')
  | S _, EmptyString => EmptyString
  end.

(** [sub in s] *)
Fixpoint contains (sub s : string) : bool :=
  startswith sub s ||
  match s with
  | EmptyString => false
  | String _ s' => contains sub s'
  end.

(** [s.find(sub)], [None] standing for -1. *)
Fixpoint find (sub s : string) : option nat :=
  if startswith sub s then Some O
  else match s with
       | EmptyString => None
       | String _ s' => option_map S (find sub s')
       end.

(** [c in s] for one character. *)
Fixpoint has_char (c : ascii) (s : string) : bool :=
  match s with
  | EmptyString => false
  | String d s' => Ascii.eqb c d || has_char c s'
  end.

(** [s.replace(old, new)]: a single scan from the left; an occurrence that
    is found is replaced and the scan resumes behind it, so occurrences do
    not overlap and the text that was put in is not scanned again.  [skip]
    counts the characters of a found occurrence that remain to be passed
    over.  With an empty [old], Python puts [new] in front of every
    character and at the end. *)
Fixpoint replace_from (old new : string) (skip : nat) (s : string) : string :=
  match s with
  | EmptyString => if is_empty old then new else EmptyString
  | String c s' =>
      match skip with
      | S k => replace_from old new k s'
      | O =>
          if is_empty old then new ++ String c (replace_from old new O s')
          else if startswith old s
               then new ++ replace_from old new (String.length old - 1) s'
               else String c (replace_from old new O s')
      end
  end.

Definition replace (old new s : string) : string := replace_from old new O s.

(** [c.isspace()] on the characters of the model: TAB, LF, VT, FF, CR, the
    separators FS, GS, RS, US, the space, NEL and the no-break space.  [\s]
    in a [str] pattern of [re] matches the same characters. *)
Definition isspace (c : ascii) : bool :=
  let n := nat_of_ascii c in
  ((9 <=? n)%nat && (n <=? 13)%nat) || ((28 <=? n)%nat && (n <=? 32)%nat)
  || (n =? 133)%nat || (n =? 160)%nat.

Fixpoint lstrip (s : string) : string :=
  match s with
  | EmptyString => EmptyString
  | String c s' => if isspace c then lstrip s' else s
  end.

Fixpoint rstrip (s : string) : string :=
  match s with
  | EmptyString => EmptyString
  | String c s' =>
      let r := rstrip s' in
      if is_empty r && isspace c then EmptyString else String c r
  end.

(** [s.strip()] *)
Definition strip (s : string) : string := rstrip (lstrip s).

(** [sep.join(parts)] *)
Fixpoint join (sep : string) (parts : list string) : string :=
  match parts with
  | [] => EmptyString
  | [p] => p
  | p :: rest => p ++ sep ++ join sep rest
  end.

(** [str(n)] for an [int]. *)
Definition str_of_Z (z : Z) : string := NilZero.string_of_int (Z.to_int z).

(** ** [subprocess.list2cmdline] *)

Fixpoint backslashes (n : nat) : string :=
  match n with
  | O => EmptyString
  | S k => String backslash (backslashes k)
  end.

(** The characters of one argument, with the pending backslashes [bs]
    ([bs_buf] in CPython, kept as a count). *)
Fixpoint quote_chars (bs : nat) (arg : string) : string * nat :=
  match arg with
  | EmptyString => (EmptyString, bs)
  | String c rest =>
      if Ascii.eqb c backslash then quote_chars (S bs) rest
      else if Ascii.eqb c dquote then
        let '(r, b) := quote_chars O rest in
        (backslashes (bs * 2) ++ "\" ++ String c r, b)
      else
        let '(r, b) := quote_chars O rest in
        (backslashes bs ++ String c r, b)
  end.

Definition quote_arg (arg : string) : string :=
  let needquote := has_char " "%char arg || has_char "009"%char arg || is_empty arg in
  let '(body, bs) := quote_chars O arg in
  let tail := backslashes bs in
  if needquote then String dquote (body ++ tail ++ tail ++ String dquote EmptyString)
  else body ++ tail.

Definition list2cmdline (seq : list string) : string :=
  join " " (map quote_arg seq).

(** ** [re.sub(r"(?m)^PROJECT_NUMBER\s*=.*", repl, string)] *)

(** *** The replacement template

    [re] reads [repl] as a template (the rules are those of CPython 3.12,
    [re._parser.parse_template], where a numeric group name is made of
    decimal digits only): a backslash starts an escape, every other
    character stands for itself.  The pattern has no group of its own, so
    the only group reference that can be resolved is the whole match,
    [\g<0>]. *)
Inductive TemplatePart :=
| TLit (text : string)
| TGroup0.

Definition chr (n : nat) : string := String (ascii_of_nat n) EmptyString.

Definition is_digit (c : ascii) : bool :=
  let n := nat_of_ascii c in (48 <=? n)%nat && (n <=? 57)%nat.

Definition is_octdigit (c : ascii) : bool :=
  let n := nat_of_ascii c in (48 <=? n)%nat && (n <=? 55)%nat.

Definition is_ascii_letter (c : ascii) : bool :=
  let n := nat_of_ascii c in
  ((65 <=? n)%nat && (n <=? 90)%nat) || ((97 <=? n)%nat && (n <=? 122)%nat).

Definition digit_val (c : ascii) : nat := nat_of_ascii c - 48.

Fixpoint all_chars (p : ascii -> bool) (s : string) : bool :=
  match s with
  | EmptyString => true
  | String c s' => p c && all_chars p s'
  end.

(** The number of leading characters of [s] that satisfy [p]. *)
Fixpoint span (p : ascii -> bool) (s : string) : nat :=
  match s with
  | EmptyString => O
  | String c s' => if p c then S (span p s') else O
  end.

(** [ESCAPES] of [re._parser], restricted to what a template accepts. *)
Definition simple_escape (c : ascii) : option nat :=
  if Ascii.eqb c "a" then Some 7%nat
  else if Ascii.eqb c "b" then Some 8%nat
  else if Ascii.eqb c "f" then Some 12%nat
  else if Ascii.eqb c "n" then Some 10%nat
  else if Ascii.eqb c "r" then Some 13%nat
  else if Ascii.eqb c "t" then Some 9%nat
  else if Ascii.eqb c "v" then Some 11%nat
  else if Ascii.eqb c backslash then Some 92%nat
  else None.

(** The escape that starts behind a backslash: the part it stands for and
    the number of characters it takes, the backslash included.  [None] is
    an error ([re.error], or [IndexError] for an unknown group name). *)
Definition escape_at (rest : string) : option (TemplatePart * nat) :=
  match rest with
  | EmptyString => None                       (* bad escape (end of pattern) *)
  | String c r =>
      if Ascii.eqb c "g" then
        match r with
        | String lt r2 =>
            if Ascii.eqb lt "<" then
              match find ">" r2 with
              | None => None                  (* missing >, unterminated name *)
              | Some i =>
                  let name := take i r2 in
                  if is_empty name then None  (* missing group name *)
                  else if all_chars (Ascii.eqb "0") name
                  then Some (TGroup0, (3 + i + 1)%nat)
                  else None                   (* invalid or unknown group *)
              end
            else None                         (* missing < *)
        | EmptyString => None
        end
      else if Ascii.eqb c "0" then
        match r with
        | String d1 r2 =>
            if is_octdigit d1 then
              match r2 with
              | String d2 _ =>
                  if is_octdigit d2
                  then Some (TLit (chr ((digit_val d1 * 8 + digit_val d2) mod 256)), 4%nat)
                  else Some (TLit (chr (digit_val d1)), 3%nat)
              | EmptyString => Some (TLit (chr (digit_val d1)), 3%nat)
              end
            else Some (TLit (chr 0), 2%nat)
        | EmptyString => Some (TLit (chr 0), 2%nat)
        end
      else if is_digit c then
        match r with
        | String d1 (String d2 _) =>
            if is_octdigit c && is_octdigit d1 && is_octdigit d2 then
              let v := (digit_val c * 64 + digit_val d1 * 8 + digit_val d2)%nat in
              if (v <=? 255)%nat then Some (TLit (chr v), 4%nat)
              else None                       (* octal escape out of range *)
            else None                         (* invalid group reference *)
        | _ => None                           (* invalid group reference *)
        end
      else
        match simple_escape c with
        | Some n => Some (TLit (chr n), 2%nat)
        | None =>
            if is_ascii_letter c then None    (* bad escape *)
            else Some (TLit (String backslash (String c EmptyString)), 2%nat)
        end
  end.

Definition token_at (s : string) : option (TemplatePart * nat) :=
  match s with
  | EmptyString => None
  | String c rest =>
      if Ascii.eqb c backslash then escape_at rest
      else Some (TLit (String c EmptyString), 1%nat)
  end.

Fixpoint parse_template_from (skip : nat) (s : string) : option (list TemplatePart) :=
  match s with
  | EmptyString => Some []
  | String _ s' =>
      match skip with
      | S k => parse_template_from k s'
      | O =>
          match token_at s with
          | None => None
          | Some (part, len) =>
              option_map (cons part) (parse_template_from (len - 1) s')
          end
      end
  end.

Definition parse_template (repl : string) : option (list TemplatePart) :=
  parse_template_from O repl.

Fixpoint expand_template (parts : list TemplatePart) (whole : string) : string :=
  match parts with
  | [] => EmptyString
  | TLit t :: rest => t ++ expand_template rest whole
  | TGroup0 :: rest => whole ++ expand_template rest whole
  end.

(** *** The pattern

    [PROJECT_NUMBER_match s] is the length of the match of
    [PROJECT_NUMBER\s*=.*] at the head of [s]: the key, the longest run of
    white space (which may run over line ends), an equals sign, and
    everything up to the end of the line.  The equals sign is no white
    space, so the greedy [\s*] never has to give a character back. *)
Definition PROJECT_NUMBER_key : string := "PROJECT_NUMBER".

Definition not_nl (c : ascii) : bool := negb (Ascii.eqb c nl).

Definition PROJECT_NUMBER_match (s : string) : option nat :=
  if startswith PROJECT_NUMBER_key s then
    let r := drop 14 s in
    let w := span isspace r in
    match drop w r with
    | String c r' =>
        if Ascii.eqb c "=" then Some (14 + w + 1 + span not_nl r')%nat else None
    | EmptyString => None
    end
  else None.

(** The scan of [re.sub].  [bol] says whether the position is one where
    [(?m)^] matches: the start of the text or behind a line feed.  A match
    is never empty and never ends in a line feed, so the scan resumes behind
    it at a position that is no start of a line. *)
Fixpoint sub_from (parts : list TemplatePart) (bol : bool) (skip : nat) (s : string)
    : string :=
  match s with
  | EmptyString => EmptyString
  | String c s' =>
      match skip with
      | S k => sub_from parts false k s'
      | O =>
          match (if bol then PROJECT_NUMBER_match s else None) with
          | Some n => expand_template parts (take n s) ++ sub_from parts false (n - 1) s'
          | None => String c (sub_from parts (Ascii.eqb c nl) O s')
          end
      end
  end.

(** [re.sub(r"(?m)^PROJECT_NUMBER\s*=.*", repl, text)]; [None] when [re]
    rejects the template, which it reads before it looks for a match. *)
Definition sub_PROJECT_NUMBER (repl text : string) : option string :=
  match parse_template repl with
  | Some parts => Some (sub_from parts true O text)
  | None => None
  end.

(** *** Reading a text line by line *)

(** A text is empty or begins with a line feed. *)
Definition at_line_end (s : string) : bool :=
  match s with
  | EmptyString => true
  | String c _ => Ascii.eqb c nl
  end.

(** Behind the key: white space, then the equals sign. *)
Definition tail_ok (r : string) : bool :=
  match drop (span isspace r) r with
  | String c _ => Ascii.eqb c "="
  | EmptyString => false
  end.

(** [text.split("\n")]: the lines of a text, without their line feeds. *)
Fixpoint lines (text : string) : list string :=
  match text with
  | EmptyString => [EmptyString]
  | String c rest =>
      if Ascii.eqb c nl then EmptyString :: lines rest
      else match lines rest with
           | l :: ls => String c l :: ls
           | [] => [String c EmptyString]
           end
  end.

(** A line that is the key followed by nothing but white space: the
    pattern can go on from it into the lines below. *)
Definition dangling_key (l : string) : bool :=
  startswith PROJECT_NUMBER_key l && all_chars isspace (drop 14 l).

(** The patch of one line: a line that the pattern matches is replaced by
    the expanded template, any other line is kept. *)
Definition patch_line (parts : list TemplatePart) (l : string) : string :=
  match PROJECT_NUMBER_match l with
  | Some _ => expand_template parts l
  | None => l
  end.

(** The template that a text without backslash is: itself, character by
    character. *)
Fixpoint literal_parts (t : string) : list TemplatePart :=
  match t with
  | EmptyString => []
  | String c t' => TLit (String c EmptyString) :: literal_parts t'
  end.

(** ** [pathlib], posix flavour *)

(** [s.split(c)] *)
Fixpoint split_on (c : ascii) (s : string) : list string :=
  match s with
  | EmptyString => [EmptyString]
  | String x rest =>
      if Ascii.eqb x c then EmptyString :: split_on c rest
      else match split_on c rest with
           | l :: ls => String x l :: ls
           | [] => [String x EmptyString]
           end
  end.

Definition is_slash (c : ascii) : bool := Ascii.eqb c "/".

(** A parsed path, in the flavour of POSIX, in which the scripts hand
    their paths to the tools ([as_posix]): its root ([/], [//] or none)
    and its names.  The names
    of a text are what stands between its slashes, without the empty
    names and the names that are a single dot. *)
Record PurePath := { path_root : string; path_names : list string }.

Definition Path (s : string) : PurePath :=
  let n := span is_slash s in
  {| path_root := if (n =? 0)%nat then EmptyString
                  else if (n =? 2)%nat then "//" else "/";
     path_names :=
       List.filter (fun x => negb (is_empty x) && negb (String.eqb x "."))
                   (split_on "/" (drop n s)) |}.

(** [p / b]: a [b] with a root takes the place of [p]. *)
Definition truediv (p : PurePath) (b : string) : PurePath :=
  let q := Path b in
  if is_empty (path_root q)
  then {| path_root := path_root p; path_names := path_names p ++ path_names q |}
  else q.

(** [p.as_posix()], which is [str(p)] in this flavour. *)
Definition as_posix (p : PurePath) : string :=
  if is_empty (path_root p)
  then match path_names p with
       | [] => "."
       | _ => join "/" (path_names p)
       end
  else path_root p ++ join "/" (path_names p).

(** [(Path(a) / b).as_posix()] *)
Definition path_join (a b : string) : string := as_posix (truediv (Path a) b).

(** ** Line ends of text files *)

Definition CR : ascii := "013"%char.

(** What reading in text mode makes of the stored characters: the line
    ends CR LF and CR become LF. *)
Definition universal_newlines (stored : string) : string :=
  replace (String CR EmptyString) LF (replace (String CR LF) LF stored).

(** What writing in text mode stores: every LF becomes [os.linesep]. *)
Definition write_newlines (linesep text : string) : string :=
  if String.eqb linesep LF then text else replace LF linesep text.

(** [os.linesep], as the module [os] sets it from [os.name]. *)
Definition linesep_of (os_name : string) : string :=
  if String.eqb os_name "nt" then String CR LF else LF.

End Py.

(* ===================================================================== *)
(** * Effects: state and exceptions *)
(* ===================================================================== *)

Module Effects.

(** The command of a [subprocess.run]: an argument list, or one line for
    the shell. *)
Inductive Command :=
| Argv (args : list string)
| Shell (line : string).

(** The exceptions the two scripts can meet. *)
Inductive Exn :=
| CalledProcessError (returncode : Z) (cmd : Command)
| FileNotFoundError (msg : string)
| ReError                        (* re.error or IndexError out of re.sub *)
| ExternalError (what : string). (* a failure inside download or unpack_archive *)

Inductive Outcome (A : Type) :=
| Ret (a : A)
| Raise (e : Exn).
Arguments Ret {A} a.
Arguments Raise {A} e.

(** A computation over a state [S] that returns or raises. *)
Definition M (S A : Type) : Type := S -> Outcome A * S.

Definition ret {S A} (a : A) : M S A := fun st => (Ret a, st).

Definition bind {S A B} (m : M S A) (k : A -> M S B) : M S B := fun st =>
  match m st with
  | (Ret a, st') => k a st'
  | (Raise e, st') => (Raise e, st')
  end.

Definition raise {S A} (e : Exn) : M S A := fun st => (Raise e, st).

Declare Scope py_scope.
Delimit Scope py_scope with py.
Notation "x <- m ;; k" := (bind m (fun x => k))
  (at level 100, m at next level, right associativity) : py_scope.
Notation "m ;;; k" := (bind m (fun _ => k))
  (at level 100, right associativity) : py_scope.

End Effects.

(* ===================================================================== *)
(** * [ci/ci/compile_for_board.py] *)
(* ===================================================================== *)

Module CompileForBoard.
Import Py Effects.

(** [ci.boards.Board]: the module reads its [board_name] only. *)
Record Board := { board_name : string }.

(** What the module does to the outside world, in the order it happens. *)
Inductive Event :=
| EvPrint (msg : string)        (* locked_print(msg) *)
| EvMkdir (path : string)       (* Path.mkdir(parents=True, exist_ok=True) *)
| EvRun (cmd : list string)     (* subprocess.run(cmd, ...) *)
| EvAcquire                     (* entering [with FIRST_BUILD_LOCK] *)
| EvRelease.                    (* leaving it *)

(** The module global and the log.  The batches of other boards run the
    same code on the same global; whatever they did between two steps of a
    batch shows in the state its next step starts from, and what is proved
    of an iteration of the loop is proved for every such state. *)
Record State := { ERROR_HAPPENED : bool; log : list Event }.

Definition initial_state : State := {| ERROR_HAPPENED := false; log := [] |}.

Local Open Scope py_scope.

Definition emit (e : Event) : M State unit := fun st =>
  (Ret tt, {| ERROR_HAPPENED := ERROR_HAPPENED st; log := log st ++ [e] |}).

Definition read_ERROR_HAPPENED : M State bool := fun st => (Ret (ERROR_HAPPENED st), st).

Definition write_ERROR_HAPPENED (b : bool) : M State unit := fun st =>
  (Ret tt, {| ERROR_HAPPENED := b; log := log st |}).

Definition locked_print (msg : string) : M State unit := emit (EvPrint msg).

(** [with FIRST_BUILD_LOCK: body]: the lock is released on the way out,
    whether [body] returns or raises. *)
Definition with_FIRST_BUILD_LOCK {A} (body : M State A) : M State A := fun st =>
  match emit EvAcquire st with
  | (_, st1) =>
      match body st1 with
      | (r, st2) => (r, snd (emit EvRelease st2))
      end
  end.

(** [stdout.replace("lib/src", "src").replace("lib\\src", "src")], the
    rewriting of the captured output in [compile_for_board_and_example]. *)
Definition normalize_paths (stdout : string) : string :=
  replace "lib\src" "src" (replace "lib/src" "src" stdout).

(** ** Reading a log *)

(** A build-tool invocation is a [subprocess.run] of the [pio] command. *)
Definition is_compile (cmd : list string) : bool :=
  match cmd with
  | c :: _ => String.eqb c "pio"
  | [] => false
  end.

(** Whether the gate is held behind the events [evs], when it was [held]
    in front of them. *)
Fixpoint held_after (held : bool) (evs : list Event) : bool :=
  match evs with
  | [] => held
  | EvAcquire :: r => held_after true r
  | EvRelease :: r => held_after false r
  | _ :: r => held_after held r
  end.

(** The build-tool invocations of [evs] in order, each with whether the
    gate was held when it was made. *)
Fixpoint compiles (held : bool) (evs : list Event) : list (bool * list string) :=
  match evs with
  | [] => []
  | EvAcquire :: r => compiles true r
  | EvRelease :: r => compiles false r
  | EvRun cmd :: r =>
      if is_compile cmd then (held, cmd) :: compiles held r else compiles held r
  | _ :: r => compiles held r
  end.

(** How often the gate is acquired in [evs]. *)
Fixpoint acquisitions (evs : list Event) : nat :=
  match evs with
  | [] => O
  | EvAcquire :: r => S (acquisitions r)
  | _ :: r => acquisitions r
  end.

(** The build-tool invocations [cmds] as the gate policy wants them: the
    first one under the gate when [gate] is set, every other one without
    the gate. *)
Definition gate_plan (gate : bool) (cmds : list (list string))
    : list (bool * list string) :=
  match cmds with
  | [] => []
  | c :: r => (gate, c) :: map (pair false) r
  end.

(** The events between two states of one run. *)
Definition emitted (st st' : State) : list Event :=
  skipn (List.length (log st)) (log st').

Section Orchestrator.

(** [os.environ] when the module is imported. *)
Variable environ : gmap string string.

(** The outside world, as a function of what happened so far:
    [Path.exists], and the return code and captured output of
    [subprocess.run]. *)
Variable path_exists : list Event -> string -> bool.
Variable subprocess_run : list Event -> list string -> Z * string.

Definition IS_GITHUB : bool := bool_decide (is_Some (environ !! "GITHUB_ACTIONS")).
Definition USE_FIRST_BUILD_LOCK : bool := IS_GITHUB.

Definition errors_happened : M State bool := read_ERROR_HAPPENED.

Definition exists_ (path : string) : M State bool := fun st =>
  (Ret (path_exists (log st) path), st).

(** [subprocess.run(cmd, ...)]: the call is logged, the world answers.
    The command is taken to start and its output to decode: a call that
    cannot launch its program, which raises before any exit code is there,
    is outside of what is modelled, and what is proved of a call is proved
    of the calls whose commands ran. *)
Definition run_process (cmd : list string) : M State (Z * string) := fun st =>
  match emit (EvRun cmd) st with
  | (_, st') => (Ret (subprocess_run (log st) cmd), st')
  end.

(** [subprocess.run(cmd, check=True)] *)
Definition run_process_checked (cmd : list string) : M State unit :=
  result <- run_process cmd ;;
  if negb (fst result =? 0) then raise (CalledProcessError (fst result) (Argv cmd))
  else ret tt.

Definition builddir_of (board : string) (build_dir : option string) : string :=
  match build_dir with
  | Some d => if is_empty d then path_join ".build" board else path_join d board
  | None => path_join ".build" board
  end.

Definition cmd_list_of (board builddir example : string) : list string :=
  [ "pio"; "ci"; "--board"; board; "--lib=ci"; "--lib=src"; "--keep-build-dir";
    "--build-dir=" ++ builddir ] ++ [ "examples/" ++ example ++ "/*ino" ].

(** [builddir.mkdir(parents=True, exist_ok=True)] is taken to succeed; the
    removal of the old sources is a checked [subprocess.run] and can
    raise. *)
Definition compile_for_board_and_example
    (project : Board) (example : string) (build_dir : option string)
    : M State (bool * string) :=
  let board := board_name project in
  let builddir := builddir_of board build_dir in
  emit (EvMkdir builddir) ;;;
  let srcdir := path_join builddir "src" in
  present <- exists_ srcdir ;;
  (if present then run_process_checked ["rm"; "-rf"; srcdir] else ret tt) ;;;
  locked_print ("*** Building example " ++ example ++ " for board " ++ board ++ " ***") ;;;
  let cmd_list := cmd_list_of board builddir example in
  let cmd_str := list2cmdline cmd_list in
  let msg_lsit :=
    [ LF ++ LF ++ "******************************";
      "* Running command:";
      "*     " ++ cmd_str;
      "******************************" ++ LF ] in
  let msg := join LF msg_lsit in
  locked_print msg ;;;
  result <- run_process cmd_list ;;
  let stdout := snd result in
  let stdout := normalize_paths stdout in
  locked_print stdout ;;;
  if negb (fst result =? 0) then
    locked_print ("*** Error compiling example " ++ example ++ " for board " ++ board ++ " ***") ;;;
    ret (false, stdout)
  else
    locked_print ("*** Finished building example " ++ example ++ " for board " ++ board ++ " ***") ;;;
    ret (true, stdout).

(** The [for] loop of [compile_examples] on the examples that remain, with
    the current value of the local [is_first]. *)
Fixpoint compile_examples_loop
    (project : Board) (build_dir : option string)
    (is_first : bool) (examples : list string) : M State (bool * string) :=
  match examples with
  | [] => ret (true, EmptyString)
  | example :: rest =>
      let board := board_name project in
      flag <- read_ERROR_HAPPENED ;;
      if flag then ret (true, EmptyString) else
      locked_print (LF ++ "*** Building " ++ example ++ " for board " ++ board ++ " ***") ;;;
      (if is_first
       then locked_print ("*** Building for first example " ++ example ++ " board " ++ board ++ " ***")
       else ret tt) ;;;
      r <- (if is_first && USE_FIRST_BUILD_LOCK
            then with_FIRST_BUILD_LOCK
                   (compile_for_board_and_example project example build_dir)
            else compile_for_board_and_example project example build_dir) ;;
      let '(success, message) := r in
      if negb success then
        write_ERROR_HAPPENED true ;;;
        ret (false, "Error building " ++ example ++ " for board " ++ board
                      ++ ". stdout:" ++ LF ++ message)
      else compile_examples_loop project build_dir false rest
  end.

Definition compile_examples
    (project : Board) (examples : list string) (build_dir : option string)
    : M State (bool * string) :=
  compile_examples_loop project build_dir true examples.

(** ** Runs of the module

    A run is a sequence of calls of the three functions of the module, each
    from the state the one before it left. *)
Inductive Op :=
| OpErrorsHappened
| OpCompileOne (project : Board) (example : string) (build_dir : option string)
| OpCompileExamples (project : Board) (examples : list string) (build_dir : option string).

Definition exec (op : Op) (st : State) : State :=
  match op with
  | OpErrorsHappened => snd (errors_happened st)
  | OpCompileOne project example build_dir =>
      snd (compile_for_board_and_example project example build_dir st)
  | OpCompileExamples project examples build_dir =>
      snd (compile_examples project examples build_dir st)
  end.

Definition run_ops (ops : list Op) (st : State) : State :=
  fold_left (fun s op => exec op s) ops st.

(** ** The moment the build tool starts, seen from the call *)

Definition srcdir_of (project : Board) (build_dir : option string) : string :=
  path_join (builddir_of (board_name project) build_dir) "src".

Definition rm_cmd (project : Board) (build_dir : option string) : list string :=
  ["rm"; "-rf"; srcdir_of project build_dir].

Definition log_at_rm (project : Board) (build_dir : option string) (st : State)
    : list Event :=
  log st ++ [EvMkdir (builddir_of (board_name project) build_dir)].

(** The removal of the old source directory is attempted and fails. *)
Definition rm_raises (project : Board) (build_dir : option string) (st : State) : bool :=
  path_exists (log_at_rm project build_dir st) (srcdir_of project build_dir)
  && negb (fst (subprocess_run (log_at_rm project build_dir st)
                               (rm_cmd project build_dir)) =? 0).

Definition build_cmd (project : Board) (example : string) (build_dir : option string)
    : list string :=
  cmd_list_of (board_name project) (builddir_of (board_name project) build_dir) example.

Definition log_at_build
    (project : Board) (example : string) (build_dir : option string) (st : State)
    : list Event :=
  let l := log_at_rm project build_dir st in
  (if path_exists l (srcdir_of project build_dir)
   then l ++ [EvRun (rm_cmd project build_dir)] else l)
  ++ [ EvPrint ("*** Building example " ++ example ++ " for board "
                ++ board_name project ++ " ***");
       EvPrint (join LF
         [ LF ++ LF ++ "******************************";
           "* Running command:";
           "*     " ++ list2cmdline (build_cmd project example build_dir);
           "******************************" ++ LF ]) ].

(** What the build tool answers in the call from [st]. *)
Definition build_result
    (project : Board) (example : string) (build_dir : option string) (st : State)
    : Z * string :=
  subprocess_run (log_at_build project example build_dir st)
                 (build_cmd project example build_dir).

(** The state in which an iteration of the batch loop that starts in [st]
    calls [compile_for_board_and_example]: behind the announcements, and
    behind the acquisition of the gate when the gate is used. *)
Definition compile_entry (project : Board) (is_first : bool) (example : string)
    (st : State) : State :=
  {| ERROR_HAPPENED := ERROR_HAPPENED st;
     log := log st
       ++ [EvPrint (LF ++ "*** Building " ++ example ++ " for board "
                    ++ board_name project ++ " ***")]
       ++ (if is_first
           then [EvPrint ("*** Building for first example " ++ example ++ " board "
                          ++ board_name project ++ " ***")]
           else [])
       ++ (if is_first && USE_FIRST_BUILD_LOCK then [EvAcquire] else []) |}.

(** The state behind the compile of an iteration: the gate is given back
    when it was taken. *)
Definition compile_exit (is_first : bool) (st : State) : State :=
  if is_first && USE_FIRST_BUILD_LOCK
  then {| ERROR_HAPPENED := ERROR_HAPPENED st; log := log st ++ [EvRelease] |}
  else st.

(** The message of a failed batch. *)
Definition error_message (project : Board) (example message : string) : string :=
  "Error building " ++ example ++ " for board " ++ board_name project
    ++ ". stdout:" ++ LF ++ message.

End Orchestrator.

End CompileForBoard.

(* ===================================================================== *)
(** * [ci/docs.py] *)
(* ===================================================================== *)

Module Docs.
Import Py Effects.

Definition DOXYGEN_VERSION : string := "1.11.0".
Definition DOXYGEN_AWESOME_VERSION : string := "2.3.3".
Definition DOXYFILE_PATH : string := "docs/Doxyfile".
Definition HTML_OUTPUT_DIR : string := "docs/html".
Definition DOXYGEN_CSS_REPO : string := "https://github.com/jothepro/doxygen-awesome-css".

(** What the script does to the outside world, in the order it happens. *)
Inductive Action :=
| Printed (msg : string)                          (* print(msg) *)
| Warned (msg : string)                           (* warnings.warn(msg) *)
| Ran (cmd : string) (cwd : option string)        (* subprocess.run(cmd, ...) *)
| Downloaded (url path : string)                  (* download(url, path) *)
| Unpacked (archive dir : string).                (* shutil.unpack_archive *)

(** The characters stored in the text files, by path, and the console. *)
Record World := { fs : gmap string string; console : list Action }.

Local Open Scope py_scope.

Definition act (e : Action) : M World unit := fun w =>
  (Ret tt, {| fs := fs w; console := console w ++ [e] |}).

Definition print (msg : string) : M World unit := act (Printed msg).
Definition warn (msg : string) : M World unit := act (Warned msg).

(** [try: body except subprocess.CalledProcessError: handler] *)
Definition try_except_CalledProcessError {A} (body handler : M World A) : M World A :=
  fun w =>
  match body w with
  | (Raise (CalledProcessError _ _), w') => handler w'
  | r => r
  end.

(** [Path.read_text]: the stored characters as text mode reads them, with
    every line end an LF. *)
Definition read_text (path : string) : M World string := fun w =>
  match fs w !! path with
  | Some stored => (Ret (universal_newlines stored), w)
  | None => (Raise (FileNotFoundError path), w)
  end.

(** [Path.write_text]: the text as text mode stores it, with every LF
    written as [linesep]. *)
Definition write_text (linesep path text : string) : M World unit := fun w =>
  (Ret tt, {| fs := <[path := write_newlines linesep text]> (fs w);
              console := console w |}).

(** What an external command gives back: return code, decoded standard
    output and standard error. *)
Record Completed := { returncode : Z; stdout : string; stderr : string }.

Section Publisher.

(** [os.environ], [tempfile.gettempdir()] and [os.name]. *)
Variable environ : gmap string string.
Variable gettempdir : string.
Variable os_name : string.

(** The outside world.  An external command answers and leaves the files
    in some new state; [download] and [unpack_archive] do so or fail;
    [Path.glob] lists what it finds in its own order. *)
Variable subprocess_run : World -> string -> option string -> Completed * gmap string string.
Variable download_ : World -> string -> string -> option Exn * gmap string string.
Variable unpack_archive : World -> string -> string -> option Exn * gmap string string.
Variable glob : World -> string -> string -> list string.

Definition external (e : Action) (f : World -> option Exn * gmap string string) : M World unit :=
  fun w =>
    let '(err, files) := f w in
    let w' := {| fs := files; console := console w ++ [e] |} in
    match err with
    | Some x => (Raise x, w')
    | None => (Ret tt, w')
    end.

(** [result.stdout] and [result.stderr] are taken as the decoded texts
    (empty when the stream is empty).  Every call of the script passes
    [shell=True], so the command is a line for the shell, which starts;
    [cwd] is handed to the world with the line.  A shell that cannot be
    started and an output that cannot be decoded are outside of what is
    modelled: the one exception [run] itself raises is
    [CalledProcessError]. *)
Definition run (cmd : string) (cwd : option string) (shell check : bool) : M World string :=
  print ("Running: " ++ cmd) ;;;
  result <- (fun w =>
               let '(r, files) := subprocess_run w cmd cwd in
               (Ret r, {| fs := files; console := console w ++ [Ran cmd cwd] |})) ;;
  let stdout := stdout result in
  let stderr := stderr result in
  (if negb (returncode result =? 0) then
     let msg := "Command failed with exit code " ++ str_of_Z (returncode result)
                ++ ":" ++ LF ++ "stdout:" ++ LF ++ stdout ++ LF ++ LF
                ++ "stderr:" ++ LF ++ stderr in
     warn msg ;;;
     if check then raise (CalledProcessError (returncode result) (Shell cmd)) else ret tt
   else ret tt) ;;;
  ret (strip stdout).

(** [a or b] on strings. *)
Definition str_or (a b : string) : string := if is_empty a then b else a.

Definition get_git_info : M World (string * string) :=
  let release_tag := default EmptyString (environ !! "RELEASE_TAG") in
  latest_tag <- try_except_CalledProcessError
                  (run "git tag | grep -E '^[0-9]' | sort -V | tail -1" None true true)
                  (ret EmptyString) ;;
  git_sha_short <- run "git rev-parse --short HEAD" None true true ;;
  full_sha <- run "git rev-parse HEAD" None true true ;;
  let project_number := str_or release_tag (str_or latest_tag git_sha_short) in
  let commit_message :=
    if negb (String.eqb project_number git_sha_short)
    then project_number ++ " (" ++ full_sha ++ ")"
    else project_number in
  print ("Project number: " ++ project_number) ;;;
  print ("Commit message: " ++ commit_message) ;;;
  ret (project_number, commit_message).

(** Paths are written with [/] on both platforms, and [gettempdir] is the
    directory as [as_posix] writes it, drive and all ([C:/Temp]). *)
Definition install_doxygen_windows : M World string :=
  print "Installing Doxygen..." ;;;
  let doxygen_url :=
    "https://www.doxygen.nl/files/doxygen-" ++ DOXYGEN_VERSION ++ ".windows.x64.bin.zip" in
  let zip_path := path_join gettempdir "doxygen.zip" in
  let extract_dir := path_join gettempdir ("doxygen-" ++ DOXYGEN_VERSION) in
  external (Downloaded doxygen_url zip_path)
           (fun w => download_ w doxygen_url zip_path) ;;;
  external (Unpacked zip_path extract_dir)
           (fun w => unpack_archive w zip_path extract_dir) ;;;
  found <- (fun w => (Ret (glob w extract_dir "**/doxygen.exe"), w)) ;;
  match found with
  | [] => raise (FileNotFoundError "Doxygen executable not found after extraction.")
  | bin_path :: _ =>
      print ("Doxygen installed at: " ++ bin_path) ;;;
      ret bin_path
  end.

(** The first part of [install_doxygen_windows], up to the extracted
    archive. *)
Definition windows_extract_dir : string :=
  path_join gettempdir ("doxygen-" ++ DOXYGEN_VERSION).

Definition windows_fetch : M World unit :=
  print "Installing Doxygen..." ;;;
  external (Downloaded
              ("https://www.doxygen.nl/files/doxygen-" ++ DOXYGEN_VERSION
               ++ ".windows.x64.bin.zip")
              (path_join gettempdir "doxygen.zip"))
           (fun w => download_ w
              ("https://www.doxygen.nl/files/doxygen-" ++ DOXYGEN_VERSION
               ++ ".windows.x64.bin.zip")
              (path_join gettempdir "doxygen.zip")) ;;;
  external (Unpacked (path_join gettempdir "doxygen.zip") windows_extract_dir)
           (fun w => unpack_archive w (path_join gettempdir "doxygen.zip")
                       windows_extract_dir).

Definition install_doxygen_unix : M World string :=
  print "Installing Doxygen..." ;;;
  let archive := "doxygen-" ++ DOXYGEN_VERSION ++ ".linux.bin.tar.gz" in
  let url := "https://www.doxygen.nl/files/" ++ archive in
  run ("wget -q " ++ url) None true true ;;;
  run ("tar -xf " ++ archive) None true true ;;;
  let bin_dir := "doxygen-" ++ DOXYGEN_VERSION in
  ret (path_join (path_join bin_dir "bin") "doxygen").

(** The text [update_doxyfile] writes back: the [re.sub] of its body. *)
Definition updated (project_number doxyfile : string) : option string :=
  sub_PROJECT_NUMBER ("PROJECT_NUMBER = " ++ project_number) doxyfile.

Definition update_doxyfile (project_number : string) : M World unit :=
  print "Updating Doxyfile with project number..." ;;;
  doxyfile <- read_text DOXYFILE_PATH ;;
  match updated project_number doxyfile with
  | Some text => write_text (linesep_of os_name) DOXYFILE_PATH text
  | None => raise ReError
  end.

End Publisher.

End Docs.

(* ===================================================================== *)
(** * The rest of [ci/docs.py]: theme, generator, [main] *)
(* ===================================================================== *)

Module Pipeline.
Import Py Effects Docs.
Local Open Scope py_scope.

(** [install_theme] removes a directory tree, which the console of
    [World] does not record.  A [Site] is a world together with the trees
    removed so far, each with the length the console had at that moment, so
    that the order of all events can be read. *)
Record Site := { world : World; removed : list (nat * string) }.

(** A computation on the world, run on the site. *)
Definition lift {A} (m : M World A) : M Site A := fun s =>
  match m (world s) with
  | (r, w') => (r, {| world := w'; removed := removed s |})
  end.

Section Main.

Variable environ : gmap string string.
Variable gettempdir : string.
(** [os.name] *)
Variable os_name : string.

Variable subprocess_run : World -> string -> option string -> Completed * gmap string string.
Variable download_ : World -> string -> string -> option Exn * gmap string string.
Variable unpack_archive : World -> string -> string -> option Exn * gmap string string.
Variable glob : World -> string -> string -> list string.
(** [Path.exists], [shutil.rmtree] (which succeeds or fails and leaves the
    files in some new state) and [Path.resolve]. *)
Variable path_exists : World -> string -> bool.
Variable rmtree : World -> string -> option Exn * gmap string string.
Variable resolve : World -> string -> string.

Definition exists_on_site (path : string) : M Site bool := fun s =>
  (Ret (path_exists (world s) path), s).

Definition rmtree_ (path : string) : M Site unit := fun s =>
  let '(err, files) := rmtree (world s) path in
  let s' := {| world := {| fs := files; console := console (world s) |};
               removed := removed s ++ [(List.length (console (world s)), path)] |} in
  match err with
  | Some x => (Raise x, s')
  | None => (Ret tt, s')
  end.

Definition install_theme : M Site string :=
  lift (print "Installing Doxygen Awesome Theme...") ;;;
  let theme_path := "docs/doxygen-awesome-css" in
  present <- exists_on_site theme_path ;;
  (if present then rmtree_ theme_path else ret tt) ;;;
  lift (run subprocess_run
          ("git clone --depth 1 -b v" ++ DOXYGEN_AWESOME_VERSION ++ " " ++ DOXYGEN_CSS_REPO)
          (Some "docs") true true) ;;;
  ret theme_path.

Definition generate_docs (doxygen_bin : string) : M World unit :=
  print "Generating documentation..." ;;;
  run subprocess_run
      (String dquote (doxygen_bin ++ String dquote " Doxyfile"))
      (Some "docs") true true ;;;
  ret tt.

(** The three closing lines of [main] begin with characters outside the
    range of the model; they are written here in their UTF-8 bytes. *)
Definition main : M Site unit :=
  let is_windows := String.eqb os_name "nt" in
  info <- lift (get_git_info environ subprocess_run) ;;
  let '(project_number, commit_msg) := info in
  doxygen_bin <- lift (if is_windows
                       then install_doxygen_windows gettempdir download_ unpack_archive glob
                       else install_doxygen_unix subprocess_run) ;;
  install_theme ;;;
  lift (update_doxyfile os_name project_number) ;;;
  lift (generate_docs doxygen_bin) ;;;
  (fun s => lift (print (LF ++ "✅ Docs generated in: "
                         ++ resolve (world s) HTML_OUTPUT_DIR)) s) ;;;
  lift (print ("📄 Commit message: " ++ commit_msg)) ;;;
  lift (print "✨ You can now manually deploy to GitHub Pages or automate this step.").

End Main.

End Pipeline.

(* ===================================================================== *)
(** * Reading logs and consoles *)
(* ===================================================================== *)

Module Observe.
Import Py Effects CompileForBoard Docs Pipeline.

(** Every command the build module ran, in order. *)
Fixpoint commands (evs : list Event) : list (list string) :=
  match evs with
  | [] => []
  | EvRun cmd :: r => cmd :: commands r
  | _ :: r => commands r
  end.

(** The actions of the archive route: download and unpack. *)
Definition is_fetch (a : Action) : bool :=
  match a with
  | Downloaded _ _ | Unpacked _ _ => true
  | _ => false
  end.

(** Every shell line the docs script ran, in order. *)
Fixpoint shell_lines (acts : list Action) : list string :=
  match acts with
  | [] => []
  | Ran cmd _ :: r => cmd :: shell_lines r
  | _ :: r => shell_lines r
  end.

(** The actions between two worlds of one run. *)
Definition said (w w' : World) : list Action :=
  skipn (List.length (console w)) (console w').

(** The text [run] warns with when a command has failed. *)
Definition failure_warning (c : Completed) : string :=
  "Command failed with exit code " ++ str_of_Z (returncode c)
    ++ ":" ++ LF ++ "stdout:" ++ LF ++ stdout c ++ LF ++ LF
    ++ "stderr:" ++ LF ++ stderr c.

(** The world in which [run] starts its command, and the one it leaves:
    the command is announced, run, and warned about when it failed. *)
Definition run_start (cmd : string) (w : World) : World :=
  {| fs := fs w; console := console w ++ [Printed ("Running: " ++ cmd)] |}.

Definition run_end (c : Completed) (files : gmap string string)
    (cmd : string) (cwd : option string) (w : World) : World :=
  {| fs := files;
     console := console w
       ++ [Printed ("Running: " ++ cmd); Ran cmd cwd]
       ++ (if returncode c =? 0 then [] else [Warned (failure_warning c)]) |}.

(** The three shell lines of the script that ask git. *)
Definition TAG_QUERY : string := "git tag | grep -E '^[0-9]' | sort -V | tail -1".
Definition SHORT_SHA_QUERY : string := "git rev-parse --short HEAD".
Definition FULL_SHA_QUERY : string := "git rev-parse HEAD".

Definition not_fetch (a : Action) : bool := negb (is_fetch a).

(** A computation that only adds to the console, and adds no download and
    no unpacking; [con] reads the console out of the state. *)
Definition quiet {S A : Type} (con : S -> list Action) (m : M S A) : Prop :=
  forall s, exists new,
    con (snd (m s)) = (con s ++ new)%list /\ forallb not_fetch new = true.

(** A computation that only adds to the console. *)
Definition grows {S A : Type} (con : S -> list Action) (m : M S A) : Prop :=
  forall s, exists new, con (snd (m s)) = (con s ++ new)%list.

(** The shell line that starts the generator [bin]. *)
Definition GENERATE (bin : string) : string :=
  String dquote (bin ++ String dquote " Doxyfile").

Definition THEME_DIR : string := "docs/doxygen-awesome-css".
Definition CLONE_THEME : string :=
  "git clone --depth 1 -b v2.3.3 https://github.com/jothepro/doxygen-awesome-css".

(** The last character of a text. *)
Fixpoint last_char (s : string) : option ascii :=
  match s with
  | EmptyString => None
  | String c EmptyString => Some c
  | String _ rest => last_char rest
  end.

Definition first_char (s : string) : option ascii :=
  match s with
  | EmptyString => None
  | String c _ => Some c
  end.

End Observe.

(* ===================================================================== *)
(** * More concrete runs *)
(* ===================================================================== *)

Module MoreScenarios.
Import Py Effects CompileForBoard Docs Pipeline.

(** Old sources are in every build directory, and their removal is
    refused. *)
Definition stale_srcdir : list Event -> string -> bool := fun _ _ => true.
Definition rm_refused : list Event -> list string -> Z * string := fun _ cmd =>
  match cmd with
  | c :: _ => if String.eqb c "rm" then (1, "rm: Permission denied") else (0, "ok")
  | [] => (0, EmptyString)
  end.

(** A build tool that builds everything. *)
Definition all_build : list Event -> list string -> Z * string :=
  fun _ _ => (0, "Linking lib/src/libFastLED.a").

(** A checkout without tags: the tag query fails, the rest succeeds. *)
Definition no_tags : World -> string -> option string -> Completed * gmap string string :=
  fun w cmd _ =>
    if String.eqb cmd "git tag | grep -E '^[0-9]' | sort -V | tail -1"
    then ({| returncode := 1; stdout := EmptyString; stderr := "fatal" |}, fs w)
    else if String.eqb cmd "git rev-parse --short HEAD"
    then ({| returncode := 0; stdout := "a1b2c3d" ++ LF; stderr := EmptyString |}, fs w)
    else ({| returncode := 0; stdout := "a1b2c3d4e5f60718293a4b5c6d7e8f9012345678" ++ LF;
             stderr := EmptyString |}, fs w).

(** No git at all: every command fails. *)
Definition all_fail : World -> string -> option string -> Completed * gmap string string :=
  fun w _ _ => ({| returncode := 127; stdout := EmptyString; stderr := "not found" |}, fs w).

(** A download that fails. *)
Definition download_fails : World -> string -> string -> option Exn * gmap string string :=
  fun w _ _ => (Some (ExternalError "connection refused"), fs w).

(** A world with a Doxyfile. *)
Definition doxy_world : World :=
  {| fs := {[ DOXYFILE_PATH := "PROJECT_NAME = FastLED" ++ LF
                               ++ "PROJECT_NUMBER = 3.9.0" ++ LF
                               ++ "OUTPUT_DIRECTORY = ." ++ LF;
              "README.md" := "FastLED" ]};
     console := [] |}.

(** The theme directory is there; removing it works. *)
Definition theme_present : World -> string -> bool :=
  fun _ p => String.eqb p "docs/doxygen-awesome-css".
Definition nothing_present : World -> string -> bool := fun _ _ => false.
Definition rmtree_ok : World -> string -> option Exn * gmap string string :=
  fun w _ => (None, fs w).
Definition resolve_abs : World -> string -> string := fun _ p => "/repo/" ++ p.

Definition doxy_site : Site := {| world := doxy_world; removed := [] |}.

(** The same Doxyfile, stored with CR LF line ends. *)
Definition crlf_doxyfile : string :=
  "PROJECT_NAME = FastLED" ++ String CR LF
  ++ "PROJECT_NUMBER = 3.9.0" ++ String CR LF
  ++ "OUTPUT_DIRECTORY = ." ++ String CR LF.
Definition crlf_world : World :=
  {| fs := {[ DOXYFILE_PATH := crlf_doxyfile ]}; console := [] |}.

(** A search that finds the executable in the extracted archive. *)
Definition glob_finds : World -> string -> string -> list string :=
  fun _ dir _ => [dir ++ "/doxygen.exe"].

(** Every command succeeds, says nothing and leaves the files alone. *)
Definition all_succeed : World -> string -> option string -> Completed * gmap string string :=
  fun w _ _ => ({| returncode := 0; stdout := EmptyString; stderr := EmptyString |}, fs w).

End MoreScenarios.

(* ===================================================================== *)
(** * Concrete runs *)
(* ===================================================================== *)

Module Scenario.
Import Py Effects CompileForBoard Docs.

Definition uno : Board := {| board_name := "uno" |}.
Definition esp32 : Board := {| board_name := "esp32" |}.

(** A constrained CI runner, and a developer machine. *)
Definition github_environ : gmap string string := {[ "GITHUB_ACTIONS" := "true" ]}.
Definition local_environ : gmap string string := ∅.

(** No build directory holds old sources. *)
Definition no_srcdir : list Event -> string -> bool := fun _ _ => false.

(** The build tool fails on the sketch [Blink] and builds every other one. *)
Definition blink_fails : list Event -> list string -> Z * string := fun _ cmd =>
  if existsb (String.eqb "examples/Blink/*ino") cmd
  then (1, "lib/src/FastLED.h:12: error: expected ';'")
  else (0, "Linking lib/src/libFastLED.a").

(** A state in which some batch has failed before. *)
Definition failed_state : State := {| ERROR_HAPPENED := true; log := [] |}.

(** A checkout whose latest tag is 3.9.16; every command succeeds and
    leaves the files alone. *)
Definition git_answers : World -> string -> option string -> Completed * gmap string string :=
  fun w cmd _ =>
    let out :=
      if String.eqb cmd "git tag | grep -E '^[0-9]' | sort -V | tail -1"
      then "3.9.16" ++ LF
      else if String.eqb cmd "git rev-parse --short HEAD" then "a1b2c3d" ++ LF
      else if String.eqb cmd "git rev-parse HEAD"
      then "a1b2c3d4e5f60718293a4b5c6d7e8f9012345678" ++ LF
      else EmptyString in
    ({| returncode := 0; stdout := out; stderr := EmptyString |}, fs w).

Definition empty_world : World := {| fs := ∅; console := [] |}.

(** A download that succeeds, an archive without the executable in it,
    and a search that finds nothing. *)
Definition download_ok : World -> string -> string -> option Exn * gmap string string :=
  fun w _ path => (None, <[path := "PK"]> (fs w)).
Definition unpack_nothing : World -> string -> string -> option Exn * gmap string string :=
  fun w _ _ => (None, fs w).
Definition glob_nothing : World -> string -> string -> list string :=
  fun _ _ _ => [].

(** A Doxyfile. *)
Definition doxyfile_text : string :=
  "PROJECT_NAME = FastLED" ++ LF ++ "PROJECT_NUMBER = 3.9.0" ++ LF ++ "OUTPUT_DIRECTORY = ." ++ LF.

End Scenario.

(* ===================================================================== *)
(** * Properties of the string operations *)
(* ===================================================================== *)

Module PyFacts.
Import Py.
Local Close Scope string_scope.

Lemma append_cons c (a b : string) : String c a +:+ b = String c (a +:+ b).
Proof. reflexivity. Qed.

Lemma append_nil_l (b : string) : EmptyString +:+ b = b.
Proof. reflexivity. Qed.

Lemma append_nil_r (a : string) : a +:+ EmptyString = a.
Proof.
  induction a as [|x a IH]; [reflexivity|].
  rewrite append_cons, IH. reflexivity.
Qed.

Lemma append_assoc (a b c : string) : (a +:+ b) +:+ c = a +:+ (b +:+ c).
Proof.
  induction a as [|x a IH]; [reflexivity|].
  rewrite !append_cons, IH. reflexivity.
Qed.

Lemma startswith_append (x b : string) : startswith x (x +:+ b) = true.
Proof.
  induction x as [|c x IH]; [reflexivity|].
  rewrite append_cons. cbn [startswith]. rewrite Ascii.eqb_refl. exact IH.
Qed.

Lemma contains_cons sub c s :
  contains sub (String c s) = startswith sub (String c s) || contains sub s.
Proof. reflexivity. Qed.

Lemma contains_infix (a x b : string) : contains x (a +:+ x +:+ b) = true.
Proof.
  induction a as [|c a IH].
  - rewrite append_nil_l.
    destruct (x +:+ b) eqn:E; cbn [contains]; rewrite <- E, startswith_append; reflexivity.
  - rewrite append_cons, contains_cons, IH. apply orb_true_r.
Qed.

Lemma contains_suffix (a x : string) : contains x (a +:+ x) = true.
Proof.
  rewrite <- (append_nil_r x) at 2. apply contains_infix.
Qed.

Lemma drop_nil n : drop n EmptyString = EmptyString.
Proof. destruct n; reflexivity. Qed.

(** ** The operations on small inputs *)

Example replace_does_not_overlap : replace "aa" "b" "aaaaa" = "bba".
Proof. reflexivity. Qed.

Example replace_empty_old : replace EmptyString "-" "abc" = "-a-b-c-".
Proof. reflexivity. Qed.

Example strip_both_ends : strip (" v1.2 " +:+ LF) = "v1.2".
Proof. reflexivity. Qed.

Example list2cmdline_quotes :
  list2cmdline ["pio"; "ci"; "a b"]
  = "pio ci " +:+ String dquote ("a b" +:+ String dquote EmptyString).
Proof. reflexivity. Qed.

Example template_whole_match :
  sub_PROJECT_NUMBER "<\g<0>>" "PROJECT_NUMBER=1" = Some "<PROJECT_NUMBER=1>".
Proof. reflexivity. Qed.

Example template_bad_group : sub_PROJECT_NUMBER "\1" "no match here" = None.
Proof. reflexivity. Qed.

Example pattern_needs_line_start :
  sub_PROJECT_NUMBER "N" (" PROJECT_NUMBER = 1" +:+ LF +:+ "PROJECT_NUMBER   =2")
  = Some (" PROJECT_NUMBER = 1" +:+ LF +:+ "N").
Proof. reflexivity. Qed.

(** ** [str.replace] *)

Section Replace.

Variables old new : string.

(** Passing over [k] characters is dropping them. *)
Lemma replace_from_skip (s : string) : forall k,
  replace_from old new k s = replace_from old new O (drop k s).
Proof.
  induction s as [|c s IH]; intros k.
  - rewrite drop_nil. destruct k; reflexivity.
  - destruct k as [|k]; [reflexivity|]. cbn [replace_from drop]. apply IH.
Qed.

Hypothesis old_nonempty : is_empty old = false.

(** The scan, one position at a time. *)
Lemma replace_cons c s :
  replace old new (String c s) =
  if startswith old (String c s)
  then new +:+ replace old new (drop (String.length old) (String c s))
  else String c (replace old new s).
Proof.
  unfold replace. cbn [replace_from]. rewrite old_nonempty.
  destruct (startswith old (String c s)); [|reflexivity].
  rewrite replace_from_skip.
  destruct old as [|o old']; [discriminate|].
  cbn [String.length drop Nat.sub]. rewrite Nat.sub_0_r. reflexivity.
Qed.

Lemma replace_nil : replace old new EmptyString = EmptyString.
Proof. unfold replace. cbn [replace_from]. rewrite old_nonempty. reflexivity. Qed.

(** A text in which [old] does not occur is left as it is. *)
Lemma replace_absent s : contains old s = false -> replace old new s = s.
Proof.
  induction s as [|c s IH]; intros H.
  - apply replace_nil.
  - rewrite contains_cons in H. apply orb_false_iff in H as [H1 H2].
    rewrite replace_cons, H1, (IH H2). reflexivity.
Qed.

(** The leftmost occurrence of [old] is replaced, the text in front of it
    is kept, and the scan goes on behind it: so every occurrence that the
    scan from the left finds is replaced. *)
Lemma replace_find s : forall i,
  find old s = Some i ->
  replace old new s =
  take i s +:+ new +:+ replace old new (drop (i + String.length old) s).
Proof.
  induction s as [|c s IH]; intros i H.
  - cbn [find] in H. destruct old; discriminate.
  - cbn [find] in H. rewrite replace_cons.
    destruct (startswith old (String c s)) eqn:E.
    + injection H as <-. reflexivity.
    + destruct (find old s) as [j|] eqn:Hj; [|discriminate].
      injection H as <-. cbn [take drop Nat.add].
      rewrite (IH j eq_refl), append_cons. reflexivity.
Qed.

Lemma find_none_contains s : find old s = None <-> contains old s = false.
Proof.
  induction s as [|c s IH].
  - cbn [find contains]. destruct (startswith old EmptyString); cbn; split; congruence.
  - cbn [find]. rewrite contains_cons.
    destruct (startswith old (String c s)); cbn [orb].
    + split; congruence.
    + destruct (find old s); cbn [option_map].
      * split; [congruence|]. intros H. apply IH in H. congruence.
      * split; [intros _; apply IH; reflexivity|reflexivity].
Qed.

End Replace.

(** ** Lengths and pieces *)

Lemma length_append (a b : string) :
  String.length (a +:+ b) = (String.length a + String.length b)%nat.
Proof.
  induction a as [|c a IH]; [reflexivity|].
  rewrite append_cons. cbn [String.length]. rewrite IH. reflexivity.
Qed.

Lemma drop_length_append (a b : string) : drop (String.length a) (a +:+ b) = b.
Proof. induction a as [|c a IH]; [reflexivity|exact IH]. Qed.

Lemma take_length_append (a b : string) : take (String.length a) (a +:+ b) = a.
Proof.
  induction a as [|c a IH]; [reflexivity|].
  rewrite append_cons. cbn [String.length take]. rewrite IH. reflexivity.
Qed.

Lemma take_length (a : string) : take (String.length a) a = a.
Proof.
  induction a as [|c a IH]; [reflexivity|].
  cbn [String.length take]. rewrite IH. reflexivity.
Qed.

Lemma drop_length (a : string) : drop (String.length a) a = EmptyString.
Proof. induction a as [|c a IH]; [reflexivity|exact IH]. Qed.

Lemma drop_add (n m : nat) (s : string) : drop (n + m) s = drop m (drop n s).
Proof.
  revert s; induction n as [|n IH]; intros s; [reflexivity|].
  destruct s as [|c s]; cbn [Nat.add drop]; [rewrite drop_nil; reflexivity|apply IH].
Qed.

Lemma length_drop (n : nat) (s : string) :
  String.length (drop n s) = (String.length s - n)%nat.
Proof.
  revert s; induction n as [|n IH]; intros s; cbn [drop].
  - rewrite Nat.sub_0_r. reflexivity.
  - destruct s as [|c s]; [reflexivity|]. cbn [String.length Nat.sub]. apply IH.
Qed.

Lemma has_char_append c (a b : string) :
  has_char c (a +:+ b) = has_char c a || has_char c b.
Proof.
  induction a as [|d a IH]; [reflexivity|].
  rewrite append_cons. cbn [has_char]. rewrite IH, orb_assoc. reflexivity.
Qed.

Lemma span_not_nl_line (l t : string) :
  has_char nl l = false -> at_line_end t = true ->
  span not_nl (l +:+ t) = String.length l.
Proof.
  intros Hl Ht. induction l as [|c l IH].
  - rewrite append_nil_l. destruct t as [|c t]; [reflexivity|].
    cbn [at_line_end] in Ht. cbn [span]. unfold not_nl. rewrite Ht. reflexivity.
  - cbn [has_char] in Hl. apply orb_false_iff in Hl as [Hc Hl].
    rewrite append_cons. cbn [span String.length]. unfold not_nl at 1.
    rewrite Ascii.eqb_sym, Hc. cbn [negb]. rewrite (IH Hl). reflexivity.
Qed.

Lemma span_le p (s : string) : (span p s <= String.length s)%nat.
Proof.
  induction s as [|c s IH]; cbn [span String.length]; [lia|].
  destruct (p c); lia.
Qed.

Lemma drop_span_not_nl (s : string) : at_line_end (drop (span not_nl s) s) = true.
Proof.
  induction s as [|c s IH]; [reflexivity|].
  cbn [span]. unfold not_nl at 1. destruct (Ascii.eqb c nl) eqn:E; cbn [negb drop].
  - cbn [at_line_end]. exact E.
  - exact IH.
Qed.

(** ** The pattern [PROJECT_NUMBER\s*=.*] *)

Lemma tail_ok_cons c r :
  tail_ok (String c r) = if isspace c then tail_ok r else Ascii.eqb c "=".
Proof.
  unfold tail_ok. cbn [span]. destruct (isspace c); reflexivity.
Qed.

Lemma match_some_iff s :
  is_Some (PROJECT_NUMBER_match s)
  <-> startswith PROJECT_NUMBER_key s = true /\ tail_ok (drop 14 s) = true.
Proof.
  unfold PROJECT_NUMBER_match, tail_ok.
  destruct (startswith PROJECT_NUMBER_key s).
  - destruct (drop (span isspace (drop 14 s)) (drop 14 s)) as [|c r'].
    + split; [intros [n H]; discriminate|intros [_ H]; discriminate].
    + destruct (Ascii.eqb c "=").
      * split; [auto|eauto].
      * split; [intros [n H]; discriminate|intros [_ H]; discriminate].
  - split; [intros [n H]; discriminate|intros [H _]; discriminate].
Qed.

Lemma match_none_iff s :
  PROJECT_NUMBER_match s = None
  <-> startswith PROJECT_NUMBER_key s = false \/ tail_ok (drop 14 s) = false.
Proof.
  pose proof (match_some_iff s) as H.
  destruct (PROJECT_NUMBER_match s) as [n|].
  - split; [discriminate|].
    destruct H as [H _]. destruct (H (ex_intro _ n eq_refl)) as [H1 H2].
    intros [E|E]; congruence.
  - split; [|reflexivity]. intros _.
    destruct (startswith PROJECT_NUMBER_key s); [|auto].
    destruct (tail_ok (drop 14 s)); [|auto].
    destruct H as [_ H]. destruct (H (conj eq_refl eq_refl)) as [n Hn]. discriminate.
Qed.

Lemma startswith_length p s :
  startswith p s = true -> (String.length p <= String.length s)%nat.
Proof.
  revert s; induction p as [|a p IH]; intros s H; cbn [String.length]; [lia|].
  destruct s as [|b s]; [discriminate|]. cbn [startswith] in H.
  destruct (Ascii.eqb a b); [|discriminate]. cbn [String.length].
  specialize (IH s H). lia.
Qed.

(** A match is at least the key and the equals sign long, lies within the
    text, and ends where the line ends. *)
Lemma match_extent s n :
  PROJECT_NUMBER_match s = Some n ->
  (15 <= n <= String.length s)%nat /\ at_line_end (drop n s) = true.
Proof.
  unfold PROJECT_NUMBER_match.
  destruct (startswith PROJECT_NUMBER_key s) eqn:Hkey; [|discriminate].
  apply startswith_length in Hkey. cbn [String.length PROJECT_NUMBER_key] in Hkey.
  pose proof (span_le isspace (drop 14 s)) as Hw.
  set (w := span isspace (drop 14 s)) in *.
  destruct (drop w (drop 14 s)) as [|c r'] eqn:Hr; [discriminate|].
  destruct (Ascii.eqb c "="); [|discriminate].
  intros H; injection H as <-.
  pose proof (span_le not_nl r') as Hl.
  pose proof (f_equal String.length Hr) as Hlen.
  rewrite !length_drop in Hlen. cbn [String.length] in Hlen.
  split; [lia|].
  change (at_line_end (drop (14 + (w + 1 + span not_nl r')) s) = true).
  replace (w + 1 + span not_nl r')%nat with (w + (1 + span not_nl r'))%nat by lia.
  rewrite !drop_add, Hr. cbn [drop Nat.add]. apply drop_span_not_nl.
Qed.

(** On one line, a match goes to the end of the line. *)
Lemma match_whole_line l n :
  has_char nl l = false -> PROJECT_NUMBER_match l = Some n -> n = String.length l.
Proof.
  intros Hl H. destruct (match_extent l n H) as [[_ Hn] Hend].
  assert (Hdrop : forall k s, has_char nl s = false -> at_line_end (drop k s) = true ->
                              (String.length s <= k)%nat).
  { clear. induction k as [|k IH]; intros s Hs He.
    - destruct s as [|c s]; cbn [String.length]; [lia|].
      cbn [drop at_line_end] in He. cbn [has_char] in Hs.
      rewrite Ascii.eqb_sym, He in Hs. discriminate.
    - destruct s as [|c s]; cbn [String.length]; [lia|].
      cbn [has_char] in Hs. apply orb_false_iff in Hs as [_ Hs].
      specialize (IH s Hs He). lia. }
  specialize (Hdrop n l Hl Hend). lia.
Qed.

(** ** Lines *)

Lemma startswith_split p s : startswith p s = true -> s = p +:+ drop (String.length p) s.
Proof.
  revert s; induction p as [|a p IH]; intros s H; [reflexivity|].
  destruct s as [|c s]; [discriminate|]. cbn [startswith] in H.
  destruct (Ascii.eqb a c) eqn:E; [|discriminate].
  apply Ascii.eqb_eq in E. subst c.
  rewrite append_cons. cbn [String.length drop]. rewrite <- (IH s H). reflexivity.
Qed.

Lemma join_cons2 sep (p q : string) (r : list string) :
  join sep (p :: q :: r) = p +:+ sep +:+ join sep (q :: r).
Proof. reflexivity. Qed.

Lemma lines_nonempty text : lines text <> [].
Proof.
  destruct text as [|c rest]; cbn [lines]; [discriminate|].
  destruct (Ascii.eqb c nl); [discriminate|].
  destruct (lines rest); discriminate.
Qed.

(** A text is its lines, put together with line feeds. *)
Lemma join_lines text : join LF (lines text) = text.
Proof.
  induction text as [|c rest IH]; [reflexivity|].
  cbn [lines]. pose proof (lines_nonempty rest) as Hne.
  destruct (Ascii.eqb c nl) eqn:E.
  - apply Ascii.eqb_eq in E. subst c.
    destruct (lines rest) as [|l ls]; [contradiction|].
    rewrite join_cons2, IH. reflexivity.
  - destruct (lines rest) as [|l ls]; [contradiction|].
    destruct ls as [|q r].
    + cbn [join] in IH |- *. rewrite IH. reflexivity.
    + rewrite join_cons2 in IH |- *. rewrite append_cons, IH. reflexivity.
Qed.

Lemma lines_no_nl text : forallb (fun l => negb (has_char nl l)) (lines text) = true.
Proof.
  induction text as [|c rest IH]; [reflexivity|].
  cbn [lines]. destruct (Ascii.eqb c nl) eqn:E.
  - cbn [forallb has_char negb andb]. exact IH.
  - destruct (lines rest) as [|l ls]; cbn [forallb has_char] in *.
    + rewrite Ascii.eqb_sym, E. reflexivity.
    + rewrite Ascii.eqb_sym, E. exact IH.
Qed.

Lemma has_char_drop c k (s : string) : has_char c s = false -> has_char c (drop k s) = false.
Proof.
  revert s; induction k as [|k IH]; intros s H; [exact H|].
  destruct s as [|d s]; [reflexivity|]. cbn [has_char] in H.
  apply orb_false_iff in H as [_ H]. apply IH, H.
Qed.

(** A prefix without line feed is seen on a line whether or not more
    lines follow. *)
Lemma startswith_line (k : string) : forall l t,
  has_char nl k = false ->
  startswith k (l +:+ String nl t) = startswith k l.
Proof.
  induction k as [|a k IH]; intros l t Hk; [reflexivity|].
  cbn [has_char] in Hk. apply orb_false_iff in Hk as [Ha Hk].
  destruct l as [|c l].
  - rewrite append_nil_l. cbn [startswith]. rewrite Ascii.eqb_sym, Ha. reflexivity.
  - rewrite append_cons. cbn [startswith].
    destruct (Ascii.eqb a c); [apply IH, Hk|reflexivity].
Qed.

(** White space that ends inside a text ends at the same place when the
    text goes on. *)
Lemma span_isspace_inner (d x : string) :
  all_chars isspace d = false ->
  span isspace (d +:+ x) = span isspace d
  /\ drop (span isspace d) (d +:+ x) = drop (span isspace d) d +:+ x
  /\ drop (span isspace d) d <> EmptyString.
Proof.
  induction d as [|c d IH]; intros H; [discriminate|].
  cbn [all_chars] in H. rewrite append_cons. cbn [span].
  destruct (isspace c); cbn [andb] in H.
  - destruct (IH H) as (H1 & H2 & H3). rewrite H1. cbn [drop]. auto.
  - cbn [drop]. rewrite append_cons. repeat split. discriminate.
Qed.

(** On a line that is not the bare key, the pattern matches whether or
    not more lines follow. *)
Lemma match_line l t :
  has_char nl l = false -> dangling_key l = false ->
  PROJECT_NUMBER_match (l +:+ String nl t) = PROJECT_NUMBER_match l.
Proof.
  intros Hl Hd. unfold PROJECT_NUMBER_match, dangling_key in *.
  rewrite (startswith_line PROJECT_NUMBER_key l t eq_refl).
  destruct (startswith PROJECT_NUMBER_key l) eqn:Hkey; [|reflexivity].
  cbn [andb] in Hd.
  assert (Hsplit : drop 14 (l +:+ String nl t) = drop 14 l +:+ String nl t).
  { rewrite (startswith_split _ _ Hkey) at 1. rewrite append_assoc.
    change 14%nat with (String.length PROJECT_NUMBER_key).
    apply drop_length_append. }
  rewrite Hsplit.
  destruct (span_isspace_inner (drop 14 l) (String nl t) Hd) as (H1 & H2 & H3).
  rewrite H1, H2.
  destruct (drop (span isspace (drop 14 l)) (drop 14 l)) as [|c r'] eqn:Hr;
    [contradiction|].
  rewrite append_cons. destruct (Ascii.eqb c "="); [|reflexivity].
  assert (Hr' : has_char nl r' = false).
  { pose proof (has_char_drop nl (span isspace (drop 14 l)) _
                  (has_char_drop nl 14 l Hl)) as H.
    rewrite Hr in H. cbn [has_char] in H. apply orb_false_iff in H as [_ H]. exact H. }
  rewrite (span_not_nl_line r' (String nl t) Hr') by reflexivity.
  pose proof (span_not_nl_line r' EmptyString Hr' eq_refl) as E.
  rewrite append_nil_r in E. rewrite E. reflexivity.
Qed.

(** ** The scan of [re.sub] *)

Section Sub.

Variable parts : list TemplatePart.

Local Abbreviation sub_bol := (sub_from parts true O).
Local Abbreviation sub_mid := (sub_from parts false O).

Lemma sub_from_skip (s : string) : forall k b,
  sub_from parts b (S k) s = sub_mid (drop (S k) s).
Proof.
  induction s as [|c s IH]; intros k b; [reflexivity|].
  cbn [sub_from drop]. destruct k as [|k]; [reflexivity|]. apply IH.
Qed.

Lemma sub_mid_cons c s :
  sub_mid (String c s) = String c (sub_from parts (Ascii.eqb c nl) O s).
Proof. reflexivity. Qed.

Lemma sub_bol_match s n :
  PROJECT_NUMBER_match s = Some n ->
  sub_bol s = expand_template parts (take n s) +:+ sub_mid (drop n s).
Proof.
  intros H. destruct (match_extent s n H) as [[Hn _] _].
  destruct s as [|c s]; [discriminate|].
  cbn [sub_from]. rewrite H.
  destruct n as [|n]; [lia|]. cbn [Nat.sub]. rewrite Nat.sub_0_r.
  destruct n as [|n]; [lia|]. rewrite sub_from_skip. reflexivity.
Qed.

Lemma sub_bol_nomatch s :
  PROJECT_NUMBER_match s = None -> sub_bol s = sub_mid s.
Proof.
  intros H. destruct s as [|c s]; [reflexivity|].
  cbn [sub_from]. rewrite H. reflexivity.
Qed.

(** A stretch of text without line feed is copied when the scan is inside
    a line. *)
Lemma sub_mid_copy (l t : string) :
  has_char nl l = false -> sub_mid (l +:+ t) = l +:+ sub_mid t.
Proof.
  intros Hl. induction l as [|c l IH]; [reflexivity|].
  cbn [has_char] in Hl. apply orb_false_iff in Hl as [Hc Hl].
  rewrite !append_cons, sub_mid_cons, Ascii.eqb_sym, Hc, (IH Hl). reflexivity.
Qed.

Lemma sub_mid_line (l : string) : has_char nl l = false -> sub_mid l = l.
Proof.
  intros Hl. rewrite <- (append_nil_r l) at 1.
  rewrite (sub_mid_copy l EmptyString Hl). apply append_nil_r.
Qed.

(** What the scan gives is empty or begins a new line when the text it
    scans inside a line does. *)
Lemma sub_mid_at_line_end t : at_line_end t = true -> at_line_end (sub_mid t) = true.
Proof.
  destruct t as [|c t]; [reflexivity|].
  intros H. rewrite sub_mid_cons. exact H.
Qed.

(** A prefix without line feed is seen in the result of the scan exactly
    when it is seen in the text. *)
Lemma startswith_sub_mid (k : string) : forall s,
  has_char nl k = false -> startswith k (sub_mid s) = startswith k s.
Proof.
  induction k as [|a k IH]; intros s Hk; [reflexivity|].
  cbn [has_char] in Hk. apply orb_false_iff in Hk as [Ha Hk].
  destruct s as [|c s]; [reflexivity|].
  rewrite sub_mid_cons. cbn [startswith].
  destruct (Ascii.eqb a c) eqn:E; [|reflexivity].
  apply Ascii.eqb_eq in E. subst c. rewrite Ascii.eqb_sym, Ha. apply IH, Hk.
Qed.

(** *** The scan, line by line *)

Lemma sub_bol_one_line l :
  has_char nl l = false -> sub_bol l = patch_line parts l.
Proof.
  intros Hl. unfold patch_line.
  destruct (PROJECT_NUMBER_match l) as [n|] eqn:Hm.
  - rewrite (sub_bol_match _ _ Hm), (match_whole_line l n Hl Hm).
    rewrite take_length, drop_length. apply append_nil_r.
  - rewrite (sub_bol_nomatch _ Hm). apply sub_mid_line, Hl.
Qed.

Lemma sub_bol_first_line l t :
  has_char nl l = false -> dangling_key l = false ->
  sub_bol (l +:+ String nl t) = patch_line parts l +:+ String nl (sub_bol t).
Proof.
  intros Hl Hd. unfold patch_line.
  pose proof (match_line l t Hl Hd) as Hm'.
  destruct (PROJECT_NUMBER_match l) as [n|] eqn:Hm.
  - rewrite (match_whole_line l n Hl Hm) in Hm'.
    rewrite (sub_bol_match _ _ Hm'), take_length_append, drop_length_append.
    reflexivity.
  - rewrite (sub_bol_nomatch _ Hm'), (sub_mid_copy l _ Hl). reflexivity.
Qed.

(** When no line is the bare key, the scan patches the text line by
    line. *)
Lemma sub_bol_lines (ls : list string) :
  ls <> [] ->
  forallb (fun l => negb (has_char nl l)) ls = true ->
  existsb dangling_key ls = false ->
  sub_bol (join LF ls) = join LF (map (patch_line parts) ls).
Proof.
  induction ls as [|l ls IH]; intros Hne Hnl Hd; [contradiction|].
  cbn [forallb existsb] in Hnl, Hd.
  apply andb_true_iff in Hnl as [Hl Hnl]. apply negb_true_iff in Hl.
  apply orb_false_iff in Hd as [Hdl Hd].
  destruct ls as [|q r].
  - cbn [map join]. apply sub_bol_one_line, Hl.
  - cbn [map]. rewrite !join_cons2.
    change (LF +:+ join LF (q :: r)) with (String nl (join LF (q :: r))).
    rewrite (sub_bol_first_line l _ Hl Hdl).
    rewrite (IH ltac:(discriminate) Hnl Hd). reflexivity.
Qed.

(** *** A replacement that is a new version line *)

Section Literal.

(** The template expands to the same text [R] at every match; [R] begins
    with the key, and in front of a line end the pattern matches the whole
    of it. *)
Variable R : string.
Hypothesis expand_R : forall whole, expand_template parts whole = R.
Hypothesis R_head : exists R', R = String "P" R'.
Hypothesis R_match : forall t,
  at_line_end t = true -> PROJECT_NUMBER_match (R +:+ t) = Some (String.length R).

Lemma tail_ok_R t : tail_ok (R +:+ t) = false.
Proof.
  destruct R_head as [R' ->]. rewrite append_cons, tail_ok_cons. reflexivity.
Qed.

(** Where the equals sign is missing behind the key, the scan does not
    bring one in. *)
Lemma tail_ok_sub (r : string) : forall b,
  tail_ok r = false -> tail_ok (sub_from parts b O r) = false.
Proof.
  induction r as [|c r IH]; intros b H; [reflexivity|].
  assert (Hcopy : tail_ok (String c (sub_from parts (Ascii.eqb c nl) O r)) = false).
  { rewrite tail_ok_cons in H |- *.
    destruct (isspace c); [apply IH, H|exact H]. }
  destruct b; [|exact Hcopy].
  destruct (PROJECT_NUMBER_match (String c r)) as [n|] eqn:Hm.
  - rewrite (sub_bol_match _ _ Hm), expand_R. apply tail_ok_R.
  - rewrite (sub_bol_nomatch _ Hm). exact Hcopy.
Qed.

(** Where the pattern does not match, it does not match the result of
    the scan either. *)
Lemma nomatch_sub_mid s :
  PROJECT_NUMBER_match s = None -> PROJECT_NUMBER_match (sub_mid s) = None.
Proof.
  intros H. apply match_none_iff in H. apply match_none_iff.
  destruct (startswith PROJECT_NUMBER_key s) eqn:Hkey.
  - destruct H as [H|H]; [discriminate|]. right.
    rewrite (startswith_split _ _ Hkey).
    rewrite sub_mid_copy by reflexivity.
    change 14%nat with (String.length PROJECT_NUMBER_key) in H |- *.
    rewrite drop_length_append. apply tail_ok_sub, H.
  - left. rewrite startswith_sub_mid by reflexivity. exact Hkey.
Qed.

(** Scanning the result of a scan changes nothing. *)
Lemma sub_from_idempotent k : forall s b,
  (String.length s <= k)%nat ->
  sub_from parts b O (sub_from parts b O s) = sub_from parts b O s.
Proof.
  induction k as [|k IH]; intros s b Hlen.
  - destruct s as [|c s]; [destruct b; reflexivity|cbn [String.length] in Hlen; lia].
  - destruct s as [|c s]; [destruct b; reflexivity|].
    cbn [String.length] in Hlen.
    assert (Hmid : sub_mid (sub_mid (String c s)) = sub_mid (String c s)).
    { rewrite !sub_mid_cons. f_equal. apply IH. lia. }
    destruct b; [|exact Hmid].
    destruct (PROJECT_NUMBER_match (String c s)) as [n|] eqn:Hm.
    + destruct (match_extent _ _ Hm) as [[Hn1 Hn2] Hend].
      rewrite (sub_bol_match _ _ Hm), expand_R.
      set (t := sub_mid (drop n (String c s))).
      assert (Ht : at_line_end t = true) by (apply sub_mid_at_line_end, Hend).
      rewrite (sub_bol_match _ _ (R_match t Ht)), expand_R, drop_length_append.
      f_equal. subst t. apply IH.
      rewrite length_drop. cbn [String.length] in Hn2 |- *. lia.
    + rewrite (sub_bol_nomatch _ Hm).
      rewrite (sub_bol_nomatch _ (nomatch_sub_mid _ Hm)). exact Hmid.
Qed.

End Literal.

(** A line that does not begin with the key is kept by the patch. *)
Lemma patch_line_other l :
  startswith PROJECT_NUMBER_key l = false -> patch_line parts l = l.
Proof.
  intros H. unfold patch_line.
  replace (PROJECT_NUMBER_match l) with (@None nat); [reflexivity|].
  symmetry. apply match_none_iff. left. exact H.
Qed.

Lemma patch_lines_other (ls : list string) :
  forallb (fun l => negb (startswith PROJECT_NUMBER_key l)) ls = true ->
  map (patch_line parts) ls = ls /\ existsb dangling_key ls = false.
Proof.
  induction ls as [|l ls IH]; intros H; [split; reflexivity|].
  cbn [forallb] in H. apply andb_true_iff in H as [Hl H].
  apply negb_true_iff in Hl. destruct (IH H) as [IH1 IH2].
  cbn [map existsb]. rewrite (patch_line_other l Hl), IH1, IH2.
  unfold dangling_key. rewrite Hl. split; reflexivity.
Qed.

End Sub.

(** ** Templates without escapes *)

Lemma parse_template_literal t :
  has_char backslash t = false -> parse_template t = Some (literal_parts t).
Proof.
  unfold parse_template. induction t as [|c t IH]; intros H; [reflexivity|].
  cbn [has_char] in H. apply orb_false_iff in H as [Hc H].
  cbn [parse_template_from token_at literal_parts].
  rewrite Ascii.eqb_sym, Hc. cbn [Nat.sub]. rewrite (IH H). reflexivity.
Qed.

Lemma expand_literal t whole : expand_template (literal_parts t) whole = t.
Proof.
  induction t as [|c t IH]; [reflexivity|].
  cbn [literal_parts expand_template]. rewrite IH. reflexivity.
Qed.

(** A new version line, in front of a line end, is matched as a whole. *)
Lemma version_line_match v t :
  has_char nl v = false -> at_line_end t = true ->
  PROJECT_NUMBER_match (("PROJECT_NUMBER = " +:+ v) +:+ t)
  = Some (String.length ("PROJECT_NUMBER = " +:+ v)).
Proof.
  intros Hv Ht. rewrite append_assoc.
  change ("PROJECT_NUMBER = " +:+ v +:+ t)
    with (PROJECT_NUMBER_key +:+ (String " " (String "=" (String " " (v +:+ t))))).
  unfold PROJECT_NUMBER_match. rewrite startswith_append.
  change 14%nat with (String.length PROJECT_NUMBER_key) at 1 2.
  rewrite drop_length_append.
  change (span isspace (String " " (String "=" (String " " (v +:+ t))))) with 1%nat.
  cbn [drop]. cbn [Ascii.eqb Bool.eqb].
  change (String " " (v +:+ t)) with (String " " v +:+ t).
  rewrite (span_not_nl_line (String " " v) t) by (cbn [has_char]; auto).
  rewrite length_append. reflexivity.
Qed.

End PyFacts.

(* ===================================================================== *)
(** * Line ends: what is written and read back *)
(* ===================================================================== *)

Module Newlines.
Import Py PyFacts.
Local Close Scope string_scope.

(** A character that is not in a text begins no part of it. *)
Lemma contains_needs_first c k (t : string) :
  has_char c t = false -> contains (String c k) t = false.
Proof.
  induction t as [|x t IH]; intros H; [reflexivity|].
  cbn [has_char] in H. apply orb_false_iff in H as [Hx Ht].
  rewrite contains_cons, (IH Ht). cbn [startswith]. rewrite Hx. reflexivity.
Qed.

(** Replacing a character by a text without it leaves none of it. *)
Lemma replace_char_gone c new (t : string) :
  has_char c new = false ->
  has_char c (replace (String c EmptyString) new t) = false.
Proof.
  intros Hnew. induction t as [|x t IH].
  - reflexivity.
  - rewrite (replace_cons (String c EmptyString) new eq_refl).
    cbn [startswith String.length drop].
    destruct (Ascii.eqb c x) eqn:E.
    + rewrite has_char_append, Hnew, IH. reflexivity.
    + cbn [has_char]. rewrite E, IH. reflexivity.
Qed.

(** A text read in text mode holds no CR. *)
Lemma universal_no_cr stored : has_char CR (universal_newlines stored) = false.
Proof. unfold universal_newlines. apply replace_char_gone. reflexivity. Qed.

(** A text without CR is read as it is stored. *)
Lemma universal_fixed (t : string) : has_char CR t = false -> universal_newlines t = t.
Proof.
  intros H. unfold universal_newlines.
  rewrite (replace_absent (String CR LF) LF eq_refl t (contains_needs_first _ _ _ H)).
  apply (replace_absent (String CR EmptyString) LF eq_refl t
           (contains_needs_first _ _ _ H)).
Qed.

Lemma crlf_round_trip (t : string) :
  has_char CR t = false ->
  replace (String CR LF) LF (replace LF (String CR LF) t) = t.
Proof.
  induction t as [|x t IH]; intros H; [reflexivity|].
  cbn [has_char] in H. apply orb_false_iff in H as [Hx Ht].
  rewrite (replace_cons LF (String CR LF) eq_refl).
  cbn [LF startswith String.length drop].
  destruct (Ascii.eqb nl x) eqn:E.
  - apply Ascii.eqb_eq in E. subst x.
    change (String CR LF +:+ replace LF (String CR LF) t)
      with (String CR (String nl (replace LF (String CR LF) t))).
    rewrite (replace_cons (String CR LF) LF eq_refl).
    cbn [LF startswith String.length drop].
    rewrite !Ascii.eqb_refl.
    change (String nl EmptyString +:+ ?r) with (String nl r).
    fold LF. rewrite (IH Ht). reflexivity.
  - rewrite (replace_cons (String CR LF) LF eq_refl).
    cbn [startswith]. rewrite Hx. fold LF. rewrite (IH Ht). reflexivity.
Qed.

(** A text without CR, written in text mode on either platform and read
    again, is the text. *)
Lemma write_then_read os_name (t : string) :
  has_char CR t = false ->
  universal_newlines (write_newlines (linesep_of os_name) t) = t.
Proof.
  intros H. unfold linesep_of, write_newlines.
  destruct (String.eqb os_name "nt").
  - change (String.eqb (String CR LF) LF) with false. cbv iota.
    unfold universal_newlines. rewrite (crlf_round_trip t H).
    apply (replace_absent (String CR EmptyString) LF eq_refl t
             (contains_needs_first _ _ _ H)).
  - rewrite String.eqb_refl. apply universal_fixed, H.
Qed.



End Newlines.

(* ===================================================================== *)
(** * Properties of [ci/ci/compile_for_board.py] *)
(* ===================================================================== *)

Module CompileForBoardProofs.
Import Py Effects PyFacts CompileForBoard.
Local Close Scope string_scope.

Section Orchestrator.

Variable environ : gmap string string.
Variable path_exists : list Event -> string -> bool.
Variable subprocess_run : list Event -> list string -> Z * string.

Local Abbreviation compile_one :=
  (compile_for_board_and_example path_exists subprocess_run).
Local Abbreviation loop := (compile_examples_loop environ path_exists subprocess_run).
Local Abbreviation batch := (compile_examples environ path_exists subprocess_run).
Local Abbreviation use_lock := (USE_FIRST_BUILD_LOCK environ).
Local Abbreviation rm_fails := (rm_raises path_exists subprocess_run).
Local Abbreviation build_log := (log_at_build path_exists).
Local Abbreviation tool_result := (build_result path_exists subprocess_run).

(** ** One compile *)

(** The call either stops at the failed removal of the old sources, or
    runs the build tool once and returns its verdict with the rewritten
    output. *)
Lemma compile_one_cases project example build_dir st :
  let out := normalize_paths (snd (tool_result project example build_dir st)) in
  let rc := fst (tool_result project example build_dir st) in
  if rm_fails project build_dir st then
    compile_one project example build_dir st =
      (Raise (CalledProcessError
                (fst (subprocess_run (log_at_rm project build_dir st)
                                     (rm_cmd project build_dir)))
                (Argv (rm_cmd project build_dir))),
       {| ERROR_HAPPENED := ERROR_HAPPENED st;
          log := log_at_rm project build_dir st ++ [EvRun (rm_cmd project build_dir)] |})
  else
    compile_one project example build_dir st =
      (Ret (rc =? 0, out),
       {| ERROR_HAPPENED := ERROR_HAPPENED st;
          log := build_log project example build_dir st
                 ++ [ EvRun (build_cmd project example build_dir);
                      EvPrint out;
                      EvPrint ((if rc =? 0 then "*** Finished building example "
                                else "*** Error compiling example ")
                               +:+ example +:+ " for board " +:+ board_name project
                               +:+ " ***") ] |}).
Proof.
  cbv zeta.
  unfold rm_raises, build_result, log_at_build, compile_for_board_and_example.
  unfold bind, emit, exists_, run_process_checked, run_process, locked_print,
    bind, emit, raise, ret; cbn [log ERROR_HAPPENED fst snd].
  fold (log_at_rm project build_dir st).
  fold (srcdir_of project build_dir).
  fold (rm_cmd project build_dir).
  fold (build_cmd project example build_dir).
  destruct (path_exists (log_at_rm project build_dir st) (srcdir_of project build_dir));
    cbn [andb negb log ERROR_HAPPENED fst snd].
  - destruct (fst (subprocess_run (log_at_rm project build_dir st)
                     (rm_cmd project build_dir)) =? 0) eqn:Hrm;
      cbn [andb negb log ERROR_HAPPENED fst snd]; [|reflexivity].
    rewrite <- !app_assoc; cbn [List.app].
    destruct (fst (subprocess_run _ (build_cmd project example build_dir)) =? 0) eqn:Hrc;
      cbn [negb log ERROR_HAPPENED]; rewrite <- ?app_assoc; reflexivity.
  - rewrite <- !app_assoc; cbn [List.app].
    destruct (fst (subprocess_run _ (build_cmd project example build_dir)) =? 0) eqn:Hrc;
      cbn [negb log ERROR_HAPPENED]; rewrite <- ?app_assoc; reflexivity.
Qed.

(** ** Logs *)

Lemma held_after_app h a b :
  held_after h (a ++ b) = held_after (held_after h a) b.
Proof.
  revert h; induction a as [|e a IH]; intros h; [reflexivity|].
  destruct e; cbn [List.app held_after]; apply IH.
Qed.

Lemma compiles_app h a b :
  compiles h (a ++ b) = compiles h a ++ compiles (held_after h a) b.
Proof.
  revert h; induction a as [|e a IH]; intros h; [reflexivity|].
  destruct e; cbn [List.app held_after compiles]; try apply IH.
  destruct (is_compile cmd); cbn [List.app]; rewrite IH; reflexivity.
Qed.

Lemma acquisitions_app a b :
  acquisitions (a ++ b) = (acquisitions a + acquisitions b)%nat.
Proof.
  induction a as [|e a IH]; [reflexivity|].
  destruct e; cbn [List.app acquisitions]; rewrite IH; reflexivity.
Qed.

Lemma emitted_app st st' new :
  log st' = log st ++ new -> emitted st st' = new.
Proof.
  unfold emitted; intros ->.
  induction (log st) as [|e l IH]; [reflexivity|exact IH].
Qed.

Lemma emitted_same st : emitted st st = [].
Proof. apply emitted_app. symmetry; apply app_nil_r. Qed.

Lemma is_compile_build_cmd project example build_dir :
  is_compile (build_cmd project example build_dir) = true.
Proof. reflexivity. Qed.

Lemma is_compile_rm_cmd project build_dir :
  is_compile (rm_cmd project build_dir) = false.
Proof. reflexivity. Qed.

(** One compile leaves the flag alone, touches the gate not at all, and
    starts the build tool once unless it stops at the removal. *)
Lemma compile_one_log project example build_dir st :
  exists new,
    log (snd (compile_one project example build_dir st)) = log st ++ new
    /\ ERROR_HAPPENED (snd (compile_one project example build_dir st)) = ERROR_HAPPENED st
    /\ acquisitions new = O
    /\ (forall h, held_after h new = h)
    /\ (forall h, compiles h new =
                  match fst (compile_one project example build_dir st) with
                  | Ret _ => [(h, build_cmd project example build_dir)]
                  | Raise _ => []
                  end).
Proof.
  pose proof (compile_one_cases project example build_dir st) as H.
  cbv zeta in H.
  destruct (rm_fails project build_dir st).
  - rewrite H; cbn [fst snd log ERROR_HAPPENED].
    unfold log_at_rm. rewrite <- app_assoc. eexists; split; [reflexivity|].
    cbn [List.app acquisitions held_after compiles].
    rewrite is_compile_rm_cmd. auto.
  - rewrite H; cbn [fst snd log ERROR_HAPPENED].
    unfold log_at_build, log_at_rm.
    destruct (path_exists _ _); rewrite <- !app_assoc;
      (eexists; split; [reflexivity|]);
      cbn [List.app acquisitions held_after compiles];
      rewrite ?is_compile_rm_cmd, is_compile_build_cmd; auto.
Qed.

(** ** The batch loop, one iteration at a time *)

Local Abbreviation entry := (compile_entry environ).
Local Abbreviation exit_ := (compile_exit environ).

Lemma loop_nil project build_dir is_first st :
  loop project build_dir is_first [] st = (Ret (true, EmptyString), st).
Proof. reflexivity. Qed.

Lemma loop_cons project build_dir is_first example rest st :
  loop project build_dir is_first (example :: rest) st =
  if ERROR_HAPPENED st then (Ret (true, EmptyString), st)
  else
    match compile_one project example build_dir (entry project is_first example st) with
    | (Ret (true, _), st2) =>
        loop project build_dir false rest (exit_ is_first st2)
    | (Ret (false, message), st2) =>
        (Ret (false, error_message project example message),
         {| ERROR_HAPPENED := true; log := log (exit_ is_first st2) |})
    | (Raise x, st2) => (Raise x, exit_ is_first st2)
    end.
Proof.
  cbn [compile_examples_loop].
  unfold bind at 1. unfold read_ERROR_HAPPENED at 1.
  destruct (ERROR_HAPPENED st) eqn:Hflag; [reflexivity|].
  unfold bind at 1. unfold locked_print at 1, emit at 1.
  unfold bind at 1.
  unfold compile_entry, compile_exit, error_message.
  destruct is_first; cbn [andb].
  - unfold locked_print at 1, emit at 1; cbn [log ERROR_HAPPENED].
    unfold bind at 1.
    destruct use_lock.
    + unfold with_FIRST_BUILD_LOCK, emit; cbn [log ERROR_HAPPENED fst snd].
      rewrite <- !app_assoc; cbn [List.app].
      destruct (compile_one project example build_dir _) as [[[[] message]|x] st2];
        reflexivity.
    + rewrite <- ?app_assoc; cbn [List.app andb].
      destruct (compile_one project example build_dir _) as [[[[] message]|x] st2];
        reflexivity.
  - unfold ret at 1. unfold bind at 1.
    rewrite <- ?app_assoc; cbn [List.app].
    destruct (compile_one project example build_dir _) as [[[[] message]|x] st2];
      reflexivity.
Qed.

Lemma entry_log project is_first example st :
  exists pre,
    log (entry project is_first example st) = log st ++ pre
    /\ ERROR_HAPPENED (entry project is_first example st) = ERROR_HAPPENED st
    /\ acquisitions pre = (if is_first && use_lock then 1 else 0)%nat
    /\ held_after false pre = is_first && use_lock
    /\ compiles false pre = [].
Proof.
  unfold compile_entry; cbn [log ERROR_HAPPENED].
  eexists; split; [reflexivity|].
  destruct is_first, use_lock; cbn; auto.
Qed.

Lemma exit_log is_first st :
  exists post,
    log (exit_ is_first st) = log st ++ post
    /\ ERROR_HAPPENED (exit_ is_first st) = ERROR_HAPPENED st
    /\ acquisitions post = O
    /\ held_after (is_first && use_lock) post = false
    /\ (forall h, compiles h post = []).
Proof.
  unfold compile_exit.
  destruct (is_first && use_lock); cbn [log ERROR_HAPPENED].
  - eexists; split; [reflexivity|]. cbn; auto.
  - exists []. rewrite app_nil_r. cbn; auto.
Qed.

(** The events of one iteration up to the point behind its compile. *)
Lemma iteration_log project build_dir is_first example st :
  let r := compile_one project example build_dir (entry project is_first example st) in
  exists new,
    log (exit_ is_first (snd r)) = log st ++ new
    /\ ERROR_HAPPENED (exit_ is_first (snd r)) = ERROR_HAPPENED st
    /\ acquisitions new = (if is_first && use_lock then 1 else 0)%nat
    /\ held_after false new = false
    /\ compiles false new =
         match fst r with
         | Ret _ => [(is_first && use_lock, build_cmd project example build_dir)]
         | Raise _ => []
         end.
Proof.
  intros r.
  destruct (entry_log project is_first example st) as (pre & Hpre & Fpre & Apre & Gpre & Cpre).
  destruct (compile_one_log project example build_dir (entry project is_first example st))
    as (mid & Hmid & Fmid & Amid & Gmid & Cmid).
  destruct (exit_log is_first (snd r)) as (post & Hpost & Fpost & Apost & Gpost & Cpost).
  fold r in Hmid, Fmid, Cmid.
  exists (pre ++ mid ++ post).
  rewrite Hpost, Fpost, Hmid, Fmid, Hpre, Fpre, <- !app_assoc.
  rewrite !acquisitions_app, !compiles_app, !held_after_app.
  rewrite Apre, Amid, Apost, Gpre, !Gmid, Gpost, Cpre, Cmid, Cpost.
  repeat split; try reflexivity.
  - lia.
  - cbn [List.app]. apply app_nil_r.
Qed.

(** The events of a batch: the build tool is started for the examples of a
    prefix of the sequence, in order; the first of these compiles is under
    the gate exactly when the gate is in use, no other one is. *)
Lemma loop_log project build_dir examples : forall is_first st,
  exists new n,
    log (snd (loop project build_dir is_first examples st)) = log st ++ new
    /\ (n <= List.length examples)%nat
    /\ (acquisitions new <= (if is_first && use_lock then 1 else 0))%nat
    /\ held_after false new = false
    /\ compiles false new =
         gate_plan (is_first && use_lock)
                   (map (fun e => build_cmd project e build_dir) (firstn n examples)).
Proof.
  induction examples as [|example rest IH]; intros is_first st.
  - exists [], O. rewrite loop_nil, app_nil_r. cbn. repeat split; lia.
  - rewrite loop_cons.
    destruct (ERROR_HAPPENED st) eqn:Hflag.
    { exists [], O. cbn [snd]. rewrite app_nil_r. cbn. repeat split; lia. }
    destruct (iteration_log project build_dir is_first example st)
      as (new & Hnew & Fnew & Anew & Gnew & Cnew).
    cbv zeta in Hnew, Fnew, Cnew.
    destruct (compile_one project example build_dir (entry project is_first example st))
      as [[[[] message]|x] st2]; cbn [fst snd] in *.
    + destruct (IH false (exit_ is_first st2)) as (more & n & Hmore & Hn & Amore & Gmore & Cmore).
      exists (new ++ more), (S n).
      rewrite Hmore, Hnew, <- app_assoc.
      rewrite acquisitions_app, held_after_app, compiles_app, Gnew, Gmore, Cnew, Cmore, Anew.
      cbn [andb] in Amore |- *. cbn [List.length firstn map gate_plan List.app].
      repeat split; try lia.
      f_equal. destruct (map _ (firstn n rest)); cbn [gate_plan]; reflexivity.
    + exists new, 1%nat. cbn [log].
      rewrite Hnew, Gnew, Cnew, Anew. cbn. repeat split; lia.
    + exists new, O. rewrite Hnew, Gnew, Cnew, Anew. cbn. repeat split; lia.
Qed.

(** A batch that got through a first part of its examples goes on with the
    rest as a batch of its own that is no longer at its first example. *)
Lemma loop_app project build_dir pre more : forall is_first st st1,
  loop project build_dir is_first pre st = (Ret (true, EmptyString), st1) ->
  ERROR_HAPPENED st1 = false ->
  loop project build_dir is_first (pre ++ more) st =
  loop project build_dir (is_first && match pre with [] => true | _ => false end) more st1.
Proof.
  induction pre as [|example rest IH]; intros is_first st st1 Hrun Hflag.
  - rewrite loop_nil in Hrun. injection Hrun as <-.
    rewrite andb_true_r. reflexivity.
  - cbn [List.app]. rewrite loop_cons in Hrun |- *.
    destruct (ERROR_HAPPENED st) eqn:Hst.
    { injection Hrun as <-. congruence. }
    destruct (compile_one project example build_dir (entry project is_first example st))
      as [[[[] message]|x] st2]; try discriminate.
    rewrite (IH _ _ _ Hrun Hflag), andb_false_r. reflexivity.
Qed.

(** ** Text of the failure message *)

Lemma error_message_contains project example message :
  contains example (error_message project example message) = true
  /\ contains (board_name project) (error_message project example message) = true
  /\ contains message (error_message project example message) = true.
Proof.
  unfold error_message. repeat split.
  - apply contains_infix.
  - rewrite <- (append_assoc _ example), <- (append_assoc _ " for board ").
    apply contains_infix.
  - rewrite <- (append_assoc _ example), <- (append_assoc _ " for board "),
      <- (append_assoc _ (board_name project)), <- (append_assoc _ ". stdout:"),
      <- (append_assoc _ LF).
    apply contains_suffix.
Qed.

(** ** The claims *)

(** C1.  In an iteration of the batch loop that starts with the global
    error flag set, [compile_examples] returns [(True, '')] at once: the
    state is the one the iteration started in, so nothing was printed, the
    gate was not touched and the build tool was not started.  The loop is
    taken at any of its iterations: [example :: rest] are the examples that
    remain and [is_first] is the local of that name. *)
Theorem error_flag_aborts_batch project build_dir is_first example rest st :
  ERROR_HAPPENED st = true ->
  loop project build_dir is_first (example :: rest) st = (Ret (true, EmptyString), st)
  /\ emitted st (snd (loop project build_dir is_first (example :: rest) st)) = [].
Proof.
  intros Hflag. rewrite loop_cons, Hflag. cbn [snd].
  split; [reflexivity|apply emitted_same].
Qed.

(** C2, as the code has it.  When the batch has got through the examples
    [pre] and the compile of the next example [e] returns
    [(False, message)], then [compile_examples] sets the global error flag
    and returns [(False, m)]; [m] contains the name of [e] and the name of
    the board; the text it carries is [message], which is the captured
    output of the build tool with the path alias rewritten, not the output
    as it was captured; the compile of [e] is the only start of the build
    tool from there on, whatever examples [rest] come behind [e]. *)
Theorem compile_failure_stops_batch project build_dir pre e rest st st1 message :
  batch project pre build_dir st = (Ret (true, EmptyString), st1) ->
  ERROR_HAPPENED st1 = false ->
  let st_e := entry project match pre with [] => true | _ => false end e st1 in
  fst (compile_one project e build_dir st_e) = Ret (false, message) ->
  let captured := snd (tool_result project e build_dir st_e) in
  let m := error_message project e message in
  let r := batch project (pre ++ e :: rest) build_dir st in
  fst r = Ret (false, m)
  /\ ERROR_HAPPENED (snd r) = true
  /\ contains e m = true
  /\ contains (board_name project) m = true
  /\ message = normalize_paths captured
  /\ contains (normalize_paths captured) m = true
  /\ map snd (compiles false (emitted st1 (snd r))) = [build_cmd project e build_dir].
Proof.
  intros Hpre Hflag st_e Hfail captured m r. subst m r captured.
  assert (Hmsg : message = normalize_paths (snd (tool_result project e build_dir st_e))).
  { pose proof (compile_one_cases project e build_dir st_e) as H. cbv zeta in H.
    destruct (rm_fails project build_dir st_e); rewrite H in Hfail; cbn [fst] in Hfail;
      [discriminate|].
    injection Hfail as _ <-. reflexivity. }
  unfold compile_examples in *.
  rewrite (loop_app _ _ _ _ _ _ _ Hpre Hflag). cbn [andb].
  rewrite loop_cons, Hflag.
  pose proof (iteration_log project build_dir
                match pre with [] => true | _ => false end e st1)
    as (new & Hnew & _ & _ & _ & Cnew).
  cbv zeta in Hnew, Cnew. fold st_e in Hnew, Cnew |- *.
  destruct (compile_one project e build_dir st_e) as [[[[] msg]|x] st2];
    cbn [fst snd] in *; try discriminate.
  injection Hfail as ->.
  destruct (error_message_contains project e message) as (H1 & H2 & H3).
  repeat split; auto.
  - rewrite <- Hmsg. exact H3.
  - rewrite (emitted_app st1 _ new) by exact Hnew.
    rewrite Cnew. reflexivity.
Qed.

(** C3.  In a run of [compile_examples] the build tool is started for the
    examples of a prefix of the sequence, in order.  The first of these
    compiles is made with the gate held exactly when
    [USE_FIRST_BUILD_LOCK] is true; every later one is made without the
    gate; the gate is acquired at most once, and never when
    [USE_FIRST_BUILD_LOCK] is false. *)
Theorem first_build_gate_policy project examples build_dir st :
  let new := emitted st (snd (batch project examples build_dir st)) in
  (acquisitions new <= (if use_lock then 1 else 0))%nat
  /\ held_after false new = false
  /\ exists n,
       (n <= List.length examples)%nat
       /\ compiles false new =
            gate_plan use_lock
              (map (fun e => build_cmd project e build_dir) (firstn n examples)).
Proof.
  intros new. subst new. unfold compile_examples.
  destruct (loop_log project build_dir examples true st)
    as (new & n & Hnew & Hn & Anew & Gnew & Cnew).
  rewrite (emitted_app _ _ _ Hnew). cbn [andb] in *.
  repeat split; auto. exists n. auto.
Qed.

(** C4, as the code has it.  When the removal of the old sources does not
    fail, [compile_for_board_and_example] returns [(False, t')] on a
    non-zero exit of the build tool and [(True, t')] on a zero exit, where
    in both cases [t'] is the captured output with the path alias
    rewritten. *)
Theorem compile_one_result project example build_dir st :
  rm_fails project build_dir st = false ->
  fst (compile_one project example build_dir st) =
    Ret (fst (tool_result project example build_dir st) =? 0,
         normalize_paths (snd (tool_result project example build_dir st))).
Proof.
  intros Hrm.
  pose proof (compile_one_cases project example build_dir st) as H.
  cbv zeta in H. rewrite Hrm in H. rewrite H. reflexivity.
Qed.

(** One compile never writes the flag. *)
Lemma compile_one_flag project example build_dir st :
  ERROR_HAPPENED (snd (compile_one project example build_dir st)) = ERROR_HAPPENED st.
Proof.
  destruct (compile_one_log project example build_dir st) as (new & _ & H & _).
  exact H.
Qed.

Lemma loop_flag_set project build_dir is_first examples st :
  ERROR_HAPPENED st = true ->
  loop project build_dir is_first examples st = (Ret (true, EmptyString), st).
Proof.
  intros Hflag. destruct examples; [apply loop_nil|].
  rewrite loop_cons, Hflag. reflexivity.
Qed.

Local Abbreviation step := (exec environ path_exists subprocess_run).
Local Abbreviation steps := (run_ops environ path_exists subprocess_run).

Lemma exec_monotone op st :
  ERROR_HAPPENED st = true -> ERROR_HAPPENED (step op st) = true.
Proof.
  intros Hflag. destruct op; cbn [exec].
  - exact Hflag.
  - rewrite compile_one_flag. exact Hflag.
  - unfold compile_examples. rewrite loop_flag_set by exact Hflag. exact Hflag.
Qed.

Lemma run_ops_monotone ops : forall st,
  ERROR_HAPPENED st = true -> ERROR_HAPPENED (steps ops st) = true.
Proof.
  induction ops as [|op ops IH]; intros st Hflag; [exact Hflag|].
  apply IH, exec_monotone, Hflag.
Qed.

(** C9.  The global error flag starts false; every operation of the
    module leaves it as it was or sets it to true, so none takes it from
    true back to false; hence, in a run, once [errors_happened()] has
    returned true it returns true behind every further operation. *)
Theorem error_flag_monotone :
  ERROR_HAPPENED initial_state = false
  /\ (forall op st,
        ERROR_HAPPENED (step op st) = ERROR_HAPPENED st
        \/ ERROR_HAPPENED (step op st) = true)
  /\ (forall op st,
        ERROR_HAPPENED st = true -> ERROR_HAPPENED (step op st) = true)
  /\ (forall ops more st,
        fst (errors_happened (steps ops st)) = Ret true ->
        fst (errors_happened (steps (ops ++ more) st)) = Ret true).
Proof.
  split; [reflexivity|]. split; [|split].
  - intros op st. destruct (ERROR_HAPPENED st) eqn:Hflag.
    + left. apply exec_monotone, Hflag.
    + destruct (ERROR_HAPPENED (step op st)); auto.
  - apply exec_monotone.
  - intros ops more st. unfold errors_happened, read_ERROR_HAPPENED. cbn [fst].
    intros H. injection H as H.
    unfold run_ops. rewrite fold_left_app. fold (steps ops st).
    f_equal. apply (run_ops_monotone more), H.
Qed.

(** C10.  On the empty sequence [compile_examples] returns [(True, '')]
    and leaves the state as it found it: the flag is not written and no
    event happened, so no compile was made and the gate was not
    acquired. *)
Theorem compile_no_examples project build_dir st :
  batch project [] build_dir st = (Ret (true, EmptyString), st)
  /\ ERROR_HAPPENED (snd (batch project [] build_dir st)) = ERROR_HAPPENED st
  /\ emitted st (snd (batch project [] build_dir st)) = []
  /\ compiles false (emitted st (snd (batch project [] build_dir st))) = []
  /\ acquisitions (emitted st (snd (batch project [] build_dir st))) = O.
Proof.
  unfold compile_examples. rewrite loop_nil. cbn [snd]. rewrite emitted_same.
  repeat split.
Qed.

End Orchestrator.

(** ** The rewriting of the captured output *)

(** C5, as the code has it.  The normalization is two scans from the
    left, one for [lib/src] and then one for [lib\src]; a scan replaces
    the leftmost occurrence of its alias by [src], keeps the text in
    front of it and goes on behind it, so every occurrence the scan finds
    is replaced.  A text that holds neither alias is left as it is.
    Applying the normalization twice gives what applying it once gives
    whenever the text normalized once holds neither alias. *)
Theorem normalize_paths_scan (s : string) :
  normalize_paths s = replace "lib\src" "src" (replace "lib/src" "src" s)
  /\ (forall alias i,
        alias = "lib/src" \/ alias = "lib\src" ->
        find alias s = Some i ->
        replace alias "src" s =
        take i s +:+ "src" +:+ replace alias "src" (drop (i + 7) s))
  /\ (contains "lib/src" s = false -> contains "lib\src" s = false ->
      normalize_paths s = s)
  /\ (contains "lib/src" (normalize_paths s) = false ->
      contains "lib\src" (normalize_paths s) = false ->
      normalize_paths (normalize_paths s) = normalize_paths s).
Proof.
  assert (Hid : forall t, contains "lib/src" t = false -> contains "lib\src" t = false ->
                          normalize_paths t = t).
  { intros t H1 H2. unfold normalize_paths.
    rewrite (replace_absent "lib/src" "src" eq_refl t H1).
    apply (replace_absent "lib\src" "src" eq_refl t H2). }
  split; [reflexivity|]. split; [|split].
  - intros alias i [-> | ->] Hfind.
    + apply (replace_find "lib/src" "src" eq_refl s i Hfind).
    + apply (replace_find "lib\src" "src" eq_refl s i Hfind).
  - apply Hid.
  - apply Hid.
Qed.

(** ** The claims on concrete runs *)

Import Scenario.

Lemma normalize_paths_scan_witness :
  replace "lib/src" "src" "lib/src/FastLED.h and lib/src/led.cpp"
  = take 0 "lib/src/FastLED.h and lib/src/led.cpp" +:+ "src"
    +:+ replace "lib/src" "src" (drop (0 + 7) "lib/src/FastLED.h and lib/src/led.cpp")
  /\ normalize_paths "src/FastLED.h" = "src/FastLED.h"
  /\ normalize_paths (normalize_paths "lib/src/FastLED.h and lib\src\led.cpp")
     = normalize_paths "lib/src/FastLED.h and lib\src\led.cpp".
Proof.
  split; [|split].
  - apply (proj1 (proj2 (normalize_paths_scan "lib/src/FastLED.h and lib/src/led.cpp"))
             "lib/src" O); [left; reflexivity | reflexivity].
  - apply (proj1 (proj2 (proj2 (normalize_paths_scan "src/FastLED.h")))); reflexivity.
  - apply (proj2 (proj2 (proj2
             (normalize_paths_scan "lib/src/FastLED.h and lib\src\led.cpp")))); reflexivity.
Defined.

(** C5 as the specification words it fails: the text that a scan puts in
    is not scanned again, so an alias can be left behind, and a second
    application changes the text once more. *)
Lemma normalize_paths_not_idempotent :
  normalize_paths "lib/lib/src" = "lib/src"
  /\ normalize_paths (normalize_paths "lib/lib/src") = "src"
  /\ normalize_paths (normalize_paths "lib/lib/src") <> normalize_paths "lib/lib/src"
  /\ contains "lib/src" (normalize_paths "lib/lib/src") = true.
Proof.
  repeat split; try reflexivity. vm_compute. discriminate.
Qed.

Lemma error_flag_aborts_batch_witness :
  compile_examples_loop github_environ no_srcdir blink_fails uno None false
    ("Fade" :: ["Cylon"]) failed_state
  = (Ret (true, EmptyString), failed_state)
  /\ emitted failed_state
       (snd (compile_examples_loop github_environ no_srcdir blink_fails uno None false
               ("Fade" :: ["Cylon"]) failed_state)) = [].
Proof.
  apply (error_flag_aborts_batch github_environ no_srcdir blink_fails
           uno None false "Fade" ["Cylon"] failed_state).
  reflexivity.
Defined.

(** The batch ["Blink"; "Fade"] for the board "uno" whose first compile
    fails. *)
Lemma compile_failure_stops_batch_witness :
  let st_e := compile_entry github_environ uno true "Blink" initial_state in
  let captured := snd (build_result no_srcdir blink_fails uno "Blink" None st_e) in
  let m := error_message uno "Blink" "src/FastLED.h:12: error: expected ';'" in
  let r := compile_examples github_environ no_srcdir blink_fails
             uno ([] ++ "Blink" :: ["Fade"]) None initial_state in
  fst r = Ret (false, m)
  /\ ERROR_HAPPENED (snd r) = true
  /\ contains "Blink" m = true
  /\ contains (board_name uno) m = true
  /\ "src/FastLED.h:12: error: expected ';'" = normalize_paths captured
  /\ contains (normalize_paths captured) m = true
  /\ map snd (compiles false (emitted initial_state (snd r)))
     = [build_cmd uno "Blink" None].
Proof.
  apply (compile_failure_stops_batch github_environ no_srcdir blink_fails
           uno None [] "Blink" ["Fade"] initial_state initial_state
           "src/FastLED.h:12: error: expected ';'");
    vm_compute; reflexivity.
Defined.

(** C2 as the specification words it fails: the build tool exits with 1
    on [Blink] and the captured text names [lib/src]; the message of the
    failed batch carries the rewritten text, and the text as it was
    captured is no part of it. *)
Lemma compile_failure_message_is_rewritten :
  let st_e := compile_entry github_environ uno true "Blink" initial_state in
  let captured := "lib/src/FastLED.h:12: error: expected ';'" in
  let r := compile_examples github_environ no_srcdir blink_fails
             uno ["Blink"; "Fade"] None initial_state in
  build_result no_srcdir blink_fails uno "Blink" None st_e = (1, captured)
  /\ fst r = Ret (false, "Error building Blink for board uno. stdout:" +:+ LF
                         +:+ "src/FastLED.h:12: error: expected ';'")
  /\ (forall m, fst r = Ret (false, m) -> contains captured m = false).
Proof.
  cbv zeta. split; [vm_compute; reflexivity|]. split; [vm_compute; reflexivity|].
  intros m E.
  assert (Hm : m = "Error building Blink for board uno. stdout:" +:+ LF
                   +:+ "src/FastLED.h:12: error: expected ';'")
    by (vm_compute in E; injection E as <-; reflexivity).
  rewrite Hm. vm_compute. reflexivity.
Qed.

Lemma compile_one_result_witness :
  fst (compile_for_board_and_example no_srcdir blink_fails uno "Fade" None initial_state)
  = Ret (fst (build_result no_srcdir blink_fails uno "Fade" None initial_state) =? 0,
         normalize_paths
           (snd (build_result no_srcdir blink_fails uno "Fade" None initial_state))).
Proof.
  apply (compile_one_result no_srcdir blink_fails uno "Fade" None initial_state).
  reflexivity.
Defined.

(** On a constrained runner the first of two compiles is made under the
    gate, the second one is not; elsewhere the gate is never taken. *)
Example gate_on_github :
  let new := emitted initial_state
               (snd (compile_examples github_environ no_srcdir blink_fails
                       uno ["Fade"; "Cylon"] None initial_state)) in
  compiles false new
  = [(true, build_cmd uno "Fade" None); (false, build_cmd uno "Cylon" None)]
  /\ acquisitions new = 1%nat.
Proof. vm_compute. split; reflexivity. Qed.

Example no_gate_elsewhere :
  let new := emitted initial_state
               (snd (compile_examples local_environ no_srcdir blink_fails
                       uno ["Fade"; "Cylon"] None initial_state)) in
  compiles false new
  = [(false, build_cmd uno "Fade" None); (false, build_cmd uno "Cylon" None)]
  /\ acquisitions new = O.
Proof. vm_compute. split; reflexivity. Qed.

(** The batch for "esp32" that starts behind the failed batch for "uno"
    returns [(True, '')] and does nothing. *)
Example sibling_batch_skips :
  let st := snd (compile_examples github_environ no_srcdir blink_fails
                   uno ["Blink"; "Fade"] None initial_state) in
  compile_examples github_environ no_srcdir blink_fails esp32 ["Fade"; "Cylon"] None st
  = (Ret (true, EmptyString), st).
Proof. vm_compute. reflexivity. Qed.

(** C4 as the specification words it fails: the build tool exits with 1
    and the captured text names [lib/src]; the text that comes back with
    [False] is the rewritten one, not the captured one. *)
Lemma compile_one_failure_is_rewritten :
  rm_raises no_srcdir blink_fails uno None initial_state = false
  /\ build_result no_srcdir blink_fails uno "Blink" None initial_state
     = (1, "lib/src/FastLED.h:12: error: expected ';'")
  /\ fst (compile_for_board_and_example no_srcdir blink_fails uno "Blink" None initial_state)
     = Ret (false, "src/FastLED.h:12: error: expected ';'")
  /\ fst (compile_for_board_and_example no_srcdir blink_fails uno "Blink" None initial_state)
     <> Ret (false, "lib/src/FastLED.h:12: error: expected ';'").
Proof.
  repeat split; try (vm_compute; reflexivity).
  vm_compute. discriminate.
Qed.

(** Two batches one behind the other: "uno" fails on its first example;
    [errors_happened()] is true from then on, also behind the batch for
    "esp32", which compiles nothing. *)
Lemma error_flag_monotone_witness :
  fst (errors_happened
         (run_ops github_environ no_srcdir blink_fails
            ([OpCompileExamples uno ["Blink"; "Fade"] None]
             ++ [OpCompileExamples esp32 ["Blink"] None; OpErrorsHappened])
            initial_state))
  = Ret true.
Proof.
  apply (proj2 (proj2 (proj2
           (error_flag_monotone github_environ no_srcdir blink_fails)))).
  vm_compute. reflexivity.
Defined.

End CompileForBoardProofs.

(* ===================================================================== *)
(** * Properties of [ci/docs.py] *)
(* ===================================================================== *)

Module DocsProofs.
Import Py Effects PyFacts Newlines Docs.
Local Close Scope string_scope.
Local Open Scope py_scope.

Section Publisher.

Variable environ : gmap string string.
Variable gettempdir : string.
Variable subprocess_run : World -> string -> option string -> Completed * gmap string string.
Variable download_ : World -> string -> string -> option Exn * gmap string string.
Variable unpack_archive : World -> string -> string -> option Exn * gmap string string.
Variable glob : World -> string -> string -> list string.

Local Abbreviation sh := (run subprocess_run).
Local Abbreviation git_info := (get_git_info environ subprocess_run).
Local Abbreviation install_windows :=
  (install_doxygen_windows gettempdir download_ unpack_archive glob).
Local Abbreviation fetch := (windows_fetch gettempdir download_ unpack_archive).
Local Abbreviation install_unix := (install_doxygen_unix subprocess_run).

(** ** [run] *)

(** A checked [run] returns the stripped output or raises
    [CalledProcessError], nothing else. *)
Lemma run_outcome cmd cwd shell check w :
  match fst (sh cmd cwd shell check w) with
  | Ret _ => True
  | Raise (CalledProcessError _ c) => c = Shell cmd
  | Raise _ => False
  end.
Proof.
  unfold run, bind, print, warn, act, raise, ret. cbn [fst snd fs console].
  destruct (subprocess_run _ cmd cwd) as [r files]. cbn [fst snd].
  destruct (returncode r =? 0); cbn [negb fst]; [exact I|].
  destruct check; cbn [fst]; [reflexivity|exact I].
Qed.

(** The query for the latest tag never raises: a failed command gives the
    empty tag. *)
Lemma latest_tag_returns cmd w :
  exists tag w1,
    try_except_CalledProcessError (sh cmd None true true) (ret EmptyString) w
    = (Ret tag, w1).
Proof.
  unfold try_except_CalledProcessError.
  pose proof (run_outcome cmd None true true w) as H.
  destruct (sh cmd None true true w) as [[out|[rc c|m| |m]] w1]; cbn [fst] in H;
    try contradiction; eauto.
Qed.

(** [a or b] is [a] unless [a] is empty. *)
Lemma str_or_spec (a b : string) :
  str_or a b = if decide (a <> EmptyString) then a else b.
Proof.
  destruct a as [|c a]; cbn [str_or is_empty].
  - destruct (decide (EmptyString <> EmptyString)) as [H|H];
      [exfalso; apply H; reflexivity|reflexivity].
  - destruct (decide (String c a <> EmptyString)) as [H|H]; [reflexivity|].
    exfalso; apply H; discriminate.
Qed.

(** ** The claims *)

(** C6.  Whatever the release tag of the environment (empty when the
    variable is not set), the latest tag the tag query gives, and the short
    and the full commit SHA are: the version string that [get_git_info]
    returns is the release tag when that is not empty, else the latest tag
    when that is not empty, else the short SHA; the commit message is the
    version string followed by the full SHA in parentheses when the version
    string differs from the short SHA, and the version string alone when
    they are equal. *)
Theorem get_git_info_version w latest_tag w1 git_sha_short w2 full_sha w3 :
  try_except_CalledProcessError
    (sh "git tag | grep -E '^[0-9]' | sort -V | tail -1" None true true)
    (ret EmptyString) w = (Ret latest_tag, w1) ->
  sh "git rev-parse --short HEAD" None true true w1 = (Ret git_sha_short, w2) ->
  sh "git rev-parse HEAD" None true true w2 = (Ret full_sha, w3) ->
  let release_tag := default EmptyString (environ !! "RELEASE_TAG") in
  let version :=
    if decide (release_tag <> EmptyString) then release_tag
    else if decide (latest_tag <> EmptyString) then latest_tag
    else git_sha_short in
  let message :=
    if decide (version <> git_sha_short)
    then version +:+ " (" +:+ full_sha +:+ ")"
    else version in
  fst (git_info w) = Ret (version, message).
Proof.
  intros Htag Hshort Hfull release_tag version message.
  unfold get_git_info.
  unfold bind at 1. rewrite Htag.
  unfold bind at 1. rewrite Hshort.
  unfold bind at 1. rewrite Hfull.
  unfold bind, print, act, ret. cbn [fst].
  fold release_tag.
  rewrite !str_or_spec. fold version.
  f_equal. f_equal. subst message.
  destruct (decide (version <> git_sha_short)) as [H|H].
  - apply String.eqb_neq in H. rewrite H. reflexivity.
  - assert (version = git_sha_short) as E by (destruct (decide (version = git_sha_short)); [assumption|contradiction]).
    apply String.eqb_eq in E. rewrite E. reflexivity.
Qed.

(** [install_doxygen_windows] is its first part and then the search. *)
Lemma install_windows_unfold w :
  install_windows w =
  match fetch w with
  | (Ret _, w2) =>
      match glob w2 (windows_extract_dir gettempdir) "**/doxygen.exe" with
      | [] => (Raise (FileNotFoundError "Doxygen executable not found after extraction."), w2)
      | bin_path :: _ =>
          (Ret bin_path,
           {| fs := fs w2;
              console := console w2 ++ [Printed ("Doxygen installed at: " +:+ bin_path)] |})
      end
  | (Raise e, w2) => (Raise e, w2)
  end.
Proof.
  unfold install_doxygen_windows, windows_fetch, windows_extract_dir.
  unfold bind, print, act, external, ret, raise. cbn [fst snd fs console].
  destruct (download_ _ _ _) as [[e1|] files1]; [reflexivity|].
  destruct (unpack_archive _ _ _) as [[e2|] files2]; [reflexivity|].
  destruct (glob _ _ _); reflexivity.
Qed.

(** C8.  On the zip-archive platform, once the archive is downloaded and
    extracted, [install_doxygen_windows] raises [FileNotFoundError] when
    the search for [doxygen.exe] in the extracted tree finds nothing, and
    returns the first path found otherwise.  On the tarball platform
    [install_doxygen_unix] never raises [FileNotFoundError]: it asks no
    question about the files, and when it returns, it returns the path
    [doxygen-1.11.0/bin/doxygen] it has put together; it returns whenever
    its two commands exit with zero. *)
Theorem toolchain_acquisition w :
  (forall w2,
     fetch w = (Ret tt, w2) ->
     (glob w2 (windows_extract_dir gettempdir) "**/doxygen.exe" = [] ->
      fst (install_windows w)
      = Raise (FileNotFoundError "Doxygen executable not found after extraction."))
     /\ (forall bin_path others,
           glob w2 (windows_extract_dir gettempdir) "**/doxygen.exe" = bin_path :: others ->
           fst (install_windows w) = Ret bin_path))
  /\ (forall msg, fst (install_unix w) <> Raise (FileNotFoundError msg))
  /\ (forall p, fst (install_unix w) = Ret p -> p = "doxygen-1.11.0/bin/doxygen")
  /\ (forall out1 w1 out2 w2,
        sh "wget -q https://www.doxygen.nl/files/doxygen-1.11.0.linux.bin.tar.gz"
           None true true (snd (print "Installing Doxygen..." w)) = (Ret out1, w1) ->
        sh "tar -xf doxygen-1.11.0.linux.bin.tar.gz" None true true w1 = (Ret out2, w2) ->
        install_unix w = (Ret "doxygen-1.11.0/bin/doxygen", w2)).
Proof.
  split; [|split; [|split]].
  - intros w2 Hfetch. rewrite install_windows_unfold, Hfetch. split.
    + intros ->. reflexivity.
    + intros bin_path others ->. reflexivity.
  - intros msg. unfold install_doxygen_unix.
    unfold bind at 1. unfold print at 1, act at 1.
    unfold bind at 1.
    match goal with |- context [sh ?c None true true ?w0] =>
      pose proof (run_outcome c None true true w0) as H1;
      destruct (sh c None true true w0) as [[o1|e1] w1]
    end; cbn [fst] in *.
    + unfold bind at 1.
      match goal with |- context [sh ?c None true true w1] =>
        pose proof (run_outcome c None true true w1) as H2;
        destruct (sh c None true true w1) as [[o2|e2] w2']
      end; cbn [fst] in *; [discriminate|].
      destruct e2; try contradiction. discriminate.
    + destruct e1; try contradiction. discriminate.
  - intros p. unfold install_doxygen_unix.
    unfold bind at 1. unfold print at 1, act at 1.
    unfold bind at 1.
    destruct (sh _ None true true _) as [[o1|e1] w1]; cbn [fst]; [|discriminate].
    unfold bind at 1.
    destruct (sh _ None true true w1) as [[o2|e2] w2']; cbn [fst]; [|discriminate].
    intros H. injection H as <-. reflexivity.
  - intros out1 w1 out2 w2 H1 H2. unfold install_doxygen_unix.
    unfold bind at 1. unfold print at 1, act at 1.
    unfold print, act in H1. cbn [snd] in H1.
    unfold bind at 1.
    change ("wget -q " +:+ "https://www.doxygen.nl/files/"
            +:+ "doxygen-" +:+ DOXYGEN_VERSION +:+ ".linux.bin.tar.gz")
      with "wget -q https://www.doxygen.nl/files/doxygen-1.11.0.linux.bin.tar.gz".
    rewrite H1. unfold bind at 1.
    change ("tar -xf " +:+ "doxygen-" +:+ DOXYGEN_VERSION +:+ ".linux.bin.tar.gz")
      with "tar -xf doxygen-1.11.0.linux.bin.tar.gz".
    rewrite H2. reflexivity.
Qed.

End Publisher.

(** ** The patch of the configuration file *)

(** The patch with a version that holds no backslash and no line feed:
    done twice, it gives what it gives done once. *)
Lemma updated_idempotent v doxyfile :
  has_char backslash v = false -> has_char nl v = false ->
  exists once, updated v doxyfile = Some once /\ updated v once = Some once.
Proof.
  intros Hbs Hnl. unfold updated, sub_PROJECT_NUMBER.
  rewrite (parse_template_literal ("PROJECT_NUMBER = " +:+ v))
    by (rewrite has_char_append, Hbs; reflexivity).
  eexists; split; [reflexivity|]. f_equal.
  apply (sub_from_idempotent _ ("PROJECT_NUMBER = " +:+ v)) with (k := String.length doxyfile).
  - intros whole. apply expand_literal.
  - eexists. reflexivity.
  - intros t Ht. apply version_line_match; assumption.
  - apply Nat.le_refl.
Qed.

(** The patch gives a text whenever the version holds no backslash. *)
Lemma updated_returns v doxyfile :
  has_char backslash v = false -> exists out, updated v doxyfile = Some out.
Proof.
  intros Hbs. unfold updated, sub_PROJECT_NUMBER.
  rewrite (parse_template_literal ("PROJECT_NUMBER = " +:+ v))
    by (rewrite has_char_append, Hbs; reflexivity).
  eexists. reflexivity.
Qed.

(** When no line is the bare key, the patch works line by line. *)
Lemma updated_by_line v doxyfile parts :
  existsb dangling_key (lines doxyfile) = false ->
  parse_template ("PROJECT_NUMBER = " +:+ v) = Some parts ->
  updated v doxyfile = Some (join LF (map (patch_line parts) (lines doxyfile))).
Proof.
  intros Hd Hparse. unfold updated, sub_PROJECT_NUMBER. rewrite Hparse. f_equal.
  rewrite <- (join_lines doxyfile) at 1.
  apply sub_bol_lines; [apply lines_nonempty|apply lines_no_nl|exact Hd].
Qed.

(** C7, as the code has it.  For every text of the configuration file and
    every version string:
    - when the version holds neither a backslash nor a line feed, the
      patch applied twice gives the same text as the patch applied once;
    - when no line of the text starts with the key, the text that the
      patch gives is the text itself (the patch gives a text whenever the
      version holds no backslash), and the text that is read from the
      Doxyfile behind [update_doxyfile] is the text that was read from it
      before (the characters stored for its line ends may have changed:
      they are written as the platform writes them);
    - when no line of the text is the key followed by nothing but white
      space, the patch works line by line: a line that the pattern does
      not match is kept as it is, a line that it matches is replaced by
      the expanded template. *)
Theorem updated_patch (project_number doxyfile : string) :
  (has_char backslash project_number = false ->
   has_char nl project_number = false ->
   exists once,
     updated project_number doxyfile = Some once
     /\ updated project_number once = Some once)
  /\ (forallb (fun l => negb (startswith PROJECT_NUMBER_key l)) (lines doxyfile) = true ->
      (has_char backslash project_number = false ->
       updated project_number doxyfile = Some doxyfile)
      /\ (forall out, updated project_number doxyfile = Some out -> out = doxyfile)
      /\ (forall os_name w stored,
            fs w !! DOXYFILE_PATH = Some stored ->
            universal_newlines stored = doxyfile ->
            fst (read_text DOXYFILE_PATH (snd (update_doxyfile os_name project_number w)))
            = Ret doxyfile))
  /\ (existsb dangling_key (lines doxyfile) = false ->
      forall parts,
        parse_template ("PROJECT_NUMBER = " +:+ project_number) = Some parts ->
        updated project_number doxyfile
        = Some (join LF (map (patch_line parts) (lines doxyfile)))
        /\ (forall l, PROJECT_NUMBER_match l = None -> patch_line parts l = l)
        /\ (forall l n, PROJECT_NUMBER_match l = Some n ->
                        patch_line parts l = expand_template parts l)).
Proof.
  split; [apply updated_idempotent|]. split.
  - intros Hkey.
    assert (Hsame : forall out, updated project_number doxyfile = Some out -> out = doxyfile).
    { intros out Hout.
      destruct (parse_template ("PROJECT_NUMBER = " +:+ project_number)) as [parts|] eqn:Hp.
      - destruct (patch_lines_other parts _ Hkey) as [Hmap Hd].
        rewrite (updated_by_line _ _ parts Hd Hp), Hmap, join_lines in Hout.
        congruence.
      - unfold updated, sub_PROJECT_NUMBER in Hout. rewrite Hp in Hout. discriminate. }
    split; [|split; [exact Hsame|]].
    { intros Hbs.
      destruct (updated_returns project_number doxyfile Hbs) as [out Hout].
      rewrite Hout. f_equal. apply Hsame, Hout. }
    intros os_name w stored Hfile Hread.
    assert (Hcr : has_char CR doxyfile = false)
      by (rewrite <- Hread; apply universal_no_cr).
    unfold update_doxyfile, bind, print, act, read_text, write_text, raise.
    cbn [fs console fst snd]. rewrite Hfile, Hread.
    destruct (updated project_number doxyfile) as [out|] eqn:Hout; cbn [fs snd].
    + rewrite (Hsame out eq_refl), lookup_insert_eq.
      rewrite (write_then_read os_name doxyfile Hcr). reflexivity.
    + rewrite Hfile, Hread. reflexivity.
  - intros Hd parts Hp. split; [apply updated_by_line; assumption|].
    split.
    + intros l Hl. unfold patch_line. rewrite Hl. reflexivity.
    + intros l n Hl. unfold patch_line. rewrite Hl. reflexivity.
Qed.

(** ** The claims on concrete runs *)

Import Scenario.

Lemma updated_patch_witness :
  (exists once,
     updated "3.9.16" doxyfile_text = Some once /\ updated "3.9.16" once = Some once)
  /\ updated "3.9.16" "OUTPUT_DIRECTORY = ." = Some "OUTPUT_DIRECTORY = ."
  /\ fst (read_text DOXYFILE_PATH
            (snd (update_doxyfile "posix" "3.9.16"
                    {| fs := {[ DOXYFILE_PATH := "OUTPUT_DIRECTORY = ." +:+ String CR LF ]};
                       console := [] |})))
     = Ret ("OUTPUT_DIRECTORY = ." +:+ LF)
  /\ updated "3.9.16" doxyfile_text
     = Some (join LF (map (patch_line (literal_parts "PROJECT_NUMBER = 3.9.16"))
                          (lines doxyfile_text))).
Proof.
  split; [|split; [|split]].
  - apply (proj1 (updated_patch "3.9.16" doxyfile_text)); reflexivity.
  - apply (proj1 (proj2 (updated_patch "3.9.16" "OUTPUT_DIRECTORY = .")) eq_refl).
    reflexivity.
  - apply (proj2 (proj2 (proj1 (proj2 (updated_patch "3.9.16"
                                         ("OUTPUT_DIRECTORY = ." +:+ LF)))
                           eq_refl))
             "posix" _ ("OUTPUT_DIRECTORY = ." +:+ String CR LF));
      vm_compute; reflexivity.
  - apply (proj2 (proj2 (updated_patch "3.9.16" doxyfile_text)) eq_refl
             (literal_parts "PROJECT_NUMBER = 3.9.16") eq_refl).
Defined.

(** C7 as the specification words it fails.  A version that holds a line
    feed can bring in a second version line, and the second patch then
    doubles the lines; and white space behind the key may run over the end
    of the line, so that a line which does not begin with the key is taken
    into the match and is gone. *)
Lemma updated_patch_not_idempotent :
  let v := "1" +:+ LF +:+ "PROJECT_NUMBER = 2" in
  let once := "PROJECT_NUMBER = 1" +:+ LF +:+ "PROJECT_NUMBER = 2" in
  let twice := once +:+ LF +:+ once in
  updated v "PROJECT_NUMBER = 0" = Some once
  /\ updated v once = Some twice
  /\ once <> twice
  /\ updated "1" ("PROJECT_NUMBER" +:+ LF +:+ "= 0" +:+ LF +:+ "NAME = x")
     = Some ("PROJECT_NUMBER = 1" +:+ LF +:+ "NAME = x").
Proof.
  cbv zeta. repeat split; try (vm_compute; reflexivity).
  vm_compute. discriminate.
Qed.

(** No release tag is set and the latest tag is 3.9.16. *)
Lemma get_git_info_version_witness :
  fst (get_git_info local_environ git_answers empty_world)
  = Ret ("3.9.16", "3.9.16 (a1b2c3d4e5f60718293a4b5c6d7e8f9012345678)").
Proof.
  pose (w1 := snd (try_except_CalledProcessError
                     (run git_answers "git tag | grep -E '^[0-9]' | sort -V | tail -1"
                          None true true)
                     (ret EmptyString) empty_world)).
  pose (w2 := snd (run git_answers "git rev-parse --short HEAD" None true true w1)).
  pose (w3 := snd (run git_answers "git rev-parse HEAD" None true true w2)).
  apply (get_git_info_version local_environ git_answers empty_world
           "3.9.16" w1 "a1b2c3d" w2 "a1b2c3d4e5f60718293a4b5c6d7e8f9012345678" w3);
    vm_compute; reflexivity.
Defined.

(** The archive holds no [doxygen.exe]; no file named
    [doxygen-1.11.0/bin/doxygen] exists and the path is returned all the
    same. *)
Lemma toolchain_acquisition_witness :
  fst (install_doxygen_windows "C:/Temp" download_ok unpack_nothing glob_nothing empty_world)
  = Raise (FileNotFoundError "Doxygen executable not found after extraction.")
  /\ install_doxygen_unix git_answers empty_world
     = (Ret "doxygen-1.11.0/bin/doxygen",
        snd (install_doxygen_unix git_answers empty_world))
  /\ fs (snd (install_doxygen_unix git_answers empty_world))
       !! "doxygen-1.11.0/bin/doxygen" = None.
Proof.
  destruct (toolchain_acquisition "C:/Temp" git_answers download_ok unpack_nothing
              glob_nothing empty_world) as (Hwin & _ & _ & Hunix).
  split; [|split].
  - apply (proj1 (Hwin (snd (windows_fetch "C:/Temp" download_ok unpack_nothing
                               empty_world))
                       eq_refl)).
    reflexivity.
  - apply (Hunix EmptyString
             (snd (run git_answers
                     "wget -q https://www.doxygen.nl/files/doxygen-1.11.0.linux.bin.tar.gz"
                     None true true (snd (print "Installing Doxygen..." empty_world))))
             EmptyString); vm_compute; reflexivity.
  - vm_compute. reflexivity.
Defined.

End DocsProofs.

(* ===================================================================== *)
(** * More on the string operations *)
(* ===================================================================== *)

Module PyMore.
Import Py PyFacts Observe.
Local Close Scope string_scope.

(** ** [str.replace] and a separator *)

Lemma startswith_sep c (k : string) : forall l t,
  has_char c k = false -> startswith k (l +:+ String c t) = startswith k l.
Proof.
  induction k as [|a k IH]; intros l t Hk; [reflexivity|].
  cbn [has_char] in Hk. apply orb_false_iff in Hk as [Ha Hk].
  destruct l as [|x l].
  - rewrite append_nil_l. cbn [startswith]. rewrite Ascii.eqb_sym, Ha. reflexivity.
  - rewrite append_cons. cbn [startswith].
    destruct (Ascii.eqb a x); [apply IH, Hk|reflexivity].
Qed.

Lemma drop_append_le n : forall a t : string,
  (n <= String.length a)%nat -> drop n (a +:+ t) = drop n a +:+ t.
Proof.
  induction n as [|n IH]; intros a t H; [reflexivity|].
  destruct a as [|x a]; cbn [String.length] in H; [lia|].
  rewrite append_cons. cbn [drop]. apply IH. lia.
Qed.

(** A character that is not in [old] cuts the text in two parts that are
    scanned each on its own. *)
Lemma replace_sep old new c (a b : string) :
  is_empty old = false -> has_char c old = false ->
  replace old new (a +:+ String c b)
  = replace old new a +:+ String c (replace old new b).
Proof.
  intros Hne Hc.
  assert (H : forall k a, (String.length a <= k)%nat ->
            replace old new (a +:+ String c b)
            = replace old new a +:+ String c (replace old new b)).
  { clear a. induction k as [|k IH]; intros a Hlen.
    - destruct a as [|x a]; [|cbn [String.length] in Hlen; lia].
      rewrite append_nil_l, (replace_nil old new Hne), append_nil_l.
      rewrite (replace_cons old new Hne).
      rewrite <- (append_nil_l (String c b)), (startswith_sep c old EmptyString b Hc).
      destruct old; [discriminate|reflexivity].
    - destruct a as [|x a]; [apply (IH EmptyString); cbn; lia|].
      cbn [String.length] in Hlen.
      rewrite append_cons, !(replace_cons old new Hne), <- append_cons.
      rewrite (startswith_sep c old _ b Hc).
      destruct (startswith old (String x a)) eqn:Hs.
      + pose proof (startswith_length _ _ Hs) as Hl.
        rewrite (drop_append_le _ _ _ Hl), IH, append_assoc; [reflexivity|].
        rewrite length_drop. cbn [String.length] in Hl |- *.
        destruct old; [discriminate|cbn [String.length]; lia].
      + rewrite append_cons, (IH a) by lia. reflexivity. }
  apply (H (String.length a)). apply Nat.le_refl.
Qed.

(** A function that goes through line feeds goes through the lines. *)
Lemma join_map_lines (f : string -> string) :
  (forall a b, f (a +:+ String nl b) = f a +:+ String nl (f b)) ->
  forall ls, ls <> [] -> f (join LF ls) = join LF (map f ls).
Proof.
  intros Hf. induction ls as [|l ls IH]; intros Hne; [contradiction|].
  destruct ls as [|q r]; [reflexivity|].
  cbn [map]. rewrite !join_cons2.
  change (LF +:+ join LF (q :: r)) with (String nl (join LF (q :: r))).
  rewrite Hf, IH by discriminate. reflexivity.
Qed.

(** ** Lines of a text put together *)




(** ** [str.strip] *)

Lemma rstrip_cons_keep c (s : string) :
  isspace c = false -> rstrip (String c s) = String c (rstrip s).
Proof. intros H. cbn [rstrip]. rewrite H, andb_false_r. reflexivity. Qed.

Lemma rstrip_idempotent (s : string) : rstrip (rstrip s) = rstrip s.
Proof.
  induction s as [|c s IH]; [reflexivity|].
  cbn [rstrip]. destruct (is_empty (rstrip s) && isspace c) eqn:E; [reflexivity|].
  cbn [rstrip]. rewrite IH, E. reflexivity.
Qed.

Lemma lstrip_first (s : string) c :
  first_char (lstrip s) = Some c -> isspace c = false.
Proof.
  induction s as [|x s IH]; [discriminate|].
  cbn [lstrip]. destruct (isspace x) eqn:E; [exact IH|].
  cbn [first_char]. intros H. injection H as <-. exact E.
Qed.

Lemma lstrip_fixed (t : string) :
  (forall c, first_char t = Some c -> isspace c = false) -> lstrip t = t.
Proof.
  destruct t as [|x t]; [reflexivity|].
  intros H. cbn [lstrip]. rewrite (H x eq_refl). reflexivity.
Qed.

Lemma rstrip_last (s : string) c :
  last_char (rstrip s) = Some c -> isspace c = false.
Proof.
  induction s as [|x s IH]; [discriminate|].
  cbn [rstrip]. destruct (is_empty (rstrip s) && isspace x) eqn:E; [discriminate|].
  destruct (rstrip s) as [|y r] eqn:Hr.
  - cbn [is_empty andb] in E. cbn [last_char]. intros H. injection H as <-. exact E.
  - cbn [last_char]. exact IH.
Qed.

Lemma rstrip_first (t : string) c :
  (forall d, first_char t = Some d -> isspace d = false) ->
  first_char (rstrip t) = Some c -> isspace c = false.
Proof.
  destruct t as [|x t]; [discriminate|].
  intros H. rewrite (rstrip_cons_keep x t (H x eq_refl)).
  cbn [first_char]. intros E. injection E as <-. apply (H x eq_refl).
Qed.

(** What [strip] gives neither begins nor ends with white space, and
    stripping it again changes nothing. *)
Lemma strip_stripped (s : string) :
  strip (strip s) = strip s
  /\ (forall c, first_char (strip s) = Some c -> isspace c = false)
  /\ (forall c, last_char (strip s) = Some c -> isspace c = false).
Proof.
  assert (Hfirst : forall c, first_char (strip s) = Some c -> isspace c = false).
  { intros c. unfold strip. apply rstrip_first. intros d. apply lstrip_first. }
  split; [|split; [exact Hfirst|]].
  - unfold strip at 1. rewrite (lstrip_fixed (strip s) Hfirst).
    unfold strip. apply rstrip_idempotent.
  - intros c. unfold strip. apply rstrip_last.
Qed.

(** ** Templates that [re] rejects *)

Lemma parse_template_from_app (a b : string) :
  has_char backslash a = false ->
  parse_template_from O (a +:+ b)
  = option_map (List.app (literal_parts a)) (parse_template_from O b).
Proof.
  intros Ha. induction a as [|c a IH].
  - rewrite append_nil_l. destruct (parse_template_from O b); reflexivity.
  - cbn [has_char] in Ha. apply orb_false_iff in Ha as [Hc Ha].
    rewrite append_cons. cbn [parse_template_from token_at literal_parts].
    rewrite Ascii.eqb_sym, Hc. cbn [Nat.sub]. rewrite (IH Ha).
    destruct (parse_template_from O b); reflexivity.
Qed.

(** A template that ends in a single backslash is rejected. *)
Lemma parse_template_trailing_backslash (a : string) :
  has_char backslash a = false ->
  parse_template (a +:+ String backslash EmptyString) = None.
Proof.
  intros Ha. unfold parse_template. rewrite (parse_template_from_app _ _ Ha).
  reflexivity.
Qed.

End PyMore.

(* ===================================================================== *)
(** * More on [ci/ci/compile_for_board.py] *)
(* ===================================================================== *)

Module CompileForBoardMore.
Import Py Effects PyFacts PyMore CompileForBoard Observe CompileForBoardProofs.
Local Close Scope string_scope.

Section Orchestrator.

Variable environ : gmap string string.
Variable path_exists : list Event -> string -> bool.
Variable subprocess_run : list Event -> list string -> Z * string.

Local Abbreviation compile_one :=
  (compile_for_board_and_example path_exists subprocess_run).
Local Abbreviation loop := (compile_examples_loop environ path_exists subprocess_run).
Local Abbreviation batch := (compile_examples environ path_exists subprocess_run).
Local Abbreviation use_lock := (USE_FIRST_BUILD_LOCK environ).
Local Abbreviation rm_fails := (rm_raises path_exists subprocess_run).
Local Abbreviation entry := (compile_entry environ).
Local Abbreviation exit_ := (compile_exit environ).

Lemma commands_app a b : commands (a ++ b) = commands a ++ commands b.
Proof.
  induction a as [|e a IH]; [reflexivity|].
  destruct e; cbn [List.app commands]; rewrite IH; reflexivity.
Qed.

(** X1.  One call of [compile_for_board_and_example] leaves the global
    error flag as it is and does not touch the gate; and a call that
    returns has started the build tool exactly once, on the build command
    of its example. *)
Theorem compile_one_footprint project example build_dir st :
  let r := compile_one project example build_dir st in
  ERROR_HAPPENED (snd r) = ERROR_HAPPENED st
  /\ acquisitions (emitted st (snd r)) = O
  /\ (forall h, held_after h (emitted st (snd r)) = h)
  /\ (forall out,
        fst r = Ret out ->
        map snd (compiles false (emitted st (snd r)))
        = [build_cmd project example build_dir]).
Proof.
  cbv zeta.
  destruct (compile_one_log path_exists subprocess_run project example build_dir st)
    as (new & Hnew & Hflag & Hacq & Hheld & Hcomp).
  rewrite (emitted_app _ _ _ Hnew), Hcomp.
  repeat split; auto.
  intros out E. rewrite E. reflexivity.
Qed.

(** X2.  When the old source directory is there and its removal exits
    with a code that is not zero, the call raises [CalledProcessError]
    with that code and the [rm] command, and the build tool is not
    started. *)
Theorem removal_failure_raises project example build_dir st :
  rm_fails project build_dir st = true ->
  let rc := fst (subprocess_run (log_at_rm project build_dir st)
                                (rm_cmd project build_dir)) in
  rc <> 0
  /\ fst (compile_one project example build_dir st)
     = Raise (CalledProcessError rc (Argv (rm_cmd project build_dir)))
  /\ commands (emitted st (snd (compile_one project example build_dir st)))
     = [rm_cmd project build_dir].
Proof.
  intros Hrm rc.
  pose proof (compile_one_cases path_exists subprocess_run
                project example build_dir st) as H.
  cbv zeta in H. rewrite Hrm in H. rewrite H. cbn [fst snd].
  unfold rm_raises in Hrm. apply andb_true_iff in Hrm as [_ Hrc].
  apply negb_true_iff, Z.eqb_neq in Hrc.
  repeat split; [exact Hrc|].
  erewrite emitted_app; [|unfold log_at_rm; cbn [log]; rewrite <- app_assoc; reflexivity].
  reflexivity.
Qed.


(** ** What a batch can come to *)

Lemma compile_one_raise project example build_dir st x :
  fst (compile_one project example build_dir st) = Raise x ->
  exists rc, rc <> 0 /\ x = CalledProcessError rc (Argv (rm_cmd project build_dir)).
Proof.
  pose proof (compile_one_cases path_exists subprocess_run
                project example build_dir st) as H.
  cbv zeta in H.
  destruct (rm_fails project build_dir st) eqn:Hrm; rewrite H; cbn [fst];
    [|discriminate].
  intros E. injection E as <-. eexists. split; [|reflexivity].
  unfold rm_raises in Hrm. apply andb_true_iff in Hrm as [_ Hrc].
  apply negb_true_iff, Z.eqb_neq in Hrc. exact Hrc.
Qed.

(** The iteration whose compile returns [False]: the build tool was
    started on the example, it exited with a code that is not zero, nothing
    was run behind it, and the text that comes back is its output,
    rewritten. *)
Lemma failed_iteration project build_dir is_first example st message st2 :
  compile_one project example build_dir (entry project is_first example st)
  = (Ret (false, message), st2) ->
  exists new tail,
    log (exit_ is_first st2)
    = log st ++ new ++ EvRun (build_cmd project example build_dir) :: tail
    /\ commands tail = []
    /\ fst (subprocess_run (log st ++ new) (build_cmd project example build_dir)) <> 0
    /\ message
       = normalize_paths
           (snd (subprocess_run (log st ++ new) (build_cmd project example build_dir))).
Proof.
  set (st_e := entry project is_first example st).
  pose proof (compile_one_cases path_exists subprocess_run
                project example build_dir st_e) as H.
  cbv zeta in H.
  destruct (rm_fails project build_dir st_e); rewrite H; [discriminate|].
  assert (Hpre : exists new, log_at_build path_exists project example build_dir st_e
                             = log st ++ new).
  { unfold log_at_build, log_at_rm, st_e, compile_entry. cbn [log].
    destruct (path_exists _ _); rewrite <- !app_assoc; eexists; reflexivity. }
  destruct Hpre as [new Hpre].
  unfold build_result. rewrite Hpre.
  intros E. injection E as Hrc Hmsg Hst2.
  assert (Hexit : log (exit_ is_first st2)
                  = log st2 ++ (if is_first && use_lock then [EvRelease] else [])).
  { unfold compile_exit. destruct (is_first && use_lock); cbn [log];
      [reflexivity|rewrite app_nil_r; reflexivity]. }
  exists new. eexists. split; [|split; [|split]].
  - rewrite Hexit, <- Hst2. cbn [log]. rewrite <- !app_assoc. cbn [List.app]. reflexivity.
  - cbn [commands]. destruct (is_first && use_lock); reflexivity.
  - apply Z.eqb_neq. exact Hrc.
  - symmetry. exact Hmsg.
Qed.

Lemma loop_outcome project build_dir examples : forall is_first st,
  let r := loop project build_dir is_first examples st in
  match fst r with
  | Ret (true, m) => m = EmptyString /\ ERROR_HAPPENED (snd r) = ERROR_HAPPENED st
  | Ret (false, m) =>
      ERROR_HAPPENED st = false /\ ERROR_HAPPENED (snd r) = true
      /\ exists e new tail,
           In e examples
           /\ log (snd r) = log st ++ new ++ EvRun (build_cmd project e build_dir) :: tail
           /\ commands tail = []
           /\ fst (subprocess_run (log st ++ new) (build_cmd project e build_dir)) <> 0
           /\ m = error_message project e
                    (normalize_paths
                       (snd (subprocess_run (log st ++ new)
                                            (build_cmd project e build_dir))))
  | Raise x =>
      ERROR_HAPPENED st = false /\ ERROR_HAPPENED (snd r) = false
      /\ exists rc, rc <> 0 /\ x = CalledProcessError rc (Argv (rm_cmd project build_dir))
  end.
Proof.
  induction examples as [|example rest IH]; intros is_first st; cbv zeta.
  - rewrite loop_nil. cbn [fst snd]. auto.
  - rewrite loop_cons. destruct (ERROR_HAPPENED st) eqn:Hflag.
    { cbn [fst snd]. auto. }
    destruct (iteration_log environ path_exists subprocess_run
                project build_dir is_first example st)
      as (new0 & Hnew0 & Fnew & _).
    cbv zeta in Hnew0, Fnew. rewrite Hflag in Fnew.
    pose proof (compile_one_raise project example build_dir
                  (entry project is_first example st)) as Hraise.
    pose proof (failed_iteration project build_dir is_first example st) as Hfail.
    destruct (compile_one project example build_dir (entry project is_first example st))
      as [[[[] message]|x] st2]; cbn [fst snd] in *.
    + specialize (IH false (exit_ is_first st2)). cbv zeta in IH.
      rewrite Fnew in IH.
      destruct (fst (loop project build_dir false rest (exit_ is_first st2)))
        as [[[] m]|x]; auto.
      destruct IH as (H1 & H2 & e & new & tail & Hin & Hlog & Htail & Hrc & Hm).
      repeat split; auto. exists e, (new0 ++ new), tail.
      rewrite Hnew0 in Hlog, Hrc, Hm. rewrite <- !app_assoc in Hlog.
      rewrite <- (app_assoc (log st)) in Hrc, Hm.
      split; [right; exact Hin|]. split; [|auto].
      rewrite Hlog, <- app_assoc. reflexivity.
    + destruct (Hfail message st2 eq_refl) as (new & tail & Hlog & Htail & Hrc & Hm).
      repeat split. exists example, new, tail. cbn [log].
      repeat split; auto.
      * left. reflexivity.
      * rewrite Hm. reflexivity.
    + repeat split; auto.
Qed.

(** X4.  A batch returns [(True, '')] or [(False, m)]; it never returns
    success with a message.  When it returns [(False, m)] it has set the
    global error flag, the last command it has run is the build of one of
    its examples, that build exited with a code that is not zero, and [m]
    is the failure message for that example with the output of that build,
    the path alias rewritten. *)
Theorem batch_returns project examples build_dir st :
  let r := batch project examples build_dir st in
  (forall m, fst r = Ret (true, m) -> m = EmptyString)
  /\ (forall m, fst r = Ret (false, m) ->
        ERROR_HAPPENED (snd r) = true
        /\ exists e new tail,
             In e examples
             /\ emitted st (snd r) = new ++ EvRun (build_cmd project e build_dir) :: tail
             /\ commands tail = []
             /\ fst (subprocess_run (log st ++ new) (build_cmd project e build_dir)) <> 0
             /\ m = error_message project e
                      (normalize_paths
                         (snd (subprocess_run (log st ++ new)
                                              (build_cmd project e build_dir))))).
Proof.
  cbv zeta. unfold compile_examples.
  pose proof (loop_outcome project build_dir examples true st) as H. cbv zeta in H.
  destruct (fst (loop project build_dir true examples st)) as [[[] m]|x].
  - destruct H as [-> Hflag]. split.
    + intros m E. injection E as <-. reflexivity.
    + intros m E. discriminate.
  - destruct H as (H1 & H2 & e & new & tail & Hin & Hlog & Htail & Hrc & Hm). split.
    + intros m' E. discriminate.
    + intros m' E. injection E as <-. split; [exact H2|].
      exists e, new, tail. rewrite (emitted_app _ _ _ Hlog). auto.
  - split; intros m E; discriminate.
Qed.

(** X5.  A batch that is stopped by the [CalledProcessError] of a failed
    removal of old sources has not set the global error flag, which was
    down when the batch began, and it has given the gate back. *)
Theorem batch_raises project examples build_dir st rc :
  fst (batch project examples build_dir st)
  = Raise (CalledProcessError rc (Argv (rm_cmd project build_dir))) ->
  ERROR_HAPPENED st = false
  /\ ERROR_HAPPENED (snd (batch project examples build_dir st)) = false
  /\ held_after false (emitted st (snd (batch project examples build_dir st))) = false.
Proof.
  unfold compile_examples. intros E.
  pose proof (loop_outcome project build_dir examples true st) as H. cbv zeta in H.
  rewrite E in H. destruct H as (H1 & H2 & He).
  destruct (loop_log environ path_exists subprocess_run project build_dir examples true st)
    as (new & n & Hnew & _ & _ & Gnew & _).
  rewrite (emitted_app _ _ _ Hnew). auto.
Qed.

(** A build tool that always exits with zero: every compile returns
    success. *)
Lemma compile_one_succeeds project example build_dir st :
  (forall h cmd, fst (subprocess_run h cmd) = 0) ->
  exists out, fst (compile_one project example build_dir st) = Ret (true, out).
Proof.
  intros Hok.
  pose proof (compile_one_cases path_exists subprocess_run
                project example build_dir st) as H.
  cbv zeta in H. unfold rm_raises, build_result in H.
  rewrite !Hok in H. cbn [Z.eqb negb andb] in H. rewrite andb_false_r in H.
  rewrite H. cbn [fst]. eauto.
Qed.

Lemma loop_all_succeed project build_dir examples :
  (forall h cmd, fst (subprocess_run h cmd) = 0) ->
  forall is_first st,
    ERROR_HAPPENED st = false ->
    let r := loop project build_dir is_first examples st in
    fst r = Ret (true, EmptyString)
    /\ ERROR_HAPPENED (snd r) = false
    /\ exists new,
         log (snd r) = log st ++ new
         /\ held_after false new = false
         /\ compiles false new =
              gate_plan (is_first && use_lock)
                        (map (fun e => build_cmd project e build_dir) examples).
Proof.
  intros Hok. induction examples as [|example rest IH]; intros is_first st Hflag; cbv zeta.
  - rewrite loop_nil. cbn [fst snd]. repeat split; auto.
    exists []. rewrite app_nil_r. auto.
  - rewrite loop_cons, Hflag.
    destruct (iteration_log environ path_exists subprocess_run
                project build_dir is_first example st)
      as (new & Hnew & Fnew & _ & Gnew & Cnew).
    cbv zeta in Hnew, Fnew, Cnew. rewrite Hflag in Fnew.
    destruct (compile_one_succeeds project example build_dir
                (entry project is_first example st) Hok) as [out Hout].
    destruct (compile_one project example build_dir (entry project is_first example st))
      as [[[[] message]|x] st2]; cbn [fst snd] in *; try discriminate.
    destruct (IH false (exit_ is_first st2) Fnew) as (H1 & H2 & more & Hmore & Gmore & Cmore).
    repeat split; auto.
    exists (new ++ more). rewrite Hmore, Hnew, <- app_assoc.
    rewrite held_after_app, compiles_app, Gnew, Gmore, Cnew, Cmore.
    cbn [andb map gate_plan List.app]. repeat split.
    f_equal. destruct (map _ rest); reflexivity.
Qed.

(** X6.  When every command exits with zero and the flag is down, the
    batch compiles every one of its examples, in order, the first one
    under the gate exactly when the gate is in use; it returns
    [(True, '')] and leaves the flag down. *)
Theorem batch_all_succeed project examples build_dir st :
  (forall h cmd, fst (subprocess_run h cmd) = 0) ->
  ERROR_HAPPENED st = false ->
  let r := batch project examples build_dir st in
  fst r = Ret (true, EmptyString)
  /\ ERROR_HAPPENED (snd r) = false
  /\ compiles false (emitted st (snd r)) =
       gate_plan use_lock (map (fun e => build_cmd project e build_dir) examples).
Proof.
  intros Hok Hflag. cbv zeta. unfold compile_examples.
  destruct (loop_all_succeed project build_dir examples Hok true st Hflag)
    as (H1 & H2 & new & Hnew & _ & Cnew).
  rewrite (emitted_app _ _ _ Hnew). auto.
Qed.

End Orchestrator.

(** X7.  The rewriting of the captured output works line by line: the
    rewritten text is the lines of the captured text, each one rewritten,
    with the line feeds where they were. *)
Theorem normalize_paths_by_line (stdout : string) :
  normalize_paths stdout = join LF (map normalize_paths (lines stdout))
  /\ (forall a b, normalize_paths (a +:+ LF +:+ b)
                  = normalize_paths a +:+ LF +:+ normalize_paths b).
Proof.
  assert (Hsep : forall a b, normalize_paths (a +:+ String nl b)
                             = normalize_paths a +:+ String nl (normalize_paths b)).
  { intros a b. unfold normalize_paths.
    rewrite (replace_sep "lib/src" "src" nl a b eq_refl eq_refl).
    apply (replace_sep "lib\src" "src" nl _ _ eq_refl eq_refl). }
  assert (Hjoin : normalize_paths stdout = join LF (map normalize_paths (lines stdout))).
  { rewrite <- (join_lines stdout) at 1.
    apply (join_map_lines normalize_paths Hsep), lines_nonempty. }
  split; [exact Hjoin|]. intros a b. apply Hsep.
Qed.

(** ** On concrete runs *)

Import Scenario MoreScenarios.

Lemma removal_failure_raises_witness :
  1 <> 0
  /\ fst (compile_for_board_and_example stale_srcdir rm_refused uno "Blink" None initial_state)
     = Raise (CalledProcessError 1 (Argv ["rm"; "-rf"; ".build/uno/src"]))
  /\ commands (emitted initial_state
                 (snd (compile_for_board_and_example stale_srcdir rm_refused
                         uno "Blink" None initial_state)))
     = [["rm"; "-rf"; ".build/uno/src"]].
Proof.
  apply (removal_failure_raises stale_srcdir rm_refused uno "Blink" None initial_state).
  reflexivity.
Defined.

(** The batch ["Fade"; "Blink"; "Cylon"]: [Fade] builds, [Blink] does
    not, [Cylon] is not tried. *)
Lemma batch_returns_witness :
  let r := compile_examples github_environ no_srcdir blink_fails
             uno ["Fade"; "Blink"; "Cylon"] None initial_state in
  ERROR_HAPPENED (snd r) = true
  /\ exists e new tail,
       In e ["Fade"; "Blink"; "Cylon"]
       /\ emitted initial_state (snd r) = new ++ EvRun (build_cmd uno e None) :: tail
       /\ commands tail = []
       /\ fst (blink_fails (log initial_state ++ new) (build_cmd uno e None)) <> 0
       /\ "Error building Blink for board uno. stdout:" +:+ LF
          +:+ "src/FastLED.h:12: error: expected ';'"
          = error_message uno e
              (normalize_paths
                 (snd (blink_fails (log initial_state ++ new) (build_cmd uno e None)))).
Proof.
  apply (proj2 (batch_returns github_environ no_srcdir blink_fails
                  uno ["Fade"; "Blink"; "Cylon"] None initial_state)).
  vm_compute. reflexivity.
Defined.

Lemma compile_one_footprint_witness :
  map snd (compiles false
             (emitted initial_state
                (snd (compile_for_board_and_example no_srcdir blink_fails
                        uno "Blink" None initial_state))))
  = [build_cmd uno "Blink" None].
Proof.
  apply (proj2 (proj2 (proj2 (compile_one_footprint no_srcdir blink_fails
                                uno "Blink" None initial_state)))
           (false, "src/FastLED.h:12: error: expected ';'")).
  vm_compute. reflexivity.
Defined.

Lemma batch_raises_witness :
  ERROR_HAPPENED initial_state = false
  /\ ERROR_HAPPENED (snd (compile_examples github_environ stale_srcdir rm_refused
                            uno ["Blink"; "Fade"] None initial_state)) = false
  /\ held_after false
       (emitted initial_state
          (snd (compile_examples github_environ stale_srcdir rm_refused
                  uno ["Blink"; "Fade"] None initial_state))) = false.
Proof.
  apply (batch_raises github_environ stale_srcdir rm_refused uno ["Blink"; "Fade"] None
           initial_state 1).
  vm_compute. reflexivity.
Defined.

(** The build directory is written as [pathlib] writes it: a slash at the
    end, a doubled slash and a leading [./] are gone. *)
Example build_dir_is_normalised :
  rm_cmd uno (Some "out/") = ["rm"; "-rf"; "out/uno/src"]
  /\ build_cmd uno "Blink" (Some "./out//ci/")
     = ["pio"; "ci"; "--board"; "uno"; "--lib=ci"; "--lib=src"; "--keep-build-dir";
        "--build-dir=out/ci/uno"; "examples/Blink/*ino"]
  /\ builddir_of "uno" (Some EmptyString) = ".build/uno"
  /\ builddir_of "uno" (Some "/tmp/build") = "/tmp/build/uno".
Proof. repeat split. Qed.

Lemma batch_all_succeed_witness :
  let r := compile_examples github_environ no_srcdir all_build
             uno ["Blink"; "Fade"; "Cylon"] None initial_state in
  fst r = Ret (true, EmptyString)
  /\ ERROR_HAPPENED (snd r) = false
  /\ compiles false (emitted initial_state (snd r))
     = gate_plan (USE_FIRST_BUILD_LOCK github_environ)
         (map (fun e => build_cmd uno e None) ["Blink"; "Fade"; "Cylon"]).
Proof.
  apply (batch_all_succeed github_environ no_srcdir all_build
           uno ["Blink"; "Fade"; "Cylon"] None initial_state).
  - intros h cmd. reflexivity.
  - reflexivity.
Defined.

End CompileForBoardMore.

(* ===================================================================== *)
(** * More on [ci/docs.py] *)
(* ===================================================================== *)

Module DocsMore.
Import Py Effects PyFacts Newlines PyMore Docs Observe DocsProofs.
Local Close Scope string_scope.
Local Open Scope py_scope.

Lemma said_app w w' new : console w' = console w ++ new -> said w w' = new.
Proof.
  unfold said; intros ->.
  induction (console w) as [|e l IH]; [reflexivity|exact IH].
Qed.

Lemma shell_lines_app a b : shell_lines (a ++ b) = shell_lines a ++ shell_lines b.
Proof.
  induction a as [|e a IH]; [reflexivity|].
  destruct e; cbn [List.app shell_lines]; rewrite IH; reflexivity.
Qed.

Section Publisher.

Variable environ : gmap string string.
Variable gettempdir : string.
Variable os_name : string.
Variable subprocess_run : World -> string -> option string -> Completed * gmap string string.
Variable download_ : World -> string -> string -> option Exn * gmap string string.
Variable unpack_archive : World -> string -> string -> option Exn * gmap string string.
Variable glob : World -> string -> string -> list string.

Local Abbreviation sh := (run subprocess_run).
Local Abbreviation git_info := (get_git_info environ subprocess_run).
Local Abbreviation install_windows :=
  (install_doxygen_windows gettempdir download_ unpack_archive glob).
Local Abbreviation install_unix := (install_doxygen_unix subprocess_run).
Local Abbreviation answer := (fun cmd cwd w => subprocess_run (run_start cmd w) cmd cwd).

(** ** [run], step by step *)

Lemma run_unfold cmd cwd shell check w :
  sh cmd cwd shell check w =
  let c := fst (answer cmd cwd w) in
  let w' := run_end c (snd (answer cmd cwd w)) cmd cwd w in
  if returncode c =? 0 then (Ret (strip (stdout c)), w')
  else if check then (Raise (CalledProcessError (returncode c) (Shell cmd)), w')
       else (Ret (strip (stdout c)), w').
Proof.
  unfold run, run_end, run_start, failure_warning, bind, print, warn, act, raise, ret.
  cbn [fst snd fs console].
  destruct (subprocess_run _ cmd cwd) as [c files]. cbn [fst snd].
  destruct (returncode c =? 0); cbn [negb fs console].
  - rewrite app_nil_r, <- app_assoc. reflexivity.
  - destruct check; cbn [fs console]; rewrite <- !app_assoc; reflexivity.
Qed.

(** X8.  Whatever [run] returns is stripped: it neither begins nor ends
    with white space, and stripping it again gives the same text. *)
Theorem run_result_stripped cmd cwd shell check w out :
  fst (sh cmd cwd shell check w) = Ret out ->
  strip out = out
  /\ (forall c, first_char out = Some c -> isspace c = false)
  /\ (forall c, last_char out = Some c -> isspace c = false).
Proof.
  rewrite run_unfold. cbv zeta.
  assert (H : out = strip (stdout (fst (answer cmd cwd w))) ->
              strip out = out
              /\ (forall c, first_char out = Some c -> isspace c = false)
              /\ (forall c, last_char out = Some c -> isspace c = false))
    by (intros ->; apply strip_stripped).
  destruct (returncode _ =? 0); [|destruct check]; cbn [fst]; intros E;
    try discriminate; injection E as E; apply H; congruence.
Qed.

(** ** [get_git_info] when git fails *)

(** The tag query returns the stripped answer, or the empty tag when the
    command failed; it does not raise. *)
Lemma tag_query_unfold w :
  try_except_CalledProcessError (sh TAG_QUERY None true true) (ret EmptyString) w
  = (Ret (if returncode (fst (answer TAG_QUERY None w)) =? 0
          then strip (stdout (fst (answer TAG_QUERY None w)))
          else EmptyString),
     run_end (fst (answer TAG_QUERY None w)) (snd (answer TAG_QUERY None w))
             TAG_QUERY None w).
Proof.
  unfold try_except_CalledProcessError. rewrite run_unfold. cbv zeta.
  destruct (returncode _ =? 0); reflexivity.
Qed.

Lemma get_git_info_unfold w :
  git_info w =
  let c1 := fst (answer TAG_QUERY None w) in
  let w1 := run_end c1 (snd (answer TAG_QUERY None w)) TAG_QUERY None w in
  let latest_tag := if returncode c1 =? 0 then strip (stdout c1) else EmptyString in
  match sh SHORT_SHA_QUERY None true true w1 with
  | (Raise e, w2) => (Raise e, w2)
  | (Ret git_sha_short, w2) =>
      match sh FULL_SHA_QUERY None true true w2 with
      | (Raise e, w3) => (Raise e, w3)
      | (Ret full_sha, w3) =>
          let release_tag := default EmptyString (environ !! "RELEASE_TAG") in
          let project_number := str_or release_tag (str_or latest_tag git_sha_short) in
          let commit_message :=
            if negb (String.eqb project_number git_sha_short)
            then project_number +:+ " (" +:+ full_sha +:+ ")"
            else project_number in
          (Ret (project_number, commit_message),
           {| fs := fs w3;
              console := console w3
                ++ [Printed ("Project number: " +:+ project_number);
                    Printed ("Commit message: " +:+ commit_message)] |})
      end
  end.
Proof.
  cbv zeta. unfold get_git_info.
  unfold bind at 1. fold TAG_QUERY. rewrite tag_query_unfold.
  unfold bind at 1. fold SHORT_SHA_QUERY.
  destruct (sh SHORT_SHA_QUERY None true true _) as [[short|e] w2]; [|reflexivity].
  unfold bind at 1. fold FULL_SHA_QUERY.
  destruct (sh FULL_SHA_QUERY None true true w2) as [[full|e] w3]; [|reflexivity].
  unfold bind, print, act, ret. cbn [fs console fst snd].
  rewrite <- app_assoc. reflexivity.
Qed.

(** X10.  A tag query that fails does not stop [get_git_info]: the latest
    tag counts as empty, so the version is the release tag when that is
    set and the short SHA otherwise. *)
Theorem tag_failure_tolerated w git_sha_short w2 full_sha w3 :
  let c1 := fst (answer TAG_QUERY None w) in
  let w1 := run_end c1 (snd (answer TAG_QUERY None w)) TAG_QUERY None w in
  returncode c1 <> 0 ->
  sh SHORT_SHA_QUERY None true true w1 = (Ret git_sha_short, w2) ->
  sh FULL_SHA_QUERY None true true w2 = (Ret full_sha, w3) ->
  let release_tag := default EmptyString (environ !! "RELEASE_TAG") in
  let version := if decide (release_tag <> EmptyString) then release_tag
                 else git_sha_short in
  fst (git_info w)
  = Ret (version,
         if decide (version <> git_sha_short)
         then version +:+ " (" +:+ full_sha +:+ ")" else version)
  /\ In (Warned (failure_warning c1)) (console w1).
Proof.
  intros c1 w1 Hrc Hshort Hfull release_tag version.
  rewrite get_git_info_unfold. cbv zeta. fold c1 w1.
  rewrite Hshort, Hfull. cbn [fst].
  apply Z.eqb_neq in Hrc. rewrite Hrc.
  fold release_tag. split.
  - rewrite (str_or_spec release_tag), (str_or_spec EmptyString).
    destruct (decide (EmptyString <> EmptyString)) as [H|_];
      [exfalso; apply H; reflexivity|].
    fold version. f_equal. f_equal.
    destruct (decide (version <> git_sha_short)) as [H|H].
    + apply String.eqb_neq in H. rewrite H. reflexivity.
    + destruct (String.eqb_spec version git_sha_short) as [E|E];
        [reflexivity|contradiction].
  - subst w1. unfold run_end. cbn [console]. rewrite Hrc.
    apply in_or_app. right. apply in_or_app. right. left. reflexivity.
Qed.

(** X11.  When the query for the short SHA fails, [get_git_info] raises
    the [CalledProcessError] of that query and asks nothing more: the full
    SHA is not queried and nothing is printed of a version. *)
Theorem short_sha_failure_stops w :
  let c1 := fst (answer TAG_QUERY None w) in
  let w1 := run_end c1 (snd (answer TAG_QUERY None w)) TAG_QUERY None w in
  let c2 := fst (answer SHORT_SHA_QUERY None w1) in
  returncode c2 <> 0 ->
  fst (git_info w) = Raise (CalledProcessError (returncode c2) (Shell SHORT_SHA_QUERY))
  /\ shell_lines (said w (snd (git_info w))) = [TAG_QUERY; SHORT_SHA_QUERY].
Proof.
  intros c1 w1 c2 Hrc.
  rewrite get_git_info_unfold. cbv zeta. fold c1 w1.
  rewrite run_unfold. cbv zeta. fold c2.
  apply Z.eqb_neq in Hrc. rewrite Hrc. cbn [fst snd].
  split; [reflexivity|].
  erewrite said_app;
    [|unfold run_end; subst w1; unfold run_end; cbn [console];
      rewrite <- !app_assoc; reflexivity].
  rewrite !shell_lines_app. cbn [shell_lines List.app].
  destruct (returncode c1 =? 0); rewrite Hrc; reflexivity.
Qed.

(** ** The installers when a step fails *)

(** X12.  When the download fails, [install_doxygen_windows] raises the
    error of the download, and the archive is not unpacked: all it has done
    is to print one line and to start the download.  When the unpacking
    fails, it raises the error of the unpacking, behind the line, the
    download and the unpacking. *)
Theorem windows_fetch_failure_stops w :
  let url := "https://www.doxygen.nl/files/doxygen-1.11.0.windows.x64.bin.zip" in
  let zip := path_join gettempdir "doxygen.zip" in
  let dir := windows_extract_dir gettempdir in
  let w0 := {| fs := fs w; console := console w ++ [Printed "Installing Doxygen..."] |} in
  (forall e files,
     download_ w0 url zip = (Some e, files) ->
     fst (install_windows w) = Raise e
     /\ said w (snd (install_windows w))
        = [Printed "Installing Doxygen..."; Downloaded url zip])
  /\ (forall files e files',
        download_ w0 url zip = (None, files) ->
        unpack_archive {| fs := files; console := console w0 ++ [Downloaded url zip] |}
                       zip dir = (Some e, files') ->
        fst (install_windows w) = Raise e
        /\ said w (snd (install_windows w))
           = [Printed "Installing Doxygen..."; Downloaded url zip; Unpacked zip dir]).
Proof.
  cbv zeta. unfold windows_extract_dir. split.
  - intros e files Hd.
    unfold install_doxygen_windows, bind, print, act, external.
    cbn [fs console fst snd].
    change ("https://www.doxygen.nl/files/doxygen-" +:+ DOXYGEN_VERSION
            +:+ ".windows.x64.bin.zip")
      with "https://www.doxygen.nl/files/doxygen-1.11.0.windows.x64.bin.zip".
    rewrite Hd. cbn [fst snd]. split; [reflexivity|].
    apply said_app. cbn [console]. rewrite <- app_assoc. reflexivity.
  - intros files e files' Hd Hu.
    unfold install_doxygen_windows, bind, print, act, external.
    cbn [fs console fst snd].
    change ("https://www.doxygen.nl/files/doxygen-" +:+ DOXYGEN_VERSION
            +:+ ".windows.x64.bin.zip")
      with "https://www.doxygen.nl/files/doxygen-1.11.0.windows.x64.bin.zip".
    rewrite Hd. cbn [fs console fst snd]. cbn [fs console] in Hu.
    rewrite Hu. cbn [fst snd].
    split; [reflexivity|].
    apply said_app. cbn [console]. rewrite <- !app_assoc. reflexivity.
Qed.

(** X13.  When [wget] fails, [install_doxygen_unix] raises its
    [CalledProcessError] and does not start [tar]. *)
Theorem unix_wget_failure_stops w :
  let wget := "wget -q https://www.doxygen.nl/files/doxygen-1.11.0.linux.bin.tar.gz" in
  let w0 := {| fs := fs w; console := console w ++ [Printed "Installing Doxygen..."] |} in
  returncode (fst (answer wget None w0)) <> 0 ->
  fst (install_unix w)
  = Raise (CalledProcessError (returncode (fst (answer wget None w0))) (Shell wget))
  /\ shell_lines (said w (snd (install_unix w))) = [wget].
Proof.
  cbv zeta. intros Hrc.
  set (wget := "wget -q https://www.doxygen.nl/files/doxygen-1.11.0.linux.bin.tar.gz") in *.
  set (w0 := {| fs := fs w; console := console w ++ [Printed "Installing Doxygen..."] |}) in *.
  assert (E : install_unix w
              = (Raise (CalledProcessError (returncode (fst (answer wget None w0)))
                                           (Shell wget)),
                 run_end (fst (answer wget None w0)) (snd (answer wget None w0))
                         wget None w0)).
  { unfold install_doxygen_unix.
    unfold bind at 1. unfold print at 1, act at 1.
    unfold bind at 1.
    change ("wget -q " +:+ "https://www.doxygen.nl/files/"
            +:+ "doxygen-" +:+ DOXYGEN_VERSION +:+ ".linux.bin.tar.gz") with wget.
    fold w0. rewrite run_unfold. cbv zeta.
    destruct (returncode _ =? 0) eqn:E0; [|reflexivity].
    exfalso. apply Z.eqb_eq in E0. apply Hrc. exact E0. }
  rewrite E. cbn [fst snd]. split; [reflexivity|].
  erewrite said_app;
    [|unfold run_end, w0; cbn [console]; rewrite <- !app_assoc; reflexivity].
  destruct (returncode _ =? 0) eqn:E0; [|reflexivity].
  exfalso. apply Z.eqb_eq in E0. apply Hrc. exact E0.
Qed.

(** ** [update_doxyfile] and the files *)

(** The text is read with every line end as a line feed, and written with
    the line ends of the platform. *)
Lemma update_doxyfile_unfold project_number w :
  update_doxyfile os_name project_number w =
  let w0 := {| fs := fs w;
               console := console w ++ [Printed "Updating Doxyfile with project number..."] |} in
  match fs w !! DOXYFILE_PATH with
  | None => (Raise (FileNotFoundError DOXYFILE_PATH), w0)
  | Some stored =>
      match updated project_number (universal_newlines stored) with
      | None => (Raise ReError, w0)
      | Some text =>
          (Ret tt, {| fs := <[DOXYFILE_PATH := write_newlines (linesep_of os_name) text]> (fs w);
                      console := console w0 |})
      end
  end.
Proof.
  unfold update_doxyfile, bind, print, act, read_text, write_text, raise.
  cbn [fs console fst snd].
  destruct (fs w !! DOXYFILE_PATH) as [stored|]; [|reflexivity].
  destruct (updated project_number (universal_newlines stored)); reflexivity.
Qed.

(** X14.  Without a Doxyfile, [update_doxyfile] raises
    [FileNotFoundError]; it does not make the file, and no file is
    changed. *)
Theorem update_without_doxyfile project_number w :
  fs w !! DOXYFILE_PATH = None ->
  fst (update_doxyfile os_name project_number w) = Raise (FileNotFoundError DOXYFILE_PATH)
  /\ fs (snd (update_doxyfile os_name project_number w)) = fs w.
Proof.
  intros H. rewrite update_doxyfile_unfold. cbv zeta. rewrite H. split; reflexivity.
Qed.

(** X15.  [update_doxyfile] writes no file but the Doxyfile: every other
    path holds behind the call what it held before, whether the call
    returns or raises; and what it prints is one line. *)
Theorem update_touches_doxyfile_only project_number w path :
  path <> DOXYFILE_PATH ->
  fs (snd (update_doxyfile os_name project_number w)) !! path = fs w !! path
  /\ said w (snd (update_doxyfile os_name project_number w))
     = [Printed "Updating Doxyfile with project number..."].
Proof.
  intros Hp. rewrite update_doxyfile_unfold. cbv zeta.
  destruct (fs w !! DOXYFILE_PATH) as [stored|]; cbn [snd fs].
  - destruct (updated project_number (universal_newlines stored)); cbn [snd fs].
    + split; [apply lookup_insert_ne; congruence|apply said_app; reflexivity].
    + split; [reflexivity|apply said_app; reflexivity].
  - split; [reflexivity|apply said_app; reflexivity].
Qed.

(** X16.  A version that ends in a backslash is no template for [re]:
    [update_doxyfile] raises, and the Doxyfile is left as it was. *)
Theorem update_rejects_trailing_backslash v doxyfile w :
  has_char backslash v = false ->
  fs w !! DOXYFILE_PATH = Some doxyfile ->
  updated (v +:+ String backslash EmptyString) doxyfile = None
  /\ fst (update_doxyfile os_name (v +:+ String backslash EmptyString) w) = Raise ReError
  /\ fs (snd (update_doxyfile os_name (v +:+ String backslash EmptyString) w)) = fs w.
Proof.
  intros Hv Hfile.
  assert (Hnone : forall text, updated (v +:+ String backslash EmptyString) text = None).
  { intros text. unfold updated, sub_PROJECT_NUMBER. rewrite <- append_assoc.
    rewrite parse_template_trailing_backslash; [reflexivity|].
    rewrite has_char_append, Hv. reflexivity. }
  split; [apply Hnone|].
  rewrite update_doxyfile_unfold. cbv zeta. rewrite Hfile, Hnone. split; reflexivity.
Qed.

End Publisher.


(** ** On concrete runs *)

Import Scenario MoreScenarios.

Lemma run_result_stripped_witness :
  strip "a1b2c3d" = "a1b2c3d"
  /\ (forall c, first_char "a1b2c3d" = Some c -> isspace c = false)
  /\ (forall c, last_char "a1b2c3d" = Some c -> isspace c = false).
Proof.
  apply (run_result_stripped git_answers SHORT_SHA_QUERY None true true empty_world).
  vm_compute. reflexivity.
Defined.

(** No tag and no release tag: the version is the short SHA and the
    message is the short SHA alone. *)
Lemma tag_failure_tolerated_witness :
  fst (get_git_info local_environ no_tags empty_world) = Ret ("a1b2c3d", "a1b2c3d")
  /\ In (Warned (failure_warning
                   {| returncode := 1; stdout := EmptyString; stderr := "fatal" |}))
        (console (run_end {| returncode := 1; stdout := EmptyString; stderr := "fatal" |}
                          (fs empty_world) TAG_QUERY None empty_world)).
Proof.
  pose (w1 := run_end {| returncode := 1; stdout := EmptyString; stderr := "fatal" |}
                      (fs empty_world) TAG_QUERY None empty_world).
  pose (w2 := snd (run no_tags SHORT_SHA_QUERY None true true w1)).
  pose (w3 := snd (run no_tags FULL_SHA_QUERY None true true w2)).
  apply (tag_failure_tolerated local_environ no_tags empty_world
           "a1b2c3d" w2 "a1b2c3d4e5f60718293a4b5c6d7e8f9012345678" w3).
  - vm_compute. discriminate.
  - vm_compute. reflexivity.
  - vm_compute. reflexivity.
Defined.

Lemma short_sha_failure_stops_witness :
  fst (get_git_info local_environ all_fail empty_world)
  = Raise (CalledProcessError 127 (Shell SHORT_SHA_QUERY))
  /\ shell_lines (said empty_world (snd (get_git_info local_environ all_fail empty_world)))
     = [TAG_QUERY; SHORT_SHA_QUERY].
Proof.
  apply (short_sha_failure_stops local_environ all_fail empty_world).
  vm_compute. discriminate.
Defined.

Lemma windows_fetch_failure_stops_witness :
  fst (install_doxygen_windows "C:/Temp" download_fails unpack_nothing glob_nothing
         empty_world)
  = Raise (ExternalError "connection refused")
  /\ said empty_world
       (snd (install_doxygen_windows "C:/Temp" download_fails unpack_nothing glob_nothing
               empty_world))
     = [Printed "Installing Doxygen...";
        Downloaded "https://www.doxygen.nl/files/doxygen-1.11.0.windows.x64.bin.zip"
                   (path_join "C:/Temp" "doxygen.zip")].
Proof.
  apply (proj1 (windows_fetch_failure_stops "C:/Temp" download_fails unpack_nothing
                  glob_nothing empty_world)
           (ExternalError "connection refused") (fs empty_world)).
  reflexivity.
Defined.

Lemma unix_wget_failure_stops_witness :
  fst (install_doxygen_unix all_fail empty_world)
  = Raise (CalledProcessError 127
             (Shell "wget -q https://www.doxygen.nl/files/doxygen-1.11.0.linux.bin.tar.gz"))
  /\ shell_lines (said empty_world (snd (install_doxygen_unix all_fail empty_world)))
     = ["wget -q https://www.doxygen.nl/files/doxygen-1.11.0.linux.bin.tar.gz"].
Proof.
  apply (unix_wget_failure_stops all_fail empty_world).
  vm_compute. discriminate.
Defined.

Lemma update_without_doxyfile_witness :
  fst (update_doxyfile "posix" "3.9.16" empty_world) = Raise (FileNotFoundError DOXYFILE_PATH)
  /\ fs (snd (update_doxyfile "posix" "3.9.16" empty_world)) = fs empty_world.
Proof.
  apply (update_without_doxyfile "posix" "3.9.16" empty_world). reflexivity.
Defined.

Lemma update_touches_doxyfile_only_witness :
  fs (snd (update_doxyfile "nt" "3.9.16" doxy_world)) !! "README.md"
  = fs doxy_world !! "README.md"
  /\ said doxy_world (snd (update_doxyfile "nt" "3.9.16" doxy_world))
     = [Printed "Updating Doxyfile with project number..."].
Proof.
  apply (update_touches_doxyfile_only "nt" "3.9.16" doxy_world "README.md").
  discriminate.
Defined.

Lemma update_rejects_trailing_backslash_witness :
  updated ("3.9" +:+ String backslash EmptyString) doxyfile_text = None
  /\ fst (update_doxyfile "posix" ("3.9" +:+ String backslash EmptyString) doxy_world)
     = Raise ReError
  /\ fs (snd (update_doxyfile "posix" ("3.9" +:+ String backslash EmptyString) doxy_world))
     = fs doxy_world.
Proof.
  apply (update_rejects_trailing_backslash "posix" "3.9" doxyfile_text doxy_world);
    vm_compute; reflexivity.
Defined.


(** The same Doxyfile: it is read as the text with line feeds, and behind
    the update its stored line ends are those of the platform. *)
Example crlf_doxyfile_is_rewritten :
  universal_newlines crlf_doxyfile = doxyfile_text
  /\ fs (snd (update_doxyfile "posix" "3.9.0" crlf_world)) !! DOXYFILE_PATH
     = Some doxyfile_text
  /\ fs (snd (update_doxyfile "nt" "3.9.0" crlf_world)) !! DOXYFILE_PATH
     = Some crlf_doxyfile
  /\ fs (snd (update_doxyfile "nt" "3.9.0" doxy_world)) !! DOXYFILE_PATH
     = Some crlf_doxyfile.
Proof. repeat split; vm_compute; reflexivity. Qed.

End DocsMore.

(* ===================================================================== *)
(** * Properties of [install_theme] and [main] *)
(* ===================================================================== *)

Module PipelineProofs.
Import Py Effects PyFacts Docs Pipeline Observe DocsProofs DocsMore.
Local Close Scope string_scope.
Local Open Scope py_scope.

(** ** Computations that fetch nothing *)

Section Quiet.

Context {S : Type} (con : S -> list Action).

Lemma quiet_ret {A} (a : A) : quiet con (ret a).
Proof. intros s. exists []. rewrite app_nil_r. auto. Qed.

Lemma quiet_raise {A} e : quiet con (@raise S A e).
Proof. intros s. exists []. rewrite app_nil_r. auto. Qed.

Lemma quiet_bind {A B} (m : M S A) (k : A -> M S B) :
  quiet con m -> (forall a, quiet con (k a)) -> quiet con (bind m k).
Proof.
  intros Hm Hk s. unfold bind.
  destruct (Hm s) as (n1 & H1 & F1).
  destruct (m s) as [[a|e] s1]; cbn [snd] in *.
  - destruct (Hk a s1) as (n2 & H2 & F2).
    exists (n1 ++ n2). rewrite H2, H1, <- app_assoc, forallb_app, F1, F2. auto.
  - exists n1. auto.
Qed.

End Quiet.

Lemma quiet_act a : not_fetch a = true -> quiet console (act a).
Proof.
  intros Ha w. exists [a]. cbn [act snd console forallb]. rewrite Ha. auto.
Qed.

Lemma quiet_lift {A} (m : M World A) :
  quiet console m -> quiet (fun s => console (world s)) (lift m).
Proof.
  intros Hm s. unfold lift. destruct (Hm (world s)) as (new & H & F).
  destruct (m (world s)) as [r w']. cbn [snd world] in *. eauto.
Qed.

Section Main.

Variable environ : gmap string string.
Variable gettempdir : string.
Variable os_name : string.
Variable subprocess_run : World -> string -> option string -> Completed * gmap string string.
Variable download_ : World -> string -> string -> option Exn * gmap string string.
Variable unpack_archive : World -> string -> string -> option Exn * gmap string string.
Variable glob : World -> string -> string -> list string.
Variable path_exists : World -> string -> bool.
Variable rmtree : World -> string -> option Exn * gmap string string.
Variable resolve : World -> string -> string.

Local Abbreviation sh := (run subprocess_run).
Local Abbreviation git_info := (get_git_info environ subprocess_run).
Local Abbreviation theme := (install_theme subprocess_run path_exists rmtree).
Local Abbreviation generate := (generate_docs subprocess_run).
Local Abbreviation the_main :=
  (main environ gettempdir os_name subprocess_run download_ unpack_archive glob
        path_exists rmtree resolve).
Local Abbreviation site_console := (fun s : Site => console (world s)).

Lemma quiet_run cmd cwd shell check : quiet console (sh cmd cwd shell check).
Proof.
  intros w. rewrite run_unfold. cbv zeta.
  eexists. split.
  - destruct (returncode _ =? 0); [|destruct check]; cbn [snd];
      unfold run_end; cbn [console]; reflexivity.
  - destruct (returncode _ =? 0); reflexivity.
Qed.

Lemma quiet_get_git_info : quiet console git_info.
Proof.
  unfold get_git_info. apply quiet_bind.
  - intros w. rewrite tag_query_unfold. cbn [snd]. unfold run_end. cbn [console].
    eexists. split; [reflexivity|]. destruct (returncode _ =? 0); reflexivity.
  - intros tag. apply quiet_bind; [apply quiet_run|]. intros short.
    apply quiet_bind; [apply quiet_run|]. intros full.
    apply quiet_bind; [apply quiet_act; reflexivity|]. intros _.
    apply quiet_bind; [apply quiet_act; reflexivity|]. intros _.
    apply quiet_ret.
Qed.

Lemma quiet_install_unix : quiet console (install_doxygen_unix subprocess_run).
Proof.
  unfold install_doxygen_unix.
  apply quiet_bind; [apply quiet_act; reflexivity|]. intros _.
  apply quiet_bind; [apply quiet_run|]. intros _.
  apply quiet_bind; [apply quiet_run|]. intros _.
  apply quiet_ret.
Qed.

Lemma quiet_update_doxyfile v : quiet console (update_doxyfile os_name v).
Proof.
  intros w. rewrite update_doxyfile_unfold. cbv zeta.
  exists [Printed "Updating Doxyfile with project number..."].
  destruct (fs w !! DOXYFILE_PATH) as [text|]; [destruct (updated v _)|]; auto.
Qed.

Lemma quiet_generate bin : quiet console (generate bin).
Proof.
  unfold generate_docs.
  apply quiet_bind; [apply quiet_act; reflexivity|]. intros _.
  apply quiet_bind; [apply quiet_run|]. intros _.
  apply quiet_ret.
Qed.

Lemma quiet_install_theme : quiet site_console theme.
Proof.
  unfold install_theme.
  apply quiet_bind; [apply quiet_lift, quiet_act; reflexivity|]. intros _.
  apply quiet_bind.
  { intros s. exists []. cbn. rewrite app_nil_r. auto. }
  intros present. apply quiet_bind.
  { destruct present; [|apply quiet_ret].
    intros s. unfold rmtree_. destruct (rmtree (world s) _) as [[e|] files];
      exists []; cbn [snd world console]; rewrite app_nil_r; auto. }
  intros _. apply quiet_bind; [apply quiet_lift, quiet_run|]. intros _.
  apply quiet_ret.
Qed.

(** ** [install_theme] *)

Lemma install_theme_unfold s :
  theme s =
  let w0 := {| fs := fs (world s);
               console := console (world s)
                          ++ [Printed "Installing Doxygen Awesome Theme..."] |} in
  let clone := fun w1 gone =>
    match sh CLONE_THEME (Some "docs") true true w1 with
    | (Ret _, w2) => (Ret THEME_DIR, {| world := w2; removed := gone |})
    | (Raise e, w2) => (Raise e, {| world := w2; removed := gone |})
    end in
  if path_exists w0 THEME_DIR then
    let gone := removed s ++ [(List.length (console w0), THEME_DIR)] in
    match rmtree w0 THEME_DIR with
    | (Some e, files) =>
        (Raise e, {| world := {| fs := files; console := console w0 |}; removed := gone |})
    | (None, files) => clone {| fs := files; console := console w0 |} gone
    end
  else clone w0 (removed s).
Proof.
  cbv zeta. unfold install_theme, bind, lift, exists_on_site, rmtree_, print, act, ret.
  cbn [fst snd world removed fs console].
  change ("git clone --depth 1 -b v" +:+ DOXYGEN_AWESOME_VERSION +:+ " " +:+ DOXYGEN_CSS_REPO)
    with CLONE_THEME.
  change "docs/doxygen-awesome-css" with THEME_DIR.
  destruct (path_exists _ THEME_DIR).
  - destruct (rmtree _ THEME_DIR) as [[e|] files]; cbn [fst snd world removed]; [reflexivity|].
    destruct (sh CLONE_THEME (Some "docs") true true _) as [[o|e] w2]; reflexivity.
  - cbn [fst snd world removed].
    destruct (sh CLONE_THEME (Some "docs") true true _) as [[o|e] w2]; reflexivity.
Qed.

Lemma run_shell_lines cmd cwd shell check w :
  exists new,
    console (snd (sh cmd cwd shell check w)) = console w ++ new
    /\ shell_lines new = [cmd].
Proof.
  rewrite run_unfold. cbv zeta. eexists. split.
  - destruct (returncode _ =? 0); [|destruct check]; cbn [snd];
      unfold run_end; cbn [console]; reflexivity.
  - cbn [List.app shell_lines]. destruct (returncode _ =? 0); reflexivity.
Qed.

Lemma install_theme_outcome s :
  let w0 := {| fs := fs (world s);
               console := console (world s)
                          ++ [Printed "Installing Doxygen Awesome Theme..."] |} in
  let r := theme s in
  removed (snd r)
  = removed s ++ (if path_exists w0 THEME_DIR
                  then [(S (List.length (console (world s))), THEME_DIR)] else [])
  /\ shell_lines (said (world s) (world (snd r)))
     = (if path_exists w0 THEME_DIR
        then match fst (rmtree w0 THEME_DIR) with
             | Some _ => []
             | None => [CLONE_THEME]
             end
        else [CLONE_THEME])
  /\ (forall p, fst r = Ret p -> p = THEME_DIR).
Proof.
  cbv zeta. rewrite install_theme_unfold. cbv zeta.
  set (w0 := {| fs := fs (world s);
                console := console (world s)
                           ++ [Printed "Installing Doxygen Awesome Theme..."] |}).
  assert (Hlen : List.length (console w0) = S (List.length (console (world s))))
    by (unfold w0; cbn [console]; rewrite length_app; cbn; lia).
  assert (Hclone : forall w1 gone,
            console w1 = console w0 ->
            let r := match sh CLONE_THEME (Some "docs") true true w1 with
                     | (Ret _, w2) => (Ret THEME_DIR, {| world := w2; removed := gone |})
                     | (Raise e, w2) => (Raise e, {| world := w2; removed := gone |})
                     end in
            removed (snd r) = gone
            /\ shell_lines (said (world s) (world (snd r))) = [CLONE_THEME]
            /\ (forall p, fst r = Ret p -> p = THEME_DIR)).
  { intros w1 gone Hw1. cbv zeta.
    destruct (run_shell_lines CLONE_THEME (Some "docs") true true w1) as (new & Hnew & Hsh).
    destruct (sh CLONE_THEME (Some "docs") true true w1) as [[o|e] w2];
      cbn [fst snd world removed] in *.
    - split; [reflexivity|]. split.
      + erewrite said_app;
          [|rewrite Hnew, Hw1; unfold w0; cbn [console]; rewrite <- app_assoc; reflexivity].
        cbn [List.app shell_lines]. exact Hsh.
      + intros p E. injection E as <-. reflexivity.
    - split; [reflexivity|]. split.
      + erewrite said_app;
          [|rewrite Hnew, Hw1; unfold w0; cbn [console]; rewrite <- app_assoc; reflexivity].
        cbn [List.app shell_lines]. exact Hsh.
      + intros p E. discriminate. }
  destruct (path_exists w0 THEME_DIR).
  - rewrite Hlen.
    destruct (rmtree w0 THEME_DIR) as [[e|] files]; cbn [fst].
    + cbn [snd removed world]. split; [reflexivity|]. split.
      * erewrite said_app; [|unfold w0; cbn [console]; reflexivity]. reflexivity.
      * intros p E. discriminate.
    + apply (Hclone {| fs := files; console := console w0 |}). reflexivity.
  - rewrite app_nil_r. apply (Hclone w0). reflexivity.
Qed.

(** X19.  [install_theme] removes the theme directory when and only when
    it is there, and it does so before it clones: the removal is recorded
    with the console as it stood then, one line long behind the start.  A
    removal that fails stops the call before the clone.  The path the call
    returns is always [docs/doxygen-awesome-css]. *)
Theorem install_theme_replaces s :
  let w0 := {| fs := fs (world s);
               console := console (world s)
                          ++ [Printed "Installing Doxygen Awesome Theme..."] |} in
  let r := theme s in
  removed (snd r)
  = removed s ++ (if path_exists w0 THEME_DIR
                  then [(S (List.length (console (world s))), THEME_DIR)] else [])
  /\ shell_lines (said (world s) (world (snd r)))
     = (if path_exists w0 THEME_DIR
        then match fst (rmtree w0 THEME_DIR) with
             | Some _ => []
             | None => [CLONE_THEME]
             end
        else [CLONE_THEME])
  /\ (forall p, fst r = Ret p -> p = THEME_DIR).
Proof. exact (install_theme_outcome s). Qed.

(** ** The last command of [main] *)

Lemma quiet_grows {S A} (con : S -> list Action) (m : M S A) :
  quiet con m -> grows con m.
Proof. intros H s. destruct (H s) as (new & E & _). eauto. Qed.

Lemma grows_install_windows :
  grows console (install_doxygen_windows gettempdir download_ unpack_archive glob).
Proof.
  intros w. rewrite install_windows_unfold.
  unfold windows_fetch, bind, print, act, external. cbn [fs console fst snd].
  destruct (download_ _ _ _) as [[e1|] files1]; cbn [fst snd fs console].
  { eexists. rewrite <- app_assoc. reflexivity. }
  destruct (unpack_archive _ _ _) as [[e2|] files2]; cbn [fst snd fs console].
  { eexists. rewrite <- !app_assoc. reflexivity. }
  destruct (glob _ _ _); cbn [snd console]; eexists; rewrite <- !app_assoc; reflexivity.
Qed.

Lemma grows_lift {A} (m : M World A) :
  grows console m -> grows site_console (lift m).
Proof.
  intros Hm s. unfold lift. destruct (Hm (world s)) as (new & H).
  destruct (m (world s)) as [r w']. cbn [snd world] in *. eauto.
Qed.

Lemma install_unix_path w p :
  fst (install_doxygen_unix subprocess_run w) = Ret p -> p = "doxygen-1.11.0/bin/doxygen".
Proof.
  unfold install_doxygen_unix.
  unfold bind at 1. unfold print at 1, act at 1.
  unfold bind at 1.
  destruct (sh _ None true true _) as [[o1|e1] w1]; cbn [fst]; [|discriminate].
  unfold bind at 1.
  destruct (sh _ None true true w1) as [[o2|e2] w2]; cbn [fst]; [|discriminate].
  intros H. injection H as <-. reflexivity.
Qed.

(** [generate_docs] that returns has run the generator, and nothing else. *)
Lemma generate_returns bin w r w' :
  generate bin w = (r, w') ->
  exists new, console w' = console w ++ new /\ shell_lines new = [GENERATE bin].
Proof.
  unfold generate_docs. unfold bind at 1. unfold print at 1, act at 1.
  unfold bind at 1. fold (GENERATE bin).
  destruct (run_shell_lines (GENERATE bin) (Some "docs") true true
              {| fs := fs w; console := console w ++ [Printed "Generating documentation..."] |})
    as (new & Hnew & Hsh).
  destruct (sh (GENERATE bin) (Some "docs") true true _) as [[o|e] w1];
    cbn [snd console] in Hnew; intros E; injection E as _ <-;
    exists (Printed "Generating documentation..." :: new);
    (split; [rewrite Hnew, <- app_assoc; reflexivity|exact Hsh]).
Qed.

Lemma main_unfold s :
  the_main s =
  match lift git_info s with
  | (Raise e, s1) => (Raise e, s1)
  | (Ret (v, msg), s1) =>
      match lift (if String.eqb os_name "nt"
                  then install_doxygen_windows gettempdir download_ unpack_archive glob
                  else install_doxygen_unix subprocess_run) s1 with
      | (Raise e, s2) => (Raise e, s2)
      | (Ret bin, s2) =>
          match theme s2 with
          | (Raise e, s3) => (Raise e, s3)
          | (Ret _, s3) =>
              match lift (update_doxyfile os_name v) s3 with
              | (Raise e, s4) => (Raise e, s4)
              | (Ret _, s4) =>
                  match lift (generate bin) s4 with
                  | (Raise e, s5) => (Raise e, s5)
                  | (Ret _, s5) =>
                      (Ret tt,
                       {| world :=
                            {| fs := fs (world s5);
                               console := console (world s5)
                                 ++ [Printed (LF +:+ "✅ Docs generated in: "
                                              +:+ resolve (world s5) HTML_OUTPUT_DIR);
                                     Printed ("📄 Commit message: " +:+ msg);
                                     Printed "✨ You can now manually deploy to GitHub Pages or automate this step."] |};
                          removed := removed s5 |})
                  end
              end
          end
      end
  end.
Proof.
  unfold main. unfold bind at 1.
  destruct (lift git_info s) as [[[v msg]|e] s1]; [|reflexivity].
  unfold bind at 1.
  destruct (lift _ s1) as [[bin|e] s2]; [|reflexivity].
  unfold bind at 1.
  destruct (theme s2) as [[p|e] s3]; [|reflexivity].
  unfold bind at 1.
  destruct (lift (update_doxyfile os_name v) s3) as [[[]|e] s4]; [|reflexivity].
  unfold bind at 1.
  destruct (lift (generate bin) s4) as [[[]|e] s5]; [|reflexivity].
  unfold bind, lift, print, act. cbn [fst snd world console fs removed].
  rewrite <- !app_assoc. reflexivity.
Qed.

(** X21.  When [main] returns, the last command it has run is the
    generator, on the path that the installer of the platform returned
    when it was run behind [get_git_info]: [install_doxygen_windows] where
    [os.name] is [nt], [install_doxygen_unix] elsewhere, and there the path
    is [doxygen-1.11.0/bin/doxygen]. *)
Theorem main_generates_last s :
  fst (the_main s) = Ret tt ->
  let w1 := snd (git_info (world s)) in
  exists before bin,
    fst ((if String.eqb os_name "nt"
          then install_doxygen_windows gettempdir download_ unpack_archive glob
          else install_doxygen_unix subprocess_run) w1) = Ret bin
    /\ shell_lines (said (world s) (world (snd (the_main s)))) = before ++ [GENERATE bin]
    /\ (os_name <> "nt" -> bin = "doxygen-1.11.0/bin/doxygen").
Proof.
  cbv zeta.
  rewrite main_unfold. set (installer := if String.eqb os_name "nt" then _ else _).
  assert (Hinst : grows console installer).
  { unfold installer. destruct (String.eqb os_name "nt");
      [apply grows_install_windows|apply quiet_grows, quiet_install_unix]. }
  assert (Hw1 : world (snd (lift git_info s)) = snd (git_info (world s)))
    by (unfold lift; destruct (git_info (world s)); reflexivity).
  destruct (grows_lift _ (quiet_grows _ _ quiet_get_git_info) s) as (n1 & H1).
  destruct (lift git_info s) as [[[v msg]|e] s1]; cbn [fst snd] in *; [|discriminate].
  rewrite <- Hw1.
  assert (Hfst : fst (lift installer s1) = fst (installer (world s1)))
    by (unfold lift; destruct (installer (world s1)); reflexivity).
  destruct (grows_lift _ Hinst s1) as (n2 & H2).
  assert (Hbin : forall bin, fst (installer (world s1)) = Ret bin ->
                 os_name <> "nt" -> bin = "doxygen-1.11.0/bin/doxygen").
  { intros bin E Hos. unfold installer in E. apply String.eqb_neq in Hos.
    rewrite Hos in E. exact (install_unix_path (world s1) bin E). }
  destruct (lift installer s1) as [[bin|e] s2]; cbn [fst snd] in *; [|discriminate].
  symmetry in Hfst. specialize (Hbin bin Hfst).
  destruct (quiet_grows _ _ quiet_install_theme s2) as (n3 & H3).
  destruct (theme s2) as [[p|e] s3]; cbn [fst snd] in *; [|discriminate].
  destruct (grows_lift _ (quiet_grows _ _ (quiet_update_doxyfile v)) s3) as (n4 & H4).
  destruct (lift (update_doxyfile os_name v) s3) as [[[]|e] s4]; cbn [fst snd] in *;
    [|discriminate].
  assert (H5 : exists n5, console (world (snd (lift (generate bin) s4)))
                          = console (world s4) ++ n5
                          /\ shell_lines n5 = [GENERATE bin]).
  { unfold lift. destruct (generate bin (world s4)) as [r w'] eqn:E.
    cbn [snd world]. exact (generate_returns _ _ _ _ E). }
  destruct H5 as (n5 & H5 & Hsh).
  destruct (lift (generate bin) s4) as [[[]|e] s5]; cbn [fst snd] in *; [|discriminate].
  intros _. exists (shell_lines (n1 ++ n2 ++ n3 ++ n4)), bin.
  split; [exact Hfst|]. split; [|exact Hbin].
  cbn [world console].
  erewrite said_app;
    [|rewrite H5, H4, H3, H2, H1; rewrite <- !app_assoc; reflexivity].
  rewrite !shell_lines_app, Hsh. cbn [shell_lines]. rewrite !app_nil_r, <- !app_assoc.
  reflexivity.
Qed.

End Main.

(** ** On concrete runs *)

Import Scenario MoreScenarios.

(** On Windows, with an archive that holds the executable. *)
Lemma main_generates_last_witness :
  exists before bin,
    fst (install_doxygen_windows "C:/Temp" download_ok unpack_nothing glob_finds
           (snd (get_git_info local_environ git_answers (world doxy_site)))) = Ret bin
    /\ shell_lines
         (said (world doxy_site)
            (world (snd (main local_environ "C:/Temp" "nt" git_answers download_ok
                           unpack_nothing glob_finds theme_present rmtree_ok resolve_abs
                           doxy_site))))
       = before ++ [GENERATE bin]
    /\ ("nt" <> "nt" -> bin = "doxygen-1.11.0/bin/doxygen").
Proof.
  apply (main_generates_last local_environ "C:/Temp" "nt" git_answers download_ok
           unpack_nothing glob_finds theme_present rmtree_ok resolve_abs doxy_site).
  vm_compute. reflexivity.
Defined.

(** The same run, in full: the generator is started on the executable that
    the search found, and the Doxyfile is stored with the line ends of the
    platform. *)
Example main_on_windows :
  let s := snd (main local_environ "C:/Temp" "nt" git_answers download_ok
                  unpack_nothing glob_finds theme_present rmtree_ok resolve_abs
                  doxy_site) in
  shell_lines (console (world s))
  = [TAG_QUERY; SHORT_SHA_QUERY; FULL_SHA_QUERY; CLONE_THEME;
     GENERATE "C:/Temp/doxygen-1.11.0/doxygen.exe"]
  /\ fs (world s) !! DOXYFILE_PATH
     = Some ("PROJECT_NAME = FastLED" +:+ String CR LF
             +:+ "PROJECT_NUMBER = 3.9.16" +:+ String CR LF
             +:+ "OUTPUT_DIRECTORY = ." +:+ String CR LF).
Proof. vm_compute. repeat split. Qed.

(** The whole run on a machine that is not Windows: the commands in
    order, and the one removal. *)
Example main_on_posix :
  let s := snd (main local_environ "/tmp" "posix" git_answers download_ok
                  unpack_nothing glob_nothing theme_present rmtree_ok resolve_abs
                  doxy_site) in
  shell_lines (console (world s))
  = [TAG_QUERY; SHORT_SHA_QUERY; FULL_SHA_QUERY;
     "wget -q https://www.doxygen.nl/files/doxygen-1.11.0.linux.bin.tar.gz";
     "tar -xf doxygen-1.11.0.linux.bin.tar.gz";
     CLONE_THEME;
     GENERATE "doxygen-1.11.0/bin/doxygen"]
  /\ map snd (removed s) = [THEME_DIR]
  /\ lines (default EmptyString (fs (world s) !! DOXYFILE_PATH))
     = ["PROJECT_NAME = FastLED"; "PROJECT_NUMBER = 3.9.16"; "OUTPUT_DIRECTORY = ."; EmptyString].
Proof. vm_compute. repeat split. Qed.

End PipelineProofs.
